(** * weather-data-service: the station gateway of [src/server.py]

    A shallow embedding of [StationService] (constructor and the four RPC
    handlers) and of [serve], over an abstract Cassandra session, followed
    by a model of the replicated store the session talks to, and by the
    properties of the service proved over both. *)

From stdpp Require Import base option list strings gmap.
From Stdlib Require Import ZArith Lia Ascii.

Local Open Scope string_scope.
Local Open Scope list_scope.
Local Open Scope Z_scope.

(** ** Exceptions

    The handlers tell exceptions apart by class only: the two store
    exceptions [cassandra.Unavailable] and
    [cassandra.cluster.NoHostAvailable], the three classes the scan loop of
    [StationMax] ignores, and everything else that derives from
    [Exception].  [str e] is Python's [str(e)]. *)

Inductive exn_class : Type :=
  | Unavailable
  | NoHostAvailable
  | IndexError
  | ValueError
  | TypeError
  | AttributeError
  | OtherException.

Record exn : Type := Exn { class_of : exn_class; str : string }.

Global Instance exn_class_eq_dec : EqDecision exn_class.
Proof. solve_decision. Defined.

(** [except (cassandra.Unavailable, cassandra.cluster.NoHostAvailable)] *)
Definition is_unavailable (e : exn) : bool :=
  match class_of e with
  | Unavailable | NoHostAvailable => true
  | _ => false
  end.

(** [except (IndexError, ValueError, TypeError)] *)
Definition is_row_error (e : exn) : bool :=
  match class_of e with
  | IndexError | ValueError | TypeError => true
  | _ => false
  end.

(** ** The monad of the service code

    A computation runs against a world [W] (the cluster behind the session,
    the console), may change it, and either returns or raises. *)

Definition M (W A : Type) : Type := W → W * (exn + A).

Global Instance M_ret {W} : MRet (M W) := λ A a w, (w, inr a).

Global Instance M_bind {W} : MBind (M W) := λ A B f m w,
  match m w with
  | (w', inr a) => f a w'
  | (w', inl e) => (w', inl e)
  end.

Definition raise {W A} (e : exn) : M W A := λ w, (w, inl e).

(** [try: body except Exception as e: handler e] *)
Definition try_except {W A} (body : M W A) (handler : exn → M W A) : M W A :=
  λ w, match body w with
       | (w', inl e) => handler e w'
       | (w', inr a) => (w', inr a)
       end.

(** ** Values of a result row *)

(** What [int(v)] makes of a value that is not an integer. *)
Inductive misfit : Type :=
  | NotANumeral   (* text that spells no integer: [ValueError] *)
  | NotConvertible. (* an object without integer conversion: [TypeError] *)

(** A cell of a row of [select record.tmax], as [StationMax] observes it:
    through [is not None] and through [int(·)].  [PyInt n] stands for an
    int; the column is an [int] column, so the driver delivers nothing but
    ints and [None], and the misfits are there for the handling the code
    has for them all the same.  Floats are not modelled. *)
Inductive pyval : Type :=
  | PyNone
  | PyInt (n : Z)
  | PyMisfit (k : misfit).

(** [row[i]] on a tuple *)
Definition getitem {W} (row : list pyval) (i : nat) : M W pyval :=
  match row !! i with
  | Some v => mret v
  | None => raise (Exn IndexError "tuple index out of range")
  end.

(** [int(v)] *)
Definition int {W} (v : pyval) : M W Z :=
  match v with
  | PyInt n => mret n
  | PyMisfit NotANumeral =>
      raise (Exn ValueError "invalid literal for int() with base 10")
  | PyMisfit NotConvertible | PyNone =>
      raise (Exn TypeError
        "int() argument must be a string, a bytes-like object or a real number")
  end.

(** ** Statements, parameters and rows *)

Inductive ConsistencyLevel : Type :=
  | ANY | ONE | TWO | THREE | QUORUM | ALL
  | LOCAL_QUORUM | EACH_QUORUM | SERIAL | LOCAL_SERIAL | LOCAL_ONE.

Global Instance ConsistencyLevel_eq_dec : EqDecision ConsistencyLevel.
Proof. solve_decision. Defined.

(** The four statements the service prepares, by the text it passes to
    [session.prepare]:
    - [InsertName]: insert into stations (id, name) values (?, ?)
    - [InsertTemp]: insert into stations (id, date, record) values (?, ?, ?)
    - [SelectName]: select name from stations where id = ? limit 1
    - [SelectTmax]: select record.tmax from stations where id = ? *)
Inductive query : Type := InsertName | InsertTemp | SelectName | SelectTmax.

Global Instance query_eq_dec : EqDecision query.
Proof. solve_decision. Defined.

(** A [PreparedStatement]; [session.prepare] leaves its
    [consistency_level] unset. *)
Record prepared (q : query) : Type :=
  Prepared { consistency_level : option ConsistencyLevel }.
Arguments Prepared {q} _.
Arguments consistency_level {q} _.

(** The tuple bound to the markers of a statement. *)
Definition params (q : query) : Type :=
  match q with
  | InsertName => string * string
  | InsertTemp => string * string * (Z * Z)
  | SelectName => string
  | SelectTmax => string
  end.

(** A row of [select name]: a named tuple with the one field [name], a
    text column that is null when the station was never named. *)
Record NameRow : Type := Row { name : option string }.

(** The rows a statement yields: none for an insert. *)
Definition row (q : query) : Type :=
  match q with
  | InsertName | InsertTemp => Empty_set
  | SelectName => NameRow
  | SelectTmax => list pyval
  end.

(** Schema statements, by the text passed to [session.execute]. *)
Inductive cql_type : Type := CqlText | CqlInt | CqlDate | CqlUdt (type_name : string).

Inductive replication_class : Type := SimpleStrategy | NetworkTopologyStrategy.

Record column : Type :=
  Column { column_name : string; column_type : cql_type; static : bool }.

Inductive clustering_order : Type := Asc | Desc.

Record table_schema : Type :=
  TableSchema {
    columns : list column;
    partition_key : list string;
    clustering_key : list (string * clustering_order) }.

Inductive ddl : Type :=
  | DropKeyspace (if_exists : bool) (keyspace : string)
  | CreateKeyspace (keyspace : string) (class : replication_class)
      (replication_factor : nat)
  | CreateType (if_not_exists : bool) (type_name : string)
      (fields : list (string * cql_type))
  | CreateTable (if_not_exists : bool) (table : string) (schema : table_schema).

Global Instance cql_type_eq_dec : EqDecision cql_type.
Proof. solve_decision. Defined.
Global Instance replication_class_eq_dec : EqDecision replication_class.
Proof. solve_decision. Defined.
Global Instance column_eq_dec : EqDecision column.
Proof. solve_decision. Defined.
Global Instance clustering_order_eq_dec : EqDecision clustering_order.
Proof. solve_decision. Defined.
Global Instance table_schema_eq_dec : EqDecision table_schema.
Proof. solve_decision. Defined.

(** ** Driver metadata, as [StationSchema] reads it *)

Record TableMetadata : Type :=
  { export_as_string : exn + string }.

Record KeyspaceMetadata : Type :=
  { tables : gmap string TableMetadata }.

(** ** The session

    Everything the service asks of the outside: the Cassandra driver, the
    Spark job that reads the station file, and standard output. *)
Class Session (W : Type) : Type := {
  (** [Cluster(contact_points, connect_timeout=30).connect()] *)
  cluster_connect : M W unit;
  (** [session.execute(text)] for a schema statement *)
  session_execute_ddl : ddl → M W unit;
  session_set_keyspace : string → M W unit;
  (** [session.prepare(text)]: the server checks the statement *)
  session_prepare : query → M W unit;
  (** [session.execute(prepared, params)] *)
  session_execute : ∀ q, prepared q → params q → M W (list (row q));
  (** [cluster.metadata.keyspaces] *)
  metadata_keyspaces : W → gmap string KeyspaceMetadata;
  (** the Spark pipeline up to [.collect()]: [(id, name)] columns of the
      lines of the station file whose state column is WI *)
  spark_wi_stations : M W (list (string * string));
  (** [print(line, flush=True)] *)
  print : string → W → W
}.
Arguments session_execute {W _ q} _ _.

(** ** Messages of the RPC interface *)

(** The request and reply messages come from the generated module
    [station_pb2], which is not among the sources; each is modelled from
    the interface the specification gives, where every field is a plain
    scalar, text or integer. *)

(** Modelled from the spec: [station_pb2.StationSchemaReply], missing from
    the sources; [StationSchema() -> {schema: text, error: text}]. *)
Module StationSchemaReply.
Record t : Type := mk { schema : string; error : string }.
End StationSchemaReply.

(** Modelled from the spec: [station_pb2.StationNameRequest], missing from
    the sources; [StationName(station: text)]. *)
Module StationNameRequest.
Record t : Type := mk { station : string }.
End StationNameRequest.

(** Modelled from the spec: [station_pb2.StationNameReply], missing from
    the sources; [StationName(...) -> {name: text, error: text}]. *)
Module StationNameReply.
Record t : Type := mk { name : string; error : string }.
End StationNameReply.

(** Modelled from the spec: [station_pb2.RecordTempsRequest], missing from
    the sources; [RecordTemps(station: text, date: text, tmin: integer,
    tmax: integer)]. *)
Module RecordTempsRequest.
Record t : Type := mk { station : string; date : string; tmin : Z; tmax : Z }.
End RecordTempsRequest.

(** Modelled from the spec: [station_pb2.RecordTempsReply], missing from
    the sources; [RecordTemps(...) -> {error: text}]. *)
Module RecordTempsReply.
Record t : Type := mk { error : string }.
End RecordTempsReply.

(** Modelled from the spec: [station_pb2.StationMaxRequest], missing from
    the sources; [StationMax(station: text)]. *)
Module StationMaxRequest.
Record t : Type := mk { station : string }.
End StationMaxRequest.

(** Modelled from the spec: [station_pb2.StationMaxReply], missing from
    the sources; [StationMax(...) -> {tmax: integer, error: text}]. *)
Module StationMaxReply.
Record t : Type := mk { tmax : Z; error : string }.
End StationMaxReply.

(** ** The service object

    The prepared statements [__init__] leaves on [self]; the cluster, the
    session and the Spark session it also keeps there are the world the
    computations run against.  [init_insert_name] exists only once a
    station row was seeded; [StationMax] itself tests whether
    [select_tmax] is there. *)
Record StationService : Type := {
  init_insert_name : option (prepared InsertName);
  insert_temp : prepared InsertTemp;
  select_name : prepared SelectName;
  select_tmax : option (prepared SelectTmax)
}.

(** [stmt.consistency_level = level] *)
Definition set_consistency_level {q} (stmt : prepared q)
  (level : ConsistencyLevel) : prepared q :=
  Prepared (Some level).

(** [str.strip()], on ASCII text: the characters Python counts as white
    space below code 128. *)
Definition is_space (c : Ascii.ascii) : bool :=
  let n := Ascii.nat_of_ascii c in
  ((9 <=? n) && (n <=? 13) || (28 <=? n) && (n <=? 32))%nat.

Fixpoint lstrip (s : string) : string :=
  match s with
  | String c s' => if is_space c then lstrip s' else s
  | EmptyString => EmptyString
  end.

Definition strip (s : string) : string :=
  String.rev (lstrip (String.rev (lstrip s))).

(** [ResultSet.one()] *)
Definition one {A} (rows : list A) : option A := head rows.

Section Gateway.
Context {W : Type} `{!Session W}.

(** *** The constructor *)

(** The schema statements of [__init__], in the order it issues them. *)
Definition drop_keyspace : ddl := DropKeyspace true "weather".

Definition create_keyspace : ddl := CreateKeyspace "weather" SimpleStrategy 3.

Definition create_type : ddl :=
  CreateType true "station_record" [("tmin", CqlInt); ("tmax", CqlInt)].

Definition stations_schema : table_schema :=
  TableSchema
    [Column "id" CqlText false; Column "date" CqlDate false;
     Column "name" CqlText true; Column "record" (CqlUdt "station_record") false]
    ["id"] [("date", Asc)].

Definition create_table : ddl := CreateTable true "stations" stations_schema.

(** [print(line, flush=True)] as a computation *)
Definition println (line : string) : M W unit := λ w, (print line w, inr tt).

(** [session.prepare(text)]: a fresh statement object, no level set. *)
Definition prepare (q : query) : M W (prepared q) :=
  session_prepare q;; mret (Prepared None).

(** The body of the seeding loop for one row: one [try] whose handler is
    [pass].  The state carried from row to row is the attribute
    [self.init_insert_name], which is set exactly when the flag
    [prepared_init_insert] is.  An exception leaves the attribute as it was
    when raised: untouched when [prepare] raised, assigned when the
    [execute] after the assignment did, which is what the inner handler
    returns. *)
Definition seed_row (init_insert_name : option (prepared InsertName))
    (r : string * string) : M W (option (prepared InsertName)) :=
  try_except
    (let station_id := strip r.1 in
     let station_name := strip r.2 in
     stmt ← match init_insert_name with
            | Some stmt => mret stmt
            | None => prepare InsertName
            end;
     try_except
       (session_execute (q := InsertName) stmt (station_id, station_name);;
        mret (Some stmt))
       (λ _, mret (Some stmt)))
    (λ _, mret init_insert_name).

Fixpoint seed_names (rows : list (string * string))
    (init_insert_name : option (prepared InsertName))
  : M W (option (prepared InsertName)) :=
  match rows with
  | [] => mret init_insert_name
  | r :: rest =>
      init_insert_name ← seed_row init_insert_name r;
      seed_names rest init_insert_name
  end.

(** The [try] block that prepares the statements of the RPC calls; its
    handler prints and raises the exception again. *)
Definition prepare_rpc_statements
  : M W (prepared InsertTemp * prepared SelectName * prepared SelectTmax) :=
  try_except
    (insert_temp ← prepare InsertTemp;
     let insert_temp := set_consistency_level insert_temp ONE in
     select_name ← prepare SelectName;
     let select_name := set_consistency_level select_name ONE in
     select_tmax ← prepare SelectTmax;
     let select_tmax := set_consistency_level select_tmax THREE in
     mret (insert_temp, select_name, select_tmax))
    (λ prep_e,
       println ("!!! CRITICAL ERROR: Failed to prepare statements in __init__: "
                +:+ str prep_e);;
       raise prep_e).

(** [StationService.__init__] *)
Definition init : M W StationService :=
  cluster_connect;;
  session_execute_ddl drop_keyspace;;
  session_execute_ddl create_keyspace;;
  session_set_keyspace "weather";;
  session_execute_ddl create_type;;
  session_execute_ddl create_table;;
  wi_stations ← spark_wi_stations;
  init_insert_name ← seed_names wi_stations None;
  '(insert_temp, select_name, select_tmax) ← prepare_rpc_statements;
  println "Server started";;
  mret {| init_insert_name := init_insert_name;
          insert_temp := insert_temp;
          select_name := select_name;
          select_tmax := Some select_tmax |}.

(** [serve]: the process either dies with the exception of the constructor
    or comes to serve requests with the service object it built. *)
Inductive process : Type :=
  | Serving (service_instance : StationService).

Definition serve : M W process :=
  service_instance ← init;
  mret (Serving service_instance).

(** *** The four handlers *)

(** A pure step that may raise, run as a computation. *)
Definition lift {A} (r : exn + A) : M W A := λ w, (w, r).

(** [StationService.StationSchema] *)
Definition StationSchema (self : StationService) : M W StationSchemaReply.t :=
  try_except
    (keyspace_meta ← (λ w, (w, inr (metadata_keyspaces w !! "weather")));
     table_meta ←
       match keyspace_meta with
       | Some keyspace_meta => mret (tables keyspace_meta !! "stations")
       | None =>
           raise (Exn AttributeError
                    "'NoneType' object has no attribute 'tables'")
       end;
     create_stmt ←
       match table_meta with
       | Some table_meta => lift (export_as_string table_meta)
       | None =>
           raise (Exn AttributeError
                    "'NoneType' object has no attribute 'export_as_string'")
       end;
     mret (StationSchemaReply.mk create_stmt ""))
    (λ e, mret (StationSchemaReply.mk "" (str e))).

(** Truth value of [row.name]: neither [None] nor the empty text. *)
Definition truthy (v : option string) : bool :=
  match v with
  | Some s => bool_decide (s ≠ "")
  | None => false
  end.

(** [StationService.StationName] *)
Definition StationName (self : StationService)
    (request : StationNameRequest.t) : M W StationNameReply.t :=
  try_except
    (rows ← session_execute (select_name self)
              (StationNameRequest.station request);
     match one rows with
     | Some {| name := Some row_name |} =>
         if truthy (Some row_name)
         then mret (StationNameReply.mk row_name "")
         else mret (StationNameReply.mk "" "station not found or name missing")
     | _ => mret (StationNameReply.mk "" "station not found or name missing")
     end)
    (λ e, mret (StationNameReply.mk "" (str e))).

(** [StationService.RecordTemps] *)
Definition RecordTemps (self : StationService)
    (request : RecordTempsRequest.t) : M W RecordTempsReply.t :=
  try_except
    (let date_value := RecordTempsRequest.date request in
     let record_tuple :=
       (RecordTempsRequest.tmin request, RecordTempsRequest.tmax request) in
     session_execute (insert_temp self)
       (RecordTempsRequest.station request, date_value, record_tuple);;
     mret (RecordTempsReply.mk ""))
    (λ e, if is_unavailable e
          then mret (RecordTempsReply.mk "unavailable")
          else mret (RecordTempsReply.mk (str e))).

(** The inner [try] of the scan: the value of [current_tmax] after it. *)
Definition read_tmax (row : list pyval) : M W (option Z) :=
  try_except
    (potential_tmax ← getitem row 0;
     match potential_tmax with
     | PyNone => mret None
     | _ => current_tmax ← int potential_tmax; mret (Some current_tmax)
     end)
    (λ e, if is_row_error e then mret None else raise e).

(** [if current_tmax is not None: if max_tmax is None or current_tmax >
    max_tmax: max_tmax = current_tmax] *)
Definition update_max (max_tmax current_tmax : option Z) : option Z :=
  match current_tmax with
  | Some c =>
      match max_tmax with
      | None => Some c
      | Some m => if c >? m then Some c else Some m
      end
  | None => max_tmax
  end.

(** [for row in rows: ...] *)
Fixpoint scan_rows (rows : list (list pyval)) (max_tmax : option Z)
  : M W (option Z) :=
  match rows with
  | [] => mret max_tmax
  | row :: rest =>
      current_tmax ← read_tmax row;
      scan_rows rest (update_max max_tmax current_tmax)
  end.

(** [StationService.StationMax] *)
Definition StationMax (self : StationService)
    (request : StationMaxRequest.t) : M W StationMaxReply.t :=
  try_except
    (match select_tmax self with
     | None =>
         mret (StationMaxReply.mk 0 "Server error: select statement not prepared")
     | Some select_tmax =>
         rows ← session_execute select_tmax
                  (StationMaxRequest.station request);
         max_tmax ← scan_rows rows None;
         let max_tmax := match max_tmax with None => 0 | Some m => m end in
         mret (StationMaxReply.mk max_tmax "")
     end)
    (λ e, if is_unavailable e
          then mret (StationMaxReply.mk 0 "unavailable")
          else mret (StationMaxReply.mk 0 (str e))).

End Gateway.

(** ** The store behind the session

    A model of the Cassandra cluster the service connects to, as far as the
    statements of the service exercise it: keyspaces with their replication
    settings, user types and tables; the [stations] table as partitions by
    station id holding the static name and the rows in clustering order; the
    number of replicas that can be reached at the moment.  The table is kept
    as the one logical copy that a coordinator able to reach enough replicas
    answers from; how it counts replicas follows the consistency level of
    the statement.  Write timestamps, hints and repair are left out, and
    with them the stale answers a read below the replication factor can
    get: nothing below is proved about what [StationName] sees of a name
    written while replicas were away.  The cluster answers one request at
    a time; between requests the environment may change the number of
    replicas in reach. *)

(** The driver's reading of the text bound to a [date] marker, as a day
    number; [None] when it rejects the text. *)
Class DateCodec : Type := date_of_text : string → option Z.

Record partition : Type := {
  static_name : option string;
  clustering : list (Z * (Z * Z))   (* date ↦ (tmin, tmax), ascending *)
}.

Record table : Type := {
  schema_of : table_schema;
  partitions : gmap string partition
}.

Record keyspace : Type := {
  replication : replication_class * nat;
  user_types : gmap string (list (string * cql_type));
  tables_of : gmap string table
}.

Record cluster : Type := {
  (** replicas that answer, out of the nodes of the cluster *)
  live : nat;
  (** the session default for statements that carry no level *)
  default_consistency_level : ConsistencyLevel;
  keyspaces : gmap string keyspace;
  (** the keyspace the session is set to *)
  current_keyspace : option string;
  (** what the Spark job collects from the station file *)
  station_file : exn + list (string * string);
  stdout : list string
}.

(** Replicas a coordinator waits for, by level and replication factor. *)
Definition block_for (level : ConsistencyLevel) (rf : nat) : nat :=
  match level with
  | ANY | ONE | LOCAL_ONE => 1
  | TWO => 2
  | THREE => 3
  | QUORUM | LOCAL_QUORUM | EACH_QUORUM | SERIAL | LOCAL_SERIAL => rf / 2 + 1
  | ALL => rf
  end%nat.

(** The level a statement runs at: its own, or else the session default. *)
Definition effective_level {q} (c : cluster) (stmt : prepared q)
  : ConsistencyLevel :=
  default (default_consistency_level c) (consistency_level stmt).

Definition in_int32 (z : Z) : bool := (- 2 ^ 31 <=? z) && (z <? 2 ^ 31).

(** One row of a partition is written: the clustering key decides the
    place, an equal key is overwritten. *)
Fixpoint upsert (d : Z) (r : Z * Z) (rows : list (Z * (Z * Z)))
  : list (Z * (Z * Z)) :=
  match rows with
  | [] => [(d, r)]
  | (d', r') :: rest =>
      if d <? d' then (d, r) :: rows
      else if d =? d' then (d, r) :: rest
      else (d', r') :: upsert d r rest
  end.

Definition empty_partition : partition :=
  {| static_name := None; clustering := [] |}.

Definition with_keyspaces (c : cluster) (k : gmap string keyspace) : cluster :=
  {| live := live c; default_consistency_level := default_consistency_level c;
     keyspaces := k; current_keyspace := current_keyspace c;
     station_file := station_file c; stdout := stdout c |}.

Definition with_current_keyspace (c : cluster) (k : option string) : cluster :=
  {| live := live c; default_consistency_level := default_consistency_level c;
     keyspaces := keyspaces c; current_keyspace := k;
     station_file := station_file c; stdout := stdout c |}.

Definition with_stdout (c : cluster) (out : list string) : cluster :=
  {| live := live c; default_consistency_level := default_consistency_level c;
     keyspaces := keyspaces c; current_keyspace := current_keyspace c;
     station_file := station_file c; stdout := out |}.

(** The environment: from now on [n] replicas answer. *)
Definition with_live (c : cluster) (n : nat) : cluster :=
  {| live := n; default_consistency_level := default_consistency_level c;
     keyspaces := keyspaces c; current_keyspace := current_keyspace c;
     station_file := station_file c; stdout := stdout c |}.

Definition with_tables (k : keyspace) (t : gmap string table) : keyspace :=
  {| replication := replication k; user_types := user_types k; tables_of := t |}.

Definition with_user_types (k : keyspace)
    (t : gmap string (list (string * cql_type))) : keyspace :=
  {| replication := replication k; user_types := t; tables_of := tables_of k |}.

Definition no_host : exn :=
  Exn NoHostAvailable "('Unable to complete the operation against any hosts', {})".

Definition cannot_achieve : exn :=
  Exn Unavailable
      "Error from server: code=1000 [Unavailable exception] message=Cannot achieve consistency level".

Definition invalid_request (message : string) : exn :=
  Exn OtherException ("Error from server: code=2200 [Invalid query] message=" +:+ message).

(** Reading and replacing the state of the cluster. *)
Definition get : M cluster cluster := λ c, (c, inr c).

Definition put (c : cluster) : M cluster unit := λ _, (c, inr tt).

(** Any request needs one node to talk to. *)
Definition need_host : M cluster unit :=
  c ← get;
  if decide (live c = 0%nat) then raise no_host else mret tt.

(** The keyspace the session is set to, with its definition. *)
Definition need_keyspace : M cluster (string * keyspace) :=
  c ← get;
  match current_keyspace c with
  | None => raise (invalid_request "No keyspace has been specified")
  | Some k =>
      match keyspaces c !! k with
      | None => raise (invalid_request "Keyspace does not exist")
      | Some ks => mret (k, ks)
      end
  end.

(** The [stations] table as the statements of the service expect it. *)
Definition need_stations : M cluster (string * keyspace * table) :=
  '(k, ks) ← need_keyspace;
  match tables_of ks !! "stations" with
  | Some t =>
      if decide (schema_of t = stations_schema) then mret (k, ks, t)
      else raise (invalid_request "Undefined column name")
  | None => raise (invalid_request "unconfigured table stations")
  end.

Definition store_keyspace (k : string) (ks : keyspace) : M cluster unit :=
  c ← get; put (with_keyspaces c (<[k := ks]> (keyspaces c))).

(** Column types have to be known: a user type must have been created. *)
Definition known_type (ks : keyspace) (col : column) : bool :=
  match column_type col with
  | CqlUdt u => bool_decide (is_Some (user_types ks !! u))
  | _ => true
  end.

Definition run_ddl (stmt : ddl) : M cluster unit :=
  need_host;;
  match stmt with
  | DropKeyspace if_exists k =>
      c ← get;
      match keyspaces c !! k with
      | Some _ => put (with_keyspaces c (delete k (keyspaces c)))
      | None =>
          if if_exists then mret tt
          else raise (Exn OtherException "Cannot drop non existing keyspace")
      end
  | CreateKeyspace k class rf =>
      c ← get;
      match keyspaces c !! k with
      | Some _ => raise (Exn OtherException "Keyspace already exists")
      | None =>
          store_keyspace k
            {| replication := (class, rf); user_types := ∅; tables_of := ∅ |}
      end
  | CreateType if_not_exists name fields =>
      '(k, ks) ← need_keyspace;
      match user_types ks !! name with
      | Some _ =>
          if if_not_exists then mret tt
          else raise (invalid_request "A user type with that name already exists")
      | None =>
          store_keyspace k (with_user_types ks (<[name := fields]> (user_types ks)))
      end
  | CreateTable if_not_exists name schema =>
      '(k, ks) ← need_keyspace;
      match tables_of ks !! name with
      | Some _ =>
          if if_not_exists then mret tt
          else raise (Exn OtherException "Table already exists")
      | None =>
          if forallb (known_type ks) (columns schema)
          then store_keyspace k
                 (with_tables ks
                    (<[name := {| schema_of := schema; partitions := ∅ |}]>
                       (tables_of ks)))
          else raise (invalid_request "Unknown type")
      end
  end.

Definition run_set_keyspace (k : string) : M cluster unit :=
  need_host;;
  c ← get;
  match keyspaces c !! k with
  | Some _ => put (with_current_keyspace c (Some k))
  | None => raise (invalid_request "Keyspace does not exist")
  end.

Definition run_prepare (q : query) : M cluster unit :=
  need_host;; need_stations;; mret tt.

(** The coordinator refuses when fewer replicas answer than the level of
    the statement asks for. *)
Definition need_replicas {q} (stmt : prepared q) (ks : keyspace) : M cluster unit :=
  c ← get;
  if decide (live c < block_for (effective_level c stmt) (replication ks).2)%nat
  then raise cannot_achieve else mret tt.

(** What every statement on the [stations] table goes through at the
    coordinator: a node to talk to, the table, enough replicas. *)
Definition coordinate {q} (stmt : prepared q)
  : M cluster (string * keyspace * table) :=
  need_host;;
  '(k, ks, t) ← need_stations;
  need_replicas stmt ks;;
  mret (k, ks, t).

(** The cluster with partition [id] of the table replaced by [p]. *)
Definition with_partition (c : cluster) (k : string) (ks : keyspace) (t : table)
    (id : string) (p : partition) : cluster :=
  with_keyspaces c
    (<[k := with_tables ks
              (<["stations" := {| schema_of := schema_of t;
                                  partitions := <[id := p]> (partitions t) |}]>
                 (tables_of ks))]> (keyspaces c)).

Definition write_partition (k : string) (ks : keyspace) (t : table)
    (id : string) (p : partition) : M cluster unit :=
  c ← get; put (with_partition c k ks t id p).

(** The rows of [select name ... limit 1] for a partition. *)
Definition name_rows (p : option partition) : list NameRow :=
  match p with
  | None => []
  | Some p =>
      match clustering p, static_name p with
      | [], None => []
      | _, n => [Row n]
      end
  end.

(** The rows of [select record.tmax] for a partition: one per clustering
    row; a partition holding a static name only shows as one row of nulls. *)
Definition tmax_rows (p : option partition) : list (list pyval) :=
  match p with
  | None => []
  | Some p =>
      match clustering p, static_name p with
      | [], None => []
      | [], Some _ => [[PyNone]]
      | rows, _ => (λ r, [PyInt r.2.2]) <$> rows
      end
  end.

Section Store.
Context `{!DateCodec}.

(** What the driver does with the bound values before it sends them: the
    date text has to read as a date, [tmin] and [tmax] have to fit the
    [int] fields of the record type. *)
Definition bind_record (date : string) (record : Z * Z) : M cluster Z :=
  match date_of_text date with
  | None => raise (Exn ValueError "time data does not match format '%Y-%m-%d'")
  | Some d =>
      if in_int32 record.1 && in_int32 record.2 then mret d
      else raise (Exn TypeError "Received an argument of invalid type for column record")
  end.

Definition run_execute (q : query) : prepared q → params q → M cluster (list (row q)) :=
  match q with
  | InsertName => λ stmt '(id, name),
      '(k, ks, t) ← coordinate stmt;
      let p := default empty_partition (partitions t !! id) in
      write_partition k ks t id
        {| static_name := Some name; clustering := clustering p |};;
      mret []
  | InsertTemp => λ stmt '(id, date, record),
      d ← bind_record date record;
      '(k, ks, t) ← coordinate stmt;
      let p := default empty_partition (partitions t !! id) in
      write_partition k ks t id
        {| static_name := static_name p;
           clustering := upsert d record (clustering p) |};;
      mret []
  | SelectName => λ stmt (id : string),
      '(k, ks, t) ← coordinate stmt;
      mret (name_rows (partitions t !! id))
  | SelectTmax => λ stmt (id : string),
      '(k, ks, t) ← coordinate stmt;
      mret (tmax_rows (partitions t !! id))
  end.

(** The text [export_as_string] gives for a table. *)
Definition render_type (t : cql_type) : string :=
  match t with
  | CqlText => "text"
  | CqlInt => "int"
  | CqlDate => "date"
  | CqlUdt u => "frozen<" +:+ u +:+ ">"
  end.

Definition render_column (col : column) : string :=
  column_name col +:+ " " +:+ render_type (column_type col)
  +:+ (if static col then " static" else "").

Definition render_order (o : string * clustering_order) : string :=
  o.1 +:+ (match o.2 with Asc => " ASC" | Desc => " DESC" end).

Definition render_table (k name : string) (sch : table_schema) : string :=
  "CREATE TABLE " +:+ k +:+ "." +:+ name +:+ " ("
  +:+ String.concat ", " (render_column <$> columns sch)
  +:+ ", PRIMARY KEY ((" +:+ String.concat ", " (partition_key sch) +:+ "), "
  +:+ String.concat ", " (fst <$> clustering_key sch)
  +:+ ")) WITH CLUSTERING ORDER BY ("
  +:+ String.concat ", " (render_order <$> clustering_key sch) +:+ ")".

Definition keyspace_metadata (k : string) (ks : keyspace) : KeyspaceMetadata :=
  {| tables := map_imap (λ name t,
       Some {| export_as_string := inr (render_table k name (schema_of t)) |})
       (tables_of ks) |}.

Global Instance cluster_session : Session cluster := {|
  cluster_connect :=
    need_host;; c ← get; put (with_current_keyspace c None);
  session_execute_ddl := run_ddl;
  session_set_keyspace := run_set_keyspace;
  session_prepare := run_prepare;
  session_execute := run_execute;
  metadata_keyspaces := λ c,
    map_imap (λ k ks, Some (keyspace_metadata k ks)) (keyspaces c);
  spark_wi_stations := c ← get; lift (station_file c);
  print := λ line c, with_stdout c (stdout c ++ [line])
|}.

(** *** Histories

    What happens to a running service: calls of its handlers, and the
    environment taking replicas away or bringing them back. *)
Inductive event : Type :=
  | CallStationSchema
  | CallStationName (request : StationNameRequest.t)
  | CallRecordTemps (request : RecordTempsRequest.t)
  | CallStationMax (request : StationMaxRequest.t)
  | Reachable (replicas : nat).

Definition step (self : StationService) (c : cluster) (ev : event) : cluster :=
  match ev with
  | CallStationSchema => (StationSchema self c).1
  | CallStationName request => (StationName self request c).1
  | CallRecordTemps request => (RecordTemps self request c).1
  | CallStationMax request => (StationMax self request c).1
  | Reachable n => with_live c n
  end.

Definition run (self : StationService) (history : list event) (c : cluster)
  : cluster :=
  foldl (step self) c history.

(** The record under a clustering key, first match. *)
Fixpoint row_at (d : Z) (rows : list (Z * (Z * Z))) : option (Z * Z) :=
  match rows with
  | [] => None
  | (d', r) :: rest => if d =? d' then Some r else row_at d rest
  end.

(** The record a station holds for a day, in the keyspace of the session. *)
Definition stored (c : cluster) (id : string) (d : Z) : option (Z * Z) :=
  k ← current_keyspace c;
  ks ← keyspaces c !! k;
  t ← tables_of ks !! "stations";
  p ← partitions t !! id;
  row_at d (clustering p).

(** An event that writes the day [d] of station [id]. *)
Definition writes (id : string) (d : Z) (ev : event) : Prop :=
  match ev with
  | CallRecordTemps request =>
      RecordTempsRequest.station request = id
      ∧ date_of_text (RecordTempsRequest.date request) = Some d
  | _ => False
  end.

End Store.

(** *** Fault injection

    A session in front of the cluster that answers the driver calls from a
    script first: a scripted exception is raised in place of the call, a
    scripted pass lets the call through to the cluster. *)
Record faulty : Type := { script : list (option exn); inner : cluster }.

Definition inject {A} (call : M cluster A) : M faulty A :=
  λ f, match script f with
       | Some e :: rest => ({| script := rest; inner := inner f |}, inl e)
       | None :: rest =>
           let r := call (inner f) in ({| script := rest; inner := r.1 |}, r.2)
       | [] =>
           let r := call (inner f) in ({| script := []; inner := r.1 |}, r.2)
       end.

Global Instance faulty_session `{!DateCodec} : Session faulty := {|
  cluster_connect := inject cluster_connect;
  session_execute_ddl := λ stmt, inject (session_execute_ddl stmt);
  session_set_keyspace := λ k, inject (session_set_keyspace k);
  session_prepare := λ q, inject (session_prepare q);
  session_execute := λ q stmt args, inject (session_execute stmt args);
  metadata_keyspaces := λ f, metadata_keyspaces (inner f);
  spark_wi_stations := λ f,
    let r := spark_wi_stations (inner f) in
    ({| script := script f; inner := r.1 |}, r.2);
  print := λ line f, {| script := script f; inner := print line (inner f) |}
|}.

(** A reading of dates for the examples: four digits, two digits, two
    digits, separated by dashes, as the number [yyyymmdd]. *)
Definition digit (c : Ascii.ascii) : option Z :=
  let n := Z.of_nat (Ascii.nat_of_ascii c) in
  if (48 <=? n) && (n <=? 57) then Some (n - 48) else None.

Definition iso_date (s : string) : option Z :=
  match s with
  | String y1 (String y2 (String y3 (String y4 (String "-"%char
      (String m1 (String m2 (String "-"%char (String d1 (String d2 "")))))))))
    =>
      y1 ← digit y1; y2 ← digit y2; y3 ← digit y3; y4 ← digit y4;
      m1 ← digit m1; m2 ← digit m2; d1 ← digit d1; d2 ← digit d2;
      let month := 10 * m1 + m2 in
      let day := 10 * d1 + d2 in
      if (1 <=? month) && (month <=? 12) && (1 <=? day) && (day <=? 31)
      then Some ((((1000 * y1 + 100 * y2 + 10 * y3 + y4) * 100) + month) * 100 + day)
      else None
  | _ => None
  end.

(** *** Call traces

    A session that keeps a record of the driver calls made through it and of
    how each ended, over any other session. *)
Inductive call : Type :=
  | Connect
  | Schema (stmt : ddl)
  | UseKeyspace (k : string)
  | Prepare (q : query)
  | Execute (q : query) (level : option ConsistencyLevel).

Record traced (W : Type) : Type := { world : W; calls : list (call * option exn) }.
Arguments world {W} _.
Arguments calls {W} _.

Definition outcome {A} (r : exn + A) : option exn :=
  match r with
  | inl e => Some e
  | inr _ => None
  end.

Definition recorded {W A} (c : call) (m : M W A) : M (traced W) A :=
  λ t, let r := m (world t) in
       ({| world := r.1; calls := calls t ++ [(c, outcome r.2)] |}, r.2).

Definition unrecorded {W A} (m : M W A) : M (traced W) A :=
  λ t, let r := m (world t) in ({| world := r.1; calls := calls t |}, r.2).

Global Instance traced_session {W} `{!Session W} : Session (traced W) := {|
  cluster_connect := recorded Connect cluster_connect;
  session_execute_ddl := λ stmt, recorded (Schema stmt) (session_execute_ddl stmt);
  session_set_keyspace := λ k, recorded (UseKeyspace k) (session_set_keyspace k);
  session_prepare := λ q, recorded (Prepare q) (session_prepare q);
  session_execute := λ q stmt args,
    recorded (Execute q (consistency_level stmt)) (session_execute stmt args);
  metadata_keyspaces := λ t, metadata_keyspaces (world t);
  spark_wi_stations := unrecorded spark_wi_stations;
  print := λ line t, {| world := print line (world t); calls := calls t |}
|}.

(** The calls a computation added to the trace. *)
Definition calls_since {W} (before after : traced W) : list (call * option exn) :=
  drop (length (calls before)) (calls after).

(** The startup calls whose failure ends the process: connecting, the
    schema statements, and preparing the statements of the RPC calls. *)
Definition fatal (c : call) : bool :=
  match c with
  | Connect | Schema _ | UseKeyspace _ => true
  | Prepare q => bool_decide (q ≠ InsertName)
  | Execute _ _ => false
  end.

(** A computation over a traced session only adds calls for which [P]
    holds, and what it returns satisfies [Q]. *)
Definition calls_with {W A} (P : call * option exn → Prop) (Q : A → Prop)
    (m : M (traced W) A) : Prop :=
  ∀ t, ∃ new, calls (m t).1 = calls t ++ new
              ∧ Forall P new
              ∧ ∀ a, (m t).2 = inr a → Q a.

(** A computation over a traced session ends with the exception of any
    fatal call that failed in it. *)
Definition fail_fast {W A} (m : M (traced W) A) : Prop :=
  ∀ t, ∃ new, calls (m t).1 = calls t ++ new
              ∧ ∀ c e, (c, Some e) ∈ new → fatal c = true → (m t).2 = inl e.

(** The calls of the seeding loop: preparing the seed insert, and running
    it as prepared, with no level of its own. *)
Definition seed_call (x : call * option exn) : Prop :=
  x.1 = Prepare InsertName ∨ x.1 = Execute InsertName None.

Definition seed_statement (y : option (prepared InsertName)) : Prop :=
  y = None ∨ y = Some (Prepared None).

(** The calls of the whole constructor: whatever it executes is the seed
    insert, with no level of its own. *)
Definition startup_call (x : call * option exn) : Prop :=
  match x.1 with
  | Execute q level => q = InsertName ∧ level = None
  | _ => True
  end.

(** The first calls of a start, in order, each one returning. *)
Definition schema_calls : list (call * option exn) :=
  [(Connect, None);
   (Schema (DropKeyspace true "weather"), None);
   (Schema (CreateKeyspace "weather" SimpleStrategy 3), None);
   (UseKeyspace "weather", None);
   (Schema (CreateType true "station_record" [("tmin", CqlInt); ("tmax", CqlInt)]),
    None);
   (Schema
      (CreateTable true "stations"
         (TableSchema
            [Column "id" CqlText false; Column "date" CqlDate false;
             Column "name" CqlText true;
             Column "record" (CqlUdt "station_record") false]
            ["id"] [("date", Asc)])),
    None)].

(** The state [__init__] leaves the schema in: the session is set to the
    keyspace [weather], which is replicated three times under
    [SimpleStrategy], knows the record type and holds the [stations] table
    under its schema, with not one row of records in it. *)
Definition bootstrapped (c : cluster) : Prop :=
  current_keyspace c = Some "weather"
  ∧ ∃ ks t,
      keyspaces c !! "weather" = Some ks
      ∧ replication ks = (SimpleStrategy, 3%nat)
      ∧ user_types ks !! "station_record" = Some [("tmin", CqlInt); ("tmax", CqlInt)]
      ∧ tables_of ks !! "stations" = Some t
      ∧ schema_of t
        = TableSchema
            [Column "id" CqlText false; Column "date" CqlDate false;
             Column "name" CqlText true;
             Column "record" (CqlUdt "station_record") false]
            ["id"] [("date", Asc)]
      ∧ ∀ id p, partitions t !! id = Some p → clustering p = [].

(** ** The maximum, in the words of the specification

    The values of the rows that are present and readable, and their maximum
    with 0 standing in when there is none. *)
Definition readable (row : list pyval) : option Z :=
  match row with
  | PyInt n :: _ => Some n
  | _ => None
  end.

Definition present_values (rows : list (list pyval)) : list Z :=
  omap readable rows.

Definition is_maximum (values : list Z) (m : Z) : Prop :=
  m ∈ values ∧ ∀ v, v ∈ values → v ≤ m.

Definition maximum_or_zero (values : list Z) : Z :=
  match values with
  | [] => 0
  | v :: rest => foldl Z.max v rest
  end.

(** ** Sample worlds

    A three-node cluster before the service starts, with one Wisconsin
    station in the station file; the service object the constructor builds;
    the cluster once the service runs; and the same after the two
    recordings of the scenario of the specification. *)
#[global] Instance iso_dates : DateCodec := iso_date.

Definition madison : string := "USW00014837".

Definition example_cluster (replicas : nat) : cluster :=
  {| live := replicas;
     default_consistency_level := LOCAL_ONE;
     keyspaces := ∅;
     current_keyspace := None;
     station_file := inr [(madison, "MADISON DANE CO RGNL AP       ")];
     stdout := [] |}.

Definition example_service : StationService :=
  {| init_insert_name := Some (Prepared None);
     insert_temp := Prepared (Some ONE);
     select_name := Prepared (Some ONE);
     select_tmax := Some (Prepared (Some THREE)) |}.

Definition example_running : cluster := (init (example_cluster 3)).1.

Definition first_day : RecordTempsRequest.t :=
  RecordTempsRequest.mk madison "2023-07-01" 18 31.

Definition second_day : RecordTempsRequest.t :=
  RecordTempsRequest.mk madison "2023-07-02" 19 28.

Definition example_recorded : cluster :=
  run example_service [CallRecordTemps first_day; CallRecordTemps second_day]
    example_running.

(** Two winter days, both below zero. *)
Definition example_winter : cluster :=
  run example_service
    [CallRecordTemps (RecordTempsRequest.mk madison "2023-01-31" (-22) (-12));
     CallRecordTemps (RecordTempsRequest.mk madison "2023-01-30" (-25) (-17))]
    example_running.

(** A recording whose date the driver does not read as a date. *)
Definition misdated : RecordTempsRequest.t :=
  RecordTempsRequest.mk madison "July 1st" 18 31.

(** A session whose next driver call raises [e]. *)
Definition failing_next (e : exn) : faulty :=
  {| script := [Some e]; inner := example_running |}.

(** A traced session in front of the sample cluster whose seventh driver
    call fails: the six calls of the schema pass, preparing the seed insert
    raises. *)
Definition timed_out : exn := Exn OtherException "errors={}, last_host=p6-db-1".

Definition flaky_start : traced faulty :=
  {| world := {| script := [None; None; None; None; None; None; Some timed_out];
                 inner := example_cluster 3 |};
     calls := [] |}.

(** ** Statements of the specification that the code does not bear out *)

(** Any failure of [RecordTemps] outside the two store exceptions is given
    by its message, and that message is never the reserved word. *)
Definition other_failures_never_read_unavailable : Prop :=
  ∀ (W : Type) (S : Session W) (self : StationService)
    (request : RecordTempsRequest.t) (w w' : W) (e : exn),
    session_execute (insert_temp self)
      (RecordTempsRequest.station request, RecordTempsRequest.date request,
       (RecordTempsRequest.tmin request, RecordTempsRequest.tmax request)) w
    = (w', inl e) →
    is_unavailable e = false →
    ∃ reply, RecordTemps self request w = (w', inr reply)
             ∧ RecordTempsReply.error reply = str e
             ∧ RecordTempsReply.error reply ≠ "unavailable".

(** A reply of [RecordTemps] to a failed write carries a non-empty error. *)
Definition failed_write_has_error : Prop :=
  ∀ (W : Type) (S : Session W) (self : StationService)
    (request : RecordTempsRequest.t) (w w' : W) (e : exn),
    session_execute (insert_temp self)
      (RecordTempsRequest.station request, RecordTempsRequest.date request,
       (RecordTempsRequest.tmin request, RecordTempsRequest.tmax request)) w
    = (w', inl e) →
    ∃ reply, RecordTemps self request w = (w', inr reply)
             ∧ RecordTempsReply.error reply ≠ "".

Section Stated.
Context `{!DateCodec}.

(** Once a record is written, every later successful [StationMax] for the
    station reports at least its [tmax], whatever is recorded in between. *)
Definition recorded_maximum_never_decreases : Prop :=
  ∀ (self : StationService) (request : RecordTempsRequest.t)
    (history : list event) (max_request : StationMaxRequest.t)
    (c c' c'' : cluster) (reply : RecordTempsReply.t)
    (max_reply : StationMaxReply.t),
    RecordTemps self request c = (c', inr reply) →
    RecordTempsReply.error reply = "" →
    StationMaxRequest.station max_request = RecordTempsRequest.station request →
    StationMax self max_request (run self history c') = (c'', inr max_reply) →
    StationMaxReply.error max_reply = "" →
    RecordTempsRequest.tmax request ≤ StationMaxReply.tmax max_reply.

End Stated.

(** The first day of the scenario, measured again and found cooler. *)
Definition first_day_revised : RecordTempsRequest.t :=
  RecordTempsRequest.mk madison "2023-07-01" 17 25.

(** The seed insert of a station name runs at level [ONE]. *)
Definition seed_insert_runs_at_one : Prop :=
  ∀ (c c' : cluster) (self : StationService) (stmt : prepared InsertName),
    init c = (c', inr self) →
    init_insert_name self = Some stmt →
    effective_level c' stmt = ONE.

(** A statement preparation that fails during startup keeps the process
    from serving. *)
Definition failed_prepare_stops_startup : Prop :=
  ∀ (W : Type) (S : Session W) (t : traced W) (q : query) (e : exn),
    (Prepare q, Some e) ∈ calls_since t (serve t).1 →
    ∃ e', (serve t).2 = inl e'.

(** ** A session that answers from a list

    A stand-in for the driver whose tmax read yields the rows the world
    consists of, and whose other calls return at once. *)
Definition rows_execute (q : query)
  : prepared q → params q → M (list (list pyval)) (list (row q)) :=
  match q with
  | SelectTmax => λ _ _ rows, (rows, inr rows)
  | _ => λ _ _ rows, (rows, inr [])
  end.

Global Instance rows_session : Session (list (list pyval)) := {|
  cluster_connect := mret tt;
  session_execute_ddl := λ _, mret tt;
  session_set_keyspace := λ _, mret tt;
  session_prepare := λ _, mret tt;
  session_execute := rows_execute;
  metadata_keyspaces := λ _, ∅;
  spark_wi_stations := mret [];
  print := λ _ rows, rows
|}.

(** A service object on which the attribute [select_tmax] is not set. *)
Definition unprepared_service : StationService :=
  {| init_insert_name := None;
     insert_temp := Prepared (Some ONE);
     select_name := Prepared (Some ONE);
     select_tmax := None |}.

(** ** A cluster in service

    The schema as the handlers need it, with or without records: the
    session is set to [weather], replicated three times, and the table
    [stations] is there under its schema. *)
Definition serving (c : cluster) : Prop :=
  current_keyspace c = Some "weather"
  ∧ ∃ ks t,
      keyspaces c !! "weather" = Some ks
      ∧ replication ks = (SimpleStrategy, 3%nat)
      ∧ tables_of ks !! "stations" = Some t
      ∧ schema_of t = stations_schema.

(** The partition of a station in the table of the session, its static
    name and its rows. *)
Definition the_partition (c : cluster) (id : string) : option partition :=
  k ← current_keyspace c;
  ks ← keyspaces c !! k;
  t ← tables_of ks !! "stations";
  partitions t !! id.

Definition name_of (c : cluster) (id : string) : option string :=
  the_partition c id ≫= static_name.

Definition recorded_rows (c : cluster) (id : string) : list (Z * (Z * Z)) :=
  from_option clustering [] (the_partition c id).

(** The events that call a handler which only reads. *)
Definition reads (ev : event) : Prop :=
  match ev with
  | CallStationSchema | CallStationName _ | CallStationMax _ => True
  | CallRecordTemps _ | Reachable _ => False
  end.

(** The reply [StationName] makes of the rows of its read. *)
Definition name_reply (rows : list NameRow) : StationNameReply.t :=
  match one rows with
  | Some {| name := Some row_name |} =>
      if truthy (Some row_name)
      then StationNameReply.mk row_name ""
      else StationNameReply.mk "" "station not found or name missing"
  | _ => StationNameReply.mk "" "station not found or name missing"
  end.

(** The name the seeding loop leaves for a station: that of the last row of
    the station file whose stripped id is the station's, stripped. *)
Fixpoint seeded (rows : list (string * string)) (id : string) : option string :=
  match rows with
  | [] => None
  | r :: rest =>
      match seeded rest id with
      | Some n => Some n
      | None => if decide (strip r.1 = id) then Some (strip r.2) else None
      end
  end.

(** A station the scenario never records for. *)
Definition elsewhere : string := "USC00470273".

(** ** The station file

    The part of the constructor that reads the station file with Spark:
    one row per line, three columns cut out of the line at fixed places,
    the rows of Wisconsin kept.  Lines are taken as texts of one-byte
    characters, which the station file consists of, and [collect] as
    giving the rows in the order of the file. *)

(** [pyspark.sql.functions] *)
Module functions.

(** [substring(col, pos, len)] for a position of 1 or more: the [len]
    characters from the [pos]-th on, fewer where the value ends before. *)
Definition substring (value : string) (pos len : nat) : string :=
  String.substring (pos - 1) len value.

End functions.

(** [parsed_df]: the columns [id], [state] and [name] of each line. *)
Definition parsed_df (stations_df : list string)
  : list (string * string * string) :=
  (λ value, (functions.substring value 1 11,
             functions.substring value 39 2,
             functions.substring value 42 30)) <$> stations_df.

(** [wi_stations]: the rows whose state is "WI", with the two fields the
    seeding loop reads of them, [id] and [name]. *)
Definition wi_stations (stations_df : list string) : list (string * string) :=
  (λ r, (r.1.1, r.2)) <$> filter (λ r, r.1.2 = "WI") (parsed_df stations_df).

(** The line of the sample station, and the line that heads a listing. *)
Definition madison_line : string :=
  "USW00014837  43.1406  -89.3453  264.0 WI MADISON DANE CO RGNL AP                72641".

Definition heading_line : string := "ID          LATITUDE".

(** * Properties *)

(** ** Running the monad *)

Ltac unfold_monad :=
  unfold try_except, raise, lift, mbind, M_bind, mret, M_ret in *.

Lemma bind_returns {W A B} (m : M W A) (k : A → M W B) w w' a :
  m w = (w', inr a) → (m ≫= k) w = k a w'.
Proof. intros Hm. unfold_monad. by rewrite Hm. Qed.

Lemma bind_raises {W A B} (m : M W A) (k : A → M W B) w w' e :
  m w = (w', inl e) → (m ≫= k) w = (w', inl e).
Proof. intros Hm. unfold_monad. by rewrite Hm. Qed.

Lemma try_returns {W A} (m : M W A) (h : exn → M W A) w w' a :
  m w = (w', inr a) → try_except m h w = (w', inr a).
Proof. intros Hm. unfold try_except. by rewrite Hm. Qed.

Lemma try_raises {W A} (m : M W A) (h : exn → M W A) w w' e :
  m w = (w', inl e) → try_except m h w = h e w'.
Proof. intros Hm. unfold try_except. by rewrite Hm. Qed.

(** ** The scan of [StationMax] *)

Lemma read_tmax_run {W} (row : list pyval) (w : W) :
  read_tmax row w = (w, inr (readable row)).
Proof.
  destruct row as [|[|n|[]] rest]; reflexivity.
Qed.

Lemma scan_rows_run {W} (rows : list (list pyval)) (acc : option Z) (w : W) :
  scan_rows rows acc w = (w, inr (foldl update_max acc (readable <$> rows))).
Proof.
  revert acc. induction rows as [|row rows IH]; intros acc; [reflexivity|].
  cbn [scan_rows fmap list_fmap foldl].
  erewrite bind_returns by apply read_tmax_run. apply IH.
Qed.

Lemma update_max_Some (m c : Z) : update_max (Some m) (Some c) = Some (Z.max m c).
Proof.
  cbn. destruct (Z.gtb_spec c m); f_equal; lia.
Qed.

Lemma foldl_update_max_present (rows : list (list pyval)) (acc : option Z) :
  foldl update_max acc (readable <$> rows)
  = foldl (λ a v, update_max a (Some v)) acc (present_values rows).
Proof.
  revert acc. induction rows as [|row rows IH]; intros acc; [reflexivity|].
  unfold present_values in *. cbn [fmap list_fmap foldl omap list_omap].
  destruct (readable row) as [n|]; cbn [foldl update_max]; apply IH.
Qed.

Lemma foldl_update_max_Some (values : list Z) (m : Z) :
  foldl (λ a v, update_max a (Some v)) (Some m) values
  = Some (foldl Z.max m values).
Proof.
  revert m. induction values as [|v values IH]; intros m; [reflexivity|].
  cbn [foldl]. rewrite update_max_Some. apply IH.
Qed.

Lemma scan_result_maximum_or_zero (rows : list (list pyval)) :
  match foldl update_max None (readable <$> rows) with
  | None => 0
  | Some m => m
  end = maximum_or_zero (present_values rows).
Proof.
  rewrite foldl_update_max_present.
  destruct (present_values rows) as [|v values]; [reflexivity|].
  cbn [foldl update_max maximum_or_zero]. by rewrite foldl_update_max_Some.
Qed.

Lemma foldl_max_bounds (values : list Z) (v : Z) :
  let m := foldl Z.max v values in
  (m = v ∨ m ∈ values) ∧ v ≤ m ∧ ∀ x, x ∈ values → x ≤ m.
Proof.
  revert v. induction values as [|y values IH]; intros v; cbn [foldl].
  - split; [by left|]. split; [lia|]. intros x Hx. by apply elem_of_nil in Hx.
  - destruct (IH (Z.max v y)) as (Hin & Hle & Hall). split; [|split].
    + destruct Hin as [Heq|Hin].
      * destruct (Z.max_spec v y) as [[_ Hmax]|[_ Hmax]]; rewrite Heq, Hmax.
        -- right. apply list_elem_of_here.
        -- by left.
      * right. by apply list_elem_of_further.
    + lia.
    + intros x Hx. apply elem_of_cons in Hx as [->|Hx]; [lia|by apply Hall].
Qed.

Lemma maximum_or_zero_is_maximum (values : list Z) :
  values ≠ [] → is_maximum values (maximum_or_zero values).
Proof.
  destruct values as [|v values]; [done|]. intros _.
  destruct (foldl_max_bounds values v) as (Hin & Hle & Hall).
  cbn [maximum_or_zero]. split.
  - destruct Hin as [->|Hin]; [apply list_elem_of_here|by apply list_elem_of_further].
  - intros x Hx. apply elem_of_cons in Hx as [->|Hx]; [done|by apply Hall].
Qed.

Lemma is_maximum_unique (values : list Z) (m m' : Z) :
  is_maximum values m → is_maximum values m' → m = m'.
Proof.
  intros [Hin Hle] [Hin' Hle']. apply Hle' in Hin. apply Hle in Hin'. lia.
Qed.

Section GatewayFacts.
Context {W : Type} `{!Session W}.

Lemma StationMax_returns (self : StationService) (stmt : prepared SelectTmax)
    (request : StationMaxRequest.t) (w w' : W) (rows : list (list pyval)) :
  select_tmax self = Some stmt →
  session_execute stmt (StationMaxRequest.station request) w = (w', inr rows) →
  StationMax self request w
  = (w', inr (StationMaxReply.mk (maximum_or_zero (present_values rows)) "")).
Proof.
  intros Hstmt Hrows. unfold StationMax. rewrite Hstmt.
  erewrite try_returns; [reflexivity|].
  erewrite bind_returns by exact Hrows.
  erewrite bind_returns by apply scan_rows_run.
  cbn. by rewrite scan_result_maximum_or_zero.
Qed.

Lemma StationMax_raises (self : StationService) (stmt : prepared SelectTmax)
    (request : StationMaxRequest.t) (w w' : W) (e : exn) :
  select_tmax self = Some stmt →
  session_execute stmt (StationMaxRequest.station request) w = (w', inl e) →
  StationMax self request w
  = (w', inr (StationMaxReply.mk 0
                (if is_unavailable e then "unavailable" else str e))).
Proof.
  intros Hstmt Hraise. unfold StationMax. rewrite Hstmt.
  erewrite try_raises by (erewrite bind_raises by exact Hraise; reflexivity).
  by destruct (is_unavailable e).
Qed.

Lemma StationMax_unprepared (self : StationService)
    (request : StationMaxRequest.t) (w : W) :
  select_tmax self = None →
  StationMax self request w
  = (w, inr (StationMaxReply.mk 0 "Server error: select statement not prepared")).
Proof. intros Hstmt. unfold StationMax. by rewrite Hstmt. Qed.

Lemma RecordTemps_returns (self : StationService) (request : RecordTempsRequest.t)
    (w w' : W) (rows : list Empty_set) :
  session_execute (insert_temp self)
    (RecordTempsRequest.station request, RecordTempsRequest.date request,
     (RecordTempsRequest.tmin request, RecordTempsRequest.tmax request)) w
  = (w', inr rows) →
  RecordTemps self request w = (w', inr (RecordTempsReply.mk "")).
Proof.
  intros Hrows. unfold RecordTemps.
  erewrite try_returns; [reflexivity|].
  by erewrite bind_returns by exact Hrows.
Qed.

Lemma RecordTemps_raises (self : StationService) (request : RecordTempsRequest.t)
    (w w' : W) (e : exn) :
  session_execute (insert_temp self)
    (RecordTempsRequest.station request, RecordTempsRequest.date request,
     (RecordTempsRequest.tmin request, RecordTempsRequest.tmax request)) w
  = (w', inl e) →
  RecordTemps self request w
  = (w', inr (RecordTempsReply.mk
                (if is_unavailable e then "unavailable" else str e))).
Proof.
  intros Hraise. unfold RecordTemps.
  erewrite try_raises by (erewrite bind_raises by exact Hraise; reflexivity).
  by destruct (is_unavailable e).
Qed.

Lemma StationName_returns (self : StationService) (request : StationNameRequest.t)
    (w w' : W) (rows : list NameRow) :
  session_execute (select_name self) (StationNameRequest.station request) w
  = (w', inr rows) →
  StationName self request w
  = (w', inr match one rows with
             | Some {| name := Some row_name |} =>
                 if truthy (Some row_name)
                 then StationNameReply.mk row_name ""
                 else StationNameReply.mk "" "station not found or name missing"
             | _ => StationNameReply.mk "" "station not found or name missing"
             end).
Proof.
  intros Hrows. unfold StationName.
  erewrite try_returns; [reflexivity|].
  erewrite bind_returns by exact Hrows.
  destruct (one rows) as [[[row_name|]]|]; try reflexivity.
  by destruct (truthy (Some row_name)).
Qed.

Lemma StationName_raises (self : StationService) (request : StationNameRequest.t)
    (w w' : W) (e : exn) :
  session_execute (select_name self) (StationNameRequest.station request) w
  = (w', inl e) →
  StationName self request w = (w', inr (StationNameReply.mk "" (str e))).
Proof.
  intros Hraise. unfold StationName.
  by erewrite try_raises by (erewrite bind_raises by exact Hraise; reflexivity).
Qed.

End GatewayFacts.

(** ** The maximum reported by [StationMax] *)

Lemma present_values_skip (before after : list (list pyval)) (row : list pyval) :
  readable row = None →
  present_values (before ++ row :: after) = present_values (before ++ after).
Proof.
  intros Hrow. unfold present_values. rewrite !omap_app. cbn. by rewrite Hrow.
Qed.

(** C2: when the read of a station's rows succeeds, [StationMax] answers
    with an empty error and the maximum of the values that are present and
    readable.  A row without a cell, a row whose cell is [None] and a row
    whose cell does not convert to an integer are passed over: taking such a
    row out changes nothing.  With no readable value at all, in particular
    with no rows, the answer is 0. *)
Theorem StationMax_maximum_of_present_values {W : Type} `{!Session W}
    (self : StationService) (stmt : prepared SelectTmax)
    (request : StationMaxRequest.t) (w w' : W) (rows : list (list pyval)) :
  select_tmax self = Some stmt →
  session_execute stmt (StationMaxRequest.station request) w = (w', inr rows) →
  ∃ t, StationMax self request w = (w', inr (StationMaxReply.mk t ""))
       ∧ t = maximum_or_zero (present_values rows)
       ∧ (∀ v, v ∈ present_values rows → v ≤ t)
       ∧ (present_values rows ≠ [] → t ∈ present_values rows)
       ∧ (present_values rows = [] → t = 0)
       ∧ (∀ before row after, rows = before ++ row :: after →
            readable row = None →
            t = maximum_or_zero (present_values (before ++ after))).
Proof.
  intros Hstmt Hrows. exists (maximum_or_zero (present_values rows)).
  split; [by eapply StationMax_returns|]. split; [done|].
  split; [|split; [|split]].
  - intros v Hv.
    apply (maximum_or_zero_is_maximum (present_values rows)); [|done].
    intros Hnil. rewrite Hnil in Hv. by apply elem_of_nil in Hv.
  - intros Hne. by apply maximum_or_zero_is_maximum.
  - by intros ->.
  - intros before row after -> Hrow. by rewrite present_values_skip.
Qed.

(** C10: with at least one readable value [StationMax] reports the true
    maximum of the readable values, below zero when they all are; zero
    comes out either as that maximum or because nothing was readable, and
    the two replies are the same. *)
Theorem StationMax_negative_maximum_and_zero_default {W : Type} `{!Session W}
    (self : StationService) (stmt : prepared SelectTmax)
    (request : StationMaxRequest.t) (w w' : W) (rows : list (list pyval)) :
  select_tmax self = Some stmt →
  session_execute stmt (StationMaxRequest.station request) w = (w', inr rows) →
  ∃ t, StationMax self request w = (w', inr (StationMaxReply.mk t ""))
       ∧ (present_values rows ≠ [] →
            is_maximum (present_values rows) t
            ∧ ((∀ v, v ∈ present_values rows → v < 0) → t < 0))
       ∧ (t = 0 → present_values rows = [] ∨ is_maximum (present_values rows) 0)
       ∧ (present_values rows = [] →
            ∀ (request2 : StationMaxRequest.t) (w2 w2' : W) rows2,
              session_execute stmt (StationMaxRequest.station request2) w2
              = (w2', inr rows2) →
              is_maximum (present_values rows2) 0 →
              (StationMax self request2 w2).2 = (StationMax self request w).2).
Proof.
  intros Hstmt Hrows. exists (maximum_or_zero (present_values rows)).
  split; [by eapply StationMax_returns|]. split; [|split].
  - intros Hne. pose proof (maximum_or_zero_is_maximum _ Hne) as Hmax.
    split; [done|]. intros Hneg. apply Hneg, Hmax.
  - intros Hzero. destruct (present_values rows) as [|v values] eqn:Hvalues.
    + by left.
    + right. rewrite <- Hzero. by apply maximum_or_zero_is_maximum.
  - intros Hnil request2 w2 w2' rows2 Hrows2 Hmax.
    rewrite (StationMax_returns _ _ _ _ _ _ Hstmt Hrows2).
    rewrite (StationMax_returns _ _ _ _ _ _ Hstmt Hrows). cbn.
    rewrite Hnil. cbn. do 2 f_equal.
    assert (present_values rows2 ≠ []) as Hne.
    { destruct Hmax as [Hin _]. intros Heq. rewrite Heq in Hin.
      by apply elem_of_nil in Hin. }
    by apply (is_maximum_unique (present_values rows2));
      [apply maximum_or_zero_is_maximum|].
Qed.

(** The scenario of the specification: 31 and 28 recorded, 31 reported. *)
Lemma StationMax_maximum_of_present_values_witness :
  select_tmax example_service = Some (Prepared (Some THREE))
  ∧ session_execute (q := SelectTmax) (Prepared (Some THREE)) madison
      example_recorded
    = (example_recorded, inr [[PyInt 31]; [PyInt 28]])
  ∧ StationMax example_service (StationMaxRequest.mk madison) example_recorded
    = (example_recorded, inr (StationMaxReply.mk 31 "")).
Proof.
  assert (session_execute (q := SelectTmax) (Prepared (Some THREE)) madison
            example_recorded
          = (example_recorded, inr [[PyInt 31]; [PyInt 28]])) as Hrows
    by (vm_compute; reflexivity).
  split; [reflexivity|]. split; [exact Hrows|].
  destruct (StationMax_maximum_of_present_values example_service
              (Prepared (Some THREE)) (StationMaxRequest.mk madison)
              example_recorded example_recorded [[PyInt 31]; [PyInt 28]]
              eq_refl Hrows) as (t & Hrun & Ht & _).
  rewrite Hrun, Ht. reflexivity.
Defined.

(** Two days below zero: the reported maximum is below zero. *)
Lemma StationMax_negative_maximum_and_zero_default_witness :
  select_tmax example_service = Some (Prepared (Some THREE))
  ∧ session_execute (q := SelectTmax) (Prepared (Some THREE)) madison
      example_winter
    = (example_winter, inr [[PyInt (-17)]; [PyInt (-12)]])
  ∧ ∃ t, StationMax example_service (StationMaxRequest.mk madison) example_winter
         = (example_winter, inr (StationMaxReply.mk t ""))
         ∧ t < 0.
Proof.
  assert (session_execute (q := SelectTmax) (Prepared (Some THREE)) madison
            example_winter
          = (example_winter, inr [[PyInt (-17)]; [PyInt (-12)]])) as Hrows
    by (vm_compute; reflexivity).
  split; [reflexivity|]. split; [exact Hrows|].
  destruct (StationMax_negative_maximum_and_zero_default example_service
              (Prepared (Some THREE)) (StationMaxRequest.mk madison)
              example_winter example_winter [[PyInt (-17)]; [PyInt (-12)]]
              eq_refl Hrows) as (t & Hrun & Hmax & _).
  exists t. split; [exact Hrun|]. clear Hrun Hrows.
  apply Hmax; [discriminate|]. clear Hmax.
  intros v Hv. cbn in Hv.
  apply elem_of_cons in Hv as [->|Hv]; [lia|].
  apply elem_of_cons in Hv as [->|Hv]; [lia|]. by apply elem_of_nil in Hv.
Defined.

(** ** One call per request *)

Lemma calls_since_recorded {W A} (c : call) (m : M W A) (t : traced W) :
  calls_since t (recorded c m t).1 = [(c, outcome (m (world t)).2)].
Proof. unfold calls_since, recorded. cbn. apply drop_app_length. Qed.

Section OneCall.
Context {W : Type} `{!Session W}.

Lemma RecordTemps_world (self : StationService) (request : RecordTempsRequest.t)
    (w : W) :
  (RecordTemps self request w).1
  = (session_execute (insert_temp self)
       (RecordTempsRequest.station request, RecordTempsRequest.date request,
        (RecordTempsRequest.tmin request, RecordTempsRequest.tmax request)) w).1.
Proof.
  destruct (session_execute (insert_temp self)
       (RecordTempsRequest.station request, RecordTempsRequest.date request,
        (RecordTempsRequest.tmin request, RecordTempsRequest.tmax request)) w)
    as [w' [e|rows]] eqn:Hexec.
  - by erewrite RecordTemps_raises.
  - by erewrite RecordTemps_returns.
Qed.

Lemma StationMax_world (self : StationService) (stmt : prepared SelectTmax)
    (request : StationMaxRequest.t) (w : W) :
  select_tmax self = Some stmt →
  (StationMax self request w).1
  = (session_execute stmt (StationMaxRequest.station request) w).1.
Proof.
  intros Hstmt.
  destruct (session_execute stmt (StationMaxRequest.station request) w)
    as [w' [e|rows]] eqn:Hexec.
  - by erewrite StationMax_raises.
  - by erewrite StationMax_returns.
Qed.

Lemma StationName_world (self : StationService) (request : StationNameRequest.t)
    (w : W) :
  (StationName self request w).1
  = (session_execute (select_name self) (StationNameRequest.station request) w).1.
Proof.
  destruct (session_execute (select_name self)
              (StationNameRequest.station request) w)
    as [w' [e|rows]] eqn:Hexec.
  - by erewrite StationName_raises.
  - by erewrite StationName_returns.
Qed.

Lemma StationSchema_world (self : StationService) (w : W) :
  (StationSchema self w).1 = w.
Proof.
  unfold StationSchema. unfold_monad.
  destruct (metadata_keyspaces w !! "weather") as [k|]; [|reflexivity].
  destruct (tables k !! "stations") as [t|]; [|reflexivity].
  by destruct (export_as_string t).
Qed.

End OneCall.

Section Traces.
Context {W : Type} `{!Session W}.

Lemma RecordTemps_one_call (self : StationService)
    (request : RecordTempsRequest.t) (t : traced W) :
  calls_since t (RecordTemps self request t).1
  = [(Execute InsertTemp (consistency_level (insert_temp self)),
      outcome (session_execute (insert_temp self)
                 (RecordTempsRequest.station request,
                  RecordTempsRequest.date request,
                  (RecordTempsRequest.tmin request,
                   RecordTempsRequest.tmax request)) (world t)).2)].
Proof. rewrite RecordTemps_world. apply calls_since_recorded. Qed.

Lemma StationMax_one_call (self : StationService) (stmt : prepared SelectTmax)
    (request : StationMaxRequest.t) (t : traced W) :
  select_tmax self = Some stmt →
  calls_since t (StationMax self request t).1
  = [(Execute SelectTmax (consistency_level stmt),
      outcome (session_execute stmt (StationMaxRequest.station request)
                 (world t)).2)].
Proof.
  intros Hstmt. rewrite (StationMax_world _ stmt) by done.
  apply calls_since_recorded.
Qed.

Lemma StationName_one_call (self : StationService)
    (request : StationNameRequest.t) (t : traced W) :
  calls_since t (StationName self request t).1
  = [(Execute SelectName (consistency_level (select_name self)),
      outcome (session_execute (select_name self)
                 (StationNameRequest.station request) (world t)).2)].
Proof. rewrite StationName_world. apply calls_since_recorded. Qed.

End Traces.

(** ** Failures of the store *)

(** C3: when the write of [RecordTemps] or the read of [StationMax] ends in
    one of the two store exceptions for too few reachable replicas, the
    reply is the word "unavailable" (with [tmax] 0 for [StationMax]); the
    world is left as that one failed call left it, and a traced session
    shows exactly one call, the failed one: nothing is tried again. *)
Theorem unavailable_is_reported_at_once {W : Type} `{!Session W}
    (self : StationService) (stmt : prepared SelectTmax)
    (record_request : RecordTempsRequest.t) (max_request : StationMaxRequest.t)
    (w1 w1' w2 w2' : W) (e1 e2 : exn) :
  session_execute (insert_temp self)
    (RecordTempsRequest.station record_request,
     RecordTempsRequest.date record_request,
     (RecordTempsRequest.tmin record_request,
      RecordTempsRequest.tmax record_request)) w1 = (w1', inl e1) →
  is_unavailable e1 = true →
  select_tmax self = Some stmt →
  session_execute stmt (StationMaxRequest.station max_request) w2
  = (w2', inl e2) →
  is_unavailable e2 = true →
  RecordTemps self record_request w1
  = (w1', inr (RecordTempsReply.mk "unavailable"))
  ∧ StationMax self max_request w2
    = (w2', inr (StationMaxReply.mk 0 "unavailable"))
  ∧ (∀ t : traced W, world t = w1 →
       calls_since t (RecordTemps self record_request t).1
       = [(Execute InsertTemp (consistency_level (insert_temp self)), Some e1)])
  ∧ (∀ t : traced W, world t = w2 →
       calls_since t (StationMax self max_request t).1
       = [(Execute SelectTmax (consistency_level stmt), Some e2)]).
Proof.
  intros Hwrite Hun1 Hstmt Hread Hun2. split; [|split; [|split]].
  - rewrite (RecordTemps_raises _ _ _ _ _ Hwrite). by rewrite Hun1.
  - rewrite (StationMax_raises _ _ _ _ _ _ Hstmt Hread). by rewrite Hun2.
  - intros t <-. rewrite RecordTemps_one_call. by rewrite Hwrite.
  - intros t <-. rewrite (StationMax_one_call _ stmt) by done. by rewrite Hread.
Qed.

(** A recording with no replica in reach, and a maximum with two of three. *)
Lemma unavailable_is_reported_at_once_witness :
  session_execute (insert_temp example_service)
    (RecordTempsRequest.station first_day, RecordTempsRequest.date first_day,
     (RecordTempsRequest.tmin first_day, RecordTempsRequest.tmax first_day))
    (with_live example_running 0)
  = (with_live example_running 0, inl no_host)
  ∧ is_unavailable no_host = true
  ∧ select_tmax example_service = Some (Prepared (Some THREE))
  ∧ session_execute (q := SelectTmax) (Prepared (Some THREE))
      (StationMaxRequest.station (StationMaxRequest.mk madison))
      (with_live example_recorded 2)
    = (with_live example_recorded 2, inl cannot_achieve)
  ∧ is_unavailable cannot_achieve = true
  ∧ RecordTemps example_service first_day (with_live example_running 0)
    = (with_live example_running 0, inr (RecordTempsReply.mk "unavailable"))
  ∧ StationMax example_service (StationMaxRequest.mk madison)
      (with_live example_recorded 2)
    = (with_live example_recorded 2, inr (StationMaxReply.mk 0 "unavailable")).
Proof.
  assert (session_execute (insert_temp example_service)
    (RecordTempsRequest.station first_day, RecordTempsRequest.date first_day,
     (RecordTempsRequest.tmin first_day, RecordTempsRequest.tmax first_day))
    (with_live example_running 0)
  = (with_live example_running 0, inl no_host)) as Hwrite
    by (vm_compute; reflexivity).
  assert (session_execute (q := SelectTmax) (Prepared (Some THREE))
      (StationMaxRequest.station (StationMaxRequest.mk madison))
      (with_live example_recorded 2)
    = (with_live example_recorded 2, inl cannot_achieve)) as Hread
    by (vm_compute; reflexivity).
  split; [exact Hwrite|]. split; [reflexivity|]. split; [reflexivity|].
  split; [exact Hread|]. split; [reflexivity|].
  pose proof (unavailable_is_reported_at_once example_service
                (Prepared (Some THREE)) first_day (StationMaxRequest.mk madison)
                _ _ _ _ _ _ Hwrite eq_refl eq_refl Hread eq_refl)
    as (Hrecord & Hmax & _).
  split; [exact Hrecord|exact Hmax].
Defined.

(** A store call that raises an exception of another class whose message is
    the word itself: the reply reads "unavailable". *)
Lemma other_failures_never_read_unavailable_fails :
  ¬ other_failures_never_read_unavailable.
Proof.
  intros Hclaim.
  destruct (Hclaim faulty faulty_session example_service first_day
              (failing_next (Exn OtherException "unavailable"))
              {| script := []; inner := example_running |}
              (Exn OtherException "unavailable") eq_refl eq_refl)
    as (reply & _ & Herror & Hreserved).
  apply Hreserved. exact Herror.
Qed.

(** C4, amended: a failure of the write of [RecordTemps] or of the read of
    [StationMax] that is not one of the two store exceptions comes back as
    its own message, unchanged (with [tmax] 0 for [StationMax]); the error
    then reads "unavailable" exactly when the message itself does. *)
Theorem other_failures_report_their_message {W : Type} `{!Session W}
    (self : StationService) (stmt : prepared SelectTmax)
    (record_request : RecordTempsRequest.t) (max_request : StationMaxRequest.t)
    (w1 w1' w2 w2' : W) (e1 e2 : exn) :
  session_execute (insert_temp self)
    (RecordTempsRequest.station record_request,
     RecordTempsRequest.date record_request,
     (RecordTempsRequest.tmin record_request,
      RecordTempsRequest.tmax record_request)) w1 = (w1', inl e1) →
  is_unavailable e1 = false →
  select_tmax self = Some stmt →
  session_execute stmt (StationMaxRequest.station max_request) w2
  = (w2', inl e2) →
  is_unavailable e2 = false →
  (∃ reply, RecordTemps self record_request w1 = (w1', inr reply)
            ∧ RecordTempsReply.error reply = str e1
            ∧ (RecordTempsReply.error reply = "unavailable"
               ↔ str e1 = "unavailable"))
  ∧ (∃ reply, StationMax self max_request w2 = (w2', inr reply)
              ∧ StationMaxReply.tmax reply = 0
              ∧ StationMaxReply.error reply = str e2
              ∧ (StationMaxReply.error reply = "unavailable"
                 ↔ str e2 = "unavailable")).
Proof.
  intros Hwrite Hother1 Hstmt Hread Hother2. split.
  - exists (RecordTempsReply.mk (str e1)).
    rewrite (RecordTemps_raises _ _ _ _ _ Hwrite), Hother1. done.
  - exists (StationMaxReply.mk 0 (str e2)).
    rewrite (StationMax_raises _ _ _ _ _ _ Hstmt Hread), Hother2. done.
Qed.

(** A recording with a date the driver rejects, and a maximum asked of a
    cluster without the keyspace. *)
Lemma other_failures_report_their_message_witness :
  session_execute (insert_temp example_service)
    (RecordTempsRequest.station misdated, RecordTempsRequest.date misdated,
     (RecordTempsRequest.tmin misdated, RecordTempsRequest.tmax misdated))
    example_running
  = (example_running,
     inl (Exn ValueError "time data does not match format '%Y-%m-%d'"))
  ∧ is_unavailable (Exn ValueError "time data does not match format '%Y-%m-%d'")
    = false
  ∧ select_tmax example_service = Some (Prepared (Some THREE))
  ∧ session_execute (q := SelectTmax) (Prepared (Some THREE))
      (StationMaxRequest.station (StationMaxRequest.mk madison))
      (example_cluster 3)
    = (example_cluster 3,
       inl (invalid_request "No keyspace has been specified"))
  ∧ is_unavailable (invalid_request "No keyspace has been specified") = false
  ∧ RecordTemps example_service misdated example_running
    = (example_running,
       inr (RecordTempsReply.mk "time data does not match format '%Y-%m-%d'"))
  ∧ StationMax example_service (StationMaxRequest.mk madison) (example_cluster 3)
    = (example_cluster 3,
       inr (StationMaxReply.mk 0
              (str (invalid_request "No keyspace has been specified")))).
Proof.
  assert (session_execute (insert_temp example_service)
    (RecordTempsRequest.station misdated, RecordTempsRequest.date misdated,
     (RecordTempsRequest.tmin misdated, RecordTempsRequest.tmax misdated))
    example_running
  = (example_running,
     inl (Exn ValueError "time data does not match format '%Y-%m-%d'")))
    as Hwrite by reflexivity.
  assert (session_execute (q := SelectTmax) (Prepared (Some THREE))
      (StationMaxRequest.station (StationMaxRequest.mk madison))
      (example_cluster 3)
    = (example_cluster 3,
       inl (invalid_request "No keyspace has been specified"))) as Hread
    by (vm_compute; reflexivity).
  split; [exact Hwrite|]. split; [reflexivity|]. split; [reflexivity|].
  split; [exact Hread|]. split; [reflexivity|].
  destruct (other_failures_report_their_message example_service
              (Prepared (Some THREE)) misdated (StationMaxRequest.mk madison)
              _ _ _ _ _ _ Hwrite eq_refl eq_refl Hread eq_refl)
    as ((reply1 & Hrun1 & Herr1 & _) & (reply2 & Hrun2 & Hzero & Herr2 & _)).
  clear Hwrite Hread. split.
  - rewrite Hrun1. clear Hrun1 Hrun2. destruct reply1 as [error1].
    cbn in Herr1. by rewrite Herr1.
  - rewrite Hrun2. clear Hrun1 Hrun2. destruct reply2 as [tmax2 error2].
    cbn in Hzero, Herr2. by rewrite Hzero, Herr2.
Defined.

(** ** Looking up a station name *)

(** C7: when the name read yields no row, a row without a name or a row
    with the empty name, [StationName] answers with the empty name and the
    text "station not found or name missing", which is neither empty nor
    the word "unavailable"; when the first row carries a name that is not
    empty, it answers with that name and an empty error. *)
Theorem StationName_found_or_not_found {W : Type} `{!Session W}
    (self : StationService) (request : StationNameRequest.t) (w w' : W)
    (rows : list NameRow) :
  session_execute (select_name self) (StationNameRequest.station request) w
  = (w', inr rows) →
  (one rows = None ∨ one rows = Some (Row None) ∨ one rows = Some (Row (Some ""))
   → ∃ reply, StationName self request w = (w', inr reply)
              ∧ StationNameReply.name reply = ""
              ∧ StationNameReply.error reply = "station not found or name missing"
              ∧ StationNameReply.error reply ≠ ""
              ∧ StationNameReply.error reply ≠ "unavailable")
  ∧ (∀ found, one rows = Some (Row (Some found)) → found ≠ "" →
       StationName self request w = (w', inr (StationNameReply.mk found ""))).
Proof.
  intros Hrows. rewrite (StationName_returns _ _ _ _ _ Hrows). split.
  - intros Hmissing.
    exists (StationNameReply.mk "" "station not found or name missing").
    split; [|done].
    destruct Hmissing as [->|[->| ->]]; reflexivity.
  - intros found -> Hfound. cbn. by rewrite bool_decide_true.
Qed.

(** A station the running cluster has never heard of. *)
Lemma StationName_found_or_not_found_witness :
  session_execute (select_name example_service)
    (StationNameRequest.station (StationNameRequest.mk "USW00000000"))
    example_running
  = (example_running, inr [])
  ∧ StationName example_service (StationNameRequest.mk "USW00000000")
      example_running
    = (example_running,
       inr (StationNameReply.mk "" "station not found or name missing")).
Proof.
  assert (session_execute (select_name example_service)
    (StationNameRequest.station (StationNameRequest.mk "USW00000000"))
    example_running
  = (example_running, inr [])) as Hrows by (vm_compute; reflexivity).
  split; [exact Hrows|].
  destruct (StationName_found_or_not_found example_service
              (StationNameRequest.mk "USW00000000") _ _ _ Hrows)
    as [Hmissing _].
  destruct (Hmissing (or_introl eq_refl))
    as (reply & Hrun & Hname & Herror & _).
  rewrite Hrun. clear Hrun Hrows Hmissing. destruct reply as [name0 error0].
  cbn in Hname, Herror. by rewrite Hname, Herror.
Defined.

(** ** The shape of the replies *)

(** A store call that raises an exception with an empty message: the write
    failed and the reply carries an empty error. *)
Lemma failed_write_has_error_fails : ¬ failed_write_has_error.
Proof.
  intros Hclaim.
  destruct (Hclaim faulty faulty_session example_service first_day
              (failing_next (Exn OtherException ""))
              {| script := []; inner := example_running |}
              (Exn OtherException "") eq_refl)
    as (reply & Hrun & Herror).
  apply Herror. clear Herror.
  assert (RecordTemps example_service first_day
            (failing_next (Exn OtherException ""))
          = ({| script := []; inner := example_running |},
             inr (RecordTempsReply.mk ""))) as Hrun' by reflexivity.
  rewrite Hrun' in Hrun. by injection Hrun as <-.
Qed.

Section Replies.
Context {W : Type} `{!Session W}.

Lemma StationSchema_reply (self : StationService) (w : W) :
  StationSchema self w
  = (w, inr match metadata_keyspaces w !! "weather" with
            | None =>
                StationSchemaReply.mk ""
                  "'NoneType' object has no attribute 'tables'"
            | Some keyspace_meta =>
                match tables keyspace_meta !! "stations" with
                | None =>
                    StationSchemaReply.mk ""
                      "'NoneType' object has no attribute 'export_as_string'"
                | Some table_meta =>
                    match export_as_string table_meta with
                    | inr create_stmt => StationSchemaReply.mk create_stmt ""
                    | inl e => StationSchemaReply.mk "" (str e)
                    end
                end
            end).
Proof.
  unfold StationSchema. unfold_monad.
  destruct (metadata_keyspaces w !! "weather") as [k|]; [|reflexivity].
  destruct (tables k !! "stations") as [t|]; [|reflexivity].
  by destruct (export_as_string t).
Qed.

End Replies.

(** C8, amended: each of the four handlers returns a reply whatever the
    request and whatever the store does, and never raises.  A reply with a
    non-empty error has the empty or default payload.  When the store call
    of the handler returns, the error is empty, or the not-found text for
    a station without a name; when it raises, the error is the word
    "unavailable" for the two store exceptions that [RecordTemps] and
    [StationMax] single out and the message of the exception otherwise,
    which is non-empty whenever that message is. *)
Theorem every_handler_replies {W : Type} `{!Session W}
    (self : StationService) (name_request : StationNameRequest.t)
    (record_request : RecordTempsRequest.t) (max_request : StationMaxRequest.t)
    (w : W) :
  (∃ reply, StationSchema self w = (w, inr reply)
     ∧ (StationSchemaReply.error reply ≠ "" → StationSchemaReply.schema reply = "")
     ∧ (∀ keyspace_meta table_meta,
          metadata_keyspaces w !! "weather" = Some keyspace_meta →
          tables keyspace_meta !! "stations" = Some table_meta →
          match export_as_string table_meta with
          | inr create_stmt => reply = StationSchemaReply.mk create_stmt ""
          | inl e => reply = StationSchemaReply.mk "" (str e)
          end))
  ∧ (∃ w' reply, StationName self name_request w = (w', inr reply)
       ∧ (StationNameReply.error reply ≠ "" → StationNameReply.name reply = "")
       ∧ match (session_execute (select_name self)
                  (StationNameRequest.station name_request) w).2 with
         | inr rows =>
             (StationNameReply.error reply = "" ∧ StationNameReply.name reply ≠ "")
             ∨ reply = StationNameReply.mk "" "station not found or name missing"
         | inl e => reply = StationNameReply.mk "" (str e)
         end)
  ∧ (∃ w' reply, RecordTemps self record_request w = (w', inr reply)
       ∧ match (session_execute (insert_temp self)
                  (RecordTempsRequest.station record_request,
                   RecordTempsRequest.date record_request,
                   (RecordTempsRequest.tmin record_request,
                    RecordTempsRequest.tmax record_request)) w).2 with
         | inr rows => RecordTempsReply.error reply = ""
         | inl e =>
             RecordTempsReply.error reply
             = (if is_unavailable e then "unavailable" else str e)
             ∧ (str e ≠ "" → RecordTempsReply.error reply ≠ "")
         end)
  ∧ (∃ w' reply, StationMax self max_request w = (w', inr reply)
       ∧ (StationMaxReply.error reply ≠ "" → StationMaxReply.tmax reply = 0)
       ∧ ∀ stmt, select_tmax self = Some stmt →
           match (session_execute stmt
                    (StationMaxRequest.station max_request) w).2 with
           | inr rows => StationMaxReply.error reply = ""
           | inl e =>
               StationMaxReply.error reply
               = (if is_unavailable e then "unavailable" else str e)
               ∧ (str e ≠ "" → StationMaxReply.error reply ≠ "")
           end).
Proof.
  split; [|split; [|split]].
  - eexists. split; [apply StationSchema_reply|]. split.
    + destruct (metadata_keyspaces w !! "weather") as [k|]; [|done].
      destruct (tables k !! "stations") as [t|]; [|done].
      by destruct (export_as_string t).
    + intros k t -> ->. by destruct (export_as_string t).
  - destruct (session_execute (select_name self)
                (StationNameRequest.station name_request) w)
      as [w' [e|rows]] eqn:Hexec.
    + exists w', (StationNameReply.mk "" (str e)).
      split; [by apply StationName_raises|]. done.
    + eexists w', _. split; [by apply StationName_returns|].
      clear Hexec. destruct rows as [|[[found|]] rows]; cbn [one head];
        try (split; [done|by right]).
      destruct (truthy (Some found)) eqn:Htruthy; [|split; [done|by right]].
      split; [done|]. left. split; [done|].
      cbn in *. by apply bool_decide_eq_true in Htruthy.
  - destruct (session_execute (insert_temp self)
                (RecordTempsRequest.station record_request,
                 RecordTempsRequest.date record_request,
                 (RecordTempsRequest.tmin record_request,
                  RecordTempsRequest.tmax record_request)) w)
      as [w' [e|rows]] eqn:Hexec.
    + eexists w', _. split; [by apply RecordTemps_raises|]. cbn.
      split; [done|]. by destruct (is_unavailable e).
    + eexists w', _. split; [by eapply RecordTemps_returns|]. done.
  - destruct (select_tmax self) as [stmt|] eqn:Hstmt.
    + destruct (session_execute stmt (StationMaxRequest.station max_request) w)
        as [w' [e|rows]] eqn:Hexec.
      * eexists w', _. split; [by eapply StationMax_raises|]. cbn.
        split; [done|]. intros stmt' [= <-]. rewrite Hexec. cbn.
        split; [done|]. by destruct (is_unavailable e).
      * eexists w', _. split; [by eapply StationMax_returns|]. cbn.
        split; [done|]. intros stmt' [= <-]. by rewrite Hexec.
    + eexists w, _. split; [by apply StationMax_unprepared|]. done.
Qed.

(** ** The store *)

Lemma row_at_upsert_eq (d : Z) (r : Z * Z) (rows : list (Z * (Z * Z))) :
  row_at d (upsert d r rows) = Some r.
Proof.
  induction rows as [|[d' r'] rows IH]; cbn.
  - by rewrite Z.eqb_refl.
  - destruct (Z.ltb_spec d d'); cbn.
    + by rewrite Z.eqb_refl.
    + destruct (Z.eqb_spec d d'); cbn.
      * by rewrite Z.eqb_refl.
      * destruct (Z.eqb_spec d d'); [done|]. exact IH.
Qed.

Lemma row_at_upsert_ne (d d' : Z) (r : Z * Z) (rows : list (Z * (Z * Z))) :
  d ≠ d' → row_at d (upsert d' r rows) = row_at d rows.
Proof.
  intros Hne. induction rows as [|[d'' r''] rows IH]; cbn.
  - by destruct (Z.eqb_spec d d').
  - destruct (Z.ltb_spec d' d''); cbn.
    + by destruct (Z.eqb_spec d d').
    + destruct (Z.eqb_spec d' d'') as [<-|]; cbn.
      * by destruct (Z.eqb_spec d d').
      * by rewrite IH.
Qed.

Lemma upsert_upsert (d : Z) (r : Z * Z) (rows : list (Z * (Z * Z))) :
  upsert d r (upsert d r rows) = upsert d r rows.
Proof.
  induction rows as [|[d' r'] rows IH]; cbn.
  - by rewrite Z.ltb_irrefl, Z.eqb_refl.
  - destruct (Z.ltb_spec d d') as [Hlt|Hge]; cbn.
    + by rewrite Z.ltb_irrefl, Z.eqb_refl.
    + destruct (Z.eqb_spec d d') as [<-|Hne]; cbn.
      * by rewrite Z.ltb_irrefl, Z.eqb_refl.
      * destruct (Z.ltb_spec d d'); [lia|].
        destruct (Z.eqb_spec d d'); [done|]. by rewrite IH.
Qed.

Lemma row_at_elem (d : Z) (r : Z * Z) (rows : list (Z * (Z * Z))) :
  row_at d rows = Some r → (d, r) ∈ rows.
Proof.
  induction rows as [|[d' r'] rows IH]; cbn; [done|].
  destruct (Z.eqb_spec d d') as [<-|].
  - intros [= <-]. apply list_elem_of_here.
  - intros Hrow. apply list_elem_of_further. by apply IH.
Qed.

Lemma invalid_request_nonempty (message : string) :
  str (invalid_request message) ≠ "".
Proof. done. Qed.

Lemma coordinate_returns {q} (stmt : prepared q) (c c' : cluster)
    (k : string) (ks : keyspace) (t : table) :
  coordinate stmt c = (c', inr (k, ks, t)) ↔
  c' = c ∧ live c ≠ 0%nat ∧ current_keyspace c = Some k
  ∧ keyspaces c !! k = Some ks ∧ tables_of ks !! "stations" = Some t
  ∧ schema_of t = stations_schema
  ∧ ¬ (live c < block_for (effective_level c stmt) (replication ks).2)%nat.
Proof.
  unfold coordinate, need_host, need_stations, need_keyspace, need_replicas, get.
  unfold_monad. split.
  - intros Hrun. repeat (case_match || case_decide); simplify_eq; done.
  - intros (-> & Hlive & Hk & Hks & Ht & Hschema & Hreplicas).
    rewrite decide_False by done. rewrite Hk, Hks, Ht.
    rewrite decide_True by done. by rewrite decide_False by done.
Qed.

Lemma coordinate_raises {q} (stmt : prepared q) (c c' : cluster) (e : exn) :
  coordinate stmt c = (c', inl e) → c' = c ∧ str e ≠ "".
Proof.
  unfold coordinate, need_host, need_stations, need_keyspace, need_replicas, get.
  unfold_monad. intros Hrun.
  repeat (case_match || case_decide); simplify_eq; done.
Qed.

Lemma coordinate_state {q} (stmt : prepared q) (c : cluster) :
  (coordinate stmt c).1 = c.
Proof.
  destruct (coordinate stmt c) as [c' [e|[[k ks] t]]] eqn:Hrun; cbn.
  - by apply coordinate_raises in Hrun as [-> _].
  - by apply coordinate_returns in Hrun as [-> _].
Qed.

Lemma coordinate_few_replicas {q} (stmt : prepared q) (c : cluster)
    (k : string) (ks : keyspace) (t : table) :
  current_keyspace c = Some k → keyspaces c !! k = Some ks →
  tables_of ks !! "stations" = Some t → schema_of t = stations_schema →
  (live c < block_for (effective_level c stmt) (replication ks).2)%nat →
  ∃ e, coordinate stmt c = (c, inl e) ∧ is_unavailable e = true.
Proof.
  intros Hk Hks Ht Hschema Hfew.
  unfold coordinate, need_host, need_stations, need_keyspace, need_replicas, get.
  unfold_monad. destruct (decide (live c = 0%nat)).
  - by exists no_host.
  - rewrite Hk, Hks, Ht. rewrite decide_True by done.
    rewrite decide_True by done. by exists cannot_achieve.
Qed.

Section StoreFacts.
Context `{!DateCodec}.

Lemma bind_record_run (date : string) (record : Z * Z) (c : cluster) :
  (∃ d, date_of_text date = Some d
        ∧ in_int32 record.1 && in_int32 record.2 = true
        ∧ bind_record date record c = (c, inr d))
  ∨ (∃ e, bind_record date record c = (c, inl e) ∧ str e ≠ "").
Proof.
  unfold bind_record. destruct (date_of_text date) as [d|].
  - destruct (in_int32 record.1 && in_int32 record.2) eqn:Hfit.
    + left. by exists d.
    + right. by eexists.
  - right. by eexists.
Qed.

(** What the write of a record does: it either raises and leaves the
    cluster alone, or replaces one row of one partition. *)
Lemma insert_temp_run (stmt : prepared InsertTemp) (id date : string)
    (record : Z * Z) (c : cluster) :
  (∃ e, session_execute stmt (id, date, record) c = (c, inl e)
        ∧ str e ≠ "")
  ∨ (∃ d k ks t,
       date_of_text date = Some d
       ∧ (∀ c', bind_record date record c' = (c', inr d))
       ∧ coordinate stmt c = (c, inr (k, ks, t))
       ∧ session_execute stmt (id, date, record) c
         = (with_partition c k ks t id
              {| static_name :=
                   static_name (default empty_partition (partitions t !! id));
                 clustering :=
                   upsert d record
                     (clustering (default empty_partition (partitions t !! id))) |},
            inr [])).
Proof.
  unfold session_execute, cluster_session. cbn [run_execute].
  destruct (bind_record_run date record c) as [(d & Hd & Hfit & Hbind)|(e & Hbind & He)].
  - destruct (coordinate stmt c) as [c' [e|[[k ks] t]]] eqn:Hrun.
    + left. exists e. apply coordinate_raises in Hrun as Hfacts.
      destruct Hfacts as [-> He]. split; [|done].
      erewrite bind_returns by exact Hbind.
      by erewrite bind_raises by exact Hrun.
    + right. exists d, k, ks, t.
      apply coordinate_returns in Hrun as Hfacts. destruct Hfacts as [-> _].
      split; [done|].
      split; [intros c'; unfold bind_record; by rewrite Hd, Hfit|].
      split; [done|].
      erewrite bind_returns by exact Hbind.
      by erewrite bind_returns by exact Hrun.
  - left. exists e. split; [|done]. by erewrite bind_raises by exact Hbind.
Qed.

Lemma select_tmax_run (stmt : prepared SelectTmax) (id : string) (c : cluster) :
  (∃ e, session_execute stmt id c = (c, inl e) ∧ str e ≠ "")
  ∨ (∃ k ks t,
       coordinate stmt c = (c, inr (k, ks, t))
       ∧ session_execute stmt id c
         = (c, inr (tmax_rows (partitions t !! id)))).
Proof.
  unfold session_execute, cluster_session. cbn [run_execute].
  destruct (coordinate stmt c) as [c' [e|[[k ks] t]]] eqn:Hrun.
  - left. exists e. apply coordinate_raises in Hrun as Hfacts.
    destruct Hfacts as [-> He]. split; [|done].
    by erewrite bind_raises by exact Hrun.
  - right. exists k, ks, t.
    apply coordinate_returns in Hrun as Hfacts. destruct Hfacts as [-> _].
    split; [done|]. by erewrite bind_returns by exact Hrun.
Qed.

Lemma select_name_run (stmt : prepared SelectName) (id : string) (c : cluster) :
  (∃ e, session_execute stmt id c = (c, inl e) ∧ str e ≠ "")
  ∨ (∃ k ks t,
       coordinate stmt c = (c, inr (k, ks, t))
       ∧ session_execute stmt id c
         = (c, inr (name_rows (partitions t !! id)))).
Proof.
  unfold session_execute, cluster_session. cbn [run_execute].
  destruct (coordinate stmt c) as [c' [e|[[k ks] t]]] eqn:Hrun.
  - left. exists e. apply coordinate_raises in Hrun as Hfacts.
    destruct Hfacts as [-> He]. split; [|done].
    by erewrite bind_raises by exact Hrun.
  - right. exists k, ks, t.
    apply coordinate_returns in Hrun as Hfacts. destruct Hfacts as [-> _].
    split; [done|]. by erewrite bind_returns by exact Hrun.
Qed.

(** The handlers that only read leave the cluster as it is. *)
Lemma StationMax_cluster (self : StationService) (request : StationMaxRequest.t)
    (c : cluster) :
  (StationMax self request c).1 = c.
Proof.
  destruct (select_tmax self) as [stmt|] eqn:Hstmt.
  - rewrite (StationMax_world _ stmt) by done.
    destruct (select_tmax_run stmt (StationMaxRequest.station request) c)
      as [(e & Hrun & _)|(k & ks & t & _ & Hrun)]; by rewrite Hrun.
  - by rewrite StationMax_unprepared.
Qed.

Lemma StationName_cluster (self : StationService)
    (request : StationNameRequest.t) (c : cluster) :
  (StationName self request c).1 = c.
Proof.
  rewrite StationName_world.
  destruct (select_name_run (select_name self)
              (StationNameRequest.station request) c)
    as [(e & Hrun & _)|(k & ks & t & _ & Hrun)]; by rewrite Hrun.
Qed.

Lemma with_partition_again (c : cluster) (k : string) (ks : keyspace)
    (t : table) (id : string) (p : partition) :
  with_partition (with_partition c k ks t id p) k
    (with_tables ks
       (<["stations" := {| schema_of := schema_of t;
                           partitions := <[id := p]> (partitions t) |}]>
          (tables_of ks)))
    {| schema_of := schema_of t; partitions := <[id := p]> (partitions t) |}
    id p
  = with_partition c k ks t id p.
Proof.
  unfold with_partition, with_keyspaces, with_tables. cbn.
  by rewrite !insert_insert_eq.
Qed.

Lemma coordinate_after_write {q} (stmt : prepared q) (c : cluster) (k : string)
    (ks : keyspace) (t : table) (id : string) (p : partition) :
  coordinate stmt c = (c, inr (k, ks, t)) →
  coordinate stmt (with_partition c k ks t id p)
  = (with_partition c k ks t id p,
     inr (k,
          with_tables ks
            (<["stations" := {| schema_of := schema_of t;
                                partitions := <[id := p]> (partitions t) |}]>
               (tables_of ks)),
          {| schema_of := schema_of t; partitions := <[id := p]> (partitions t) |})).
Proof.
  intros Hrun. apply coordinate_returns in Hrun
    as (_ & Hlive & Hk & Hks & Ht & Hschema & Hreplicas).
  apply coordinate_returns. split; [done|]. split; [done|]. split; [done|].
  split; [apply lookup_insert_eq|]. split; [apply lookup_insert_eq|].
  split; [done|]. done.
Qed.

Lemma insert_temp_twice (stmt : prepared InsertTemp) (id date : string)
    (record : Z * Z) (c : cluster) :
  session_execute stmt (id, date, record)
    (session_execute stmt (id, date, record) c).1
  = session_execute stmt (id, date, record) c.
Proof.
  destruct (insert_temp_run stmt id date record c)
    as [(e & Hrun & _)|(d & k & ks & t & Hd & Hbind & Hcoordinate & Hrun)];
    rewrite Hrun; cbn [fst]; [done|].
  unfold session_execute, cluster_session. cbn [run_execute].
  erewrite bind_returns by apply Hbind.
  erewrite bind_returns by (by apply coordinate_after_write).
  cbn [partitions]. rewrite lookup_insert_eq.
  cbn [default from_option]. cbv [Datatypes.id]. cbn [static_name clustering].
  rewrite upsert_upsert. unfold write_partition, get, put. unfold_monad.
  by rewrite with_partition_again.
Qed.

(** C6: the same [RecordTemps] call made twice in a row leaves the cluster
    as the first call left it and gets the same reply, so whatever follows,
    [StationMax] answers as it would after a single call. *)
Theorem RecordTemps_twice_is_once (self : StationService)
    (request : RecordTempsRequest.t) (history : list event)
    (max_request : StationMaxRequest.t) (c : cluster) :
  let once := (RecordTemps self request c).1 in
  let twice := (RecordTemps self request once).1 in
  twice = once
  ∧ (RecordTemps self request once).2 = (RecordTemps self request c).2
  ∧ StationMax self max_request (run self history twice)
    = StationMax self max_request (run self history once).
Proof.
  cbn zeta.
  assert (RecordTemps self request (RecordTemps self request c).1
          = RecordTemps self request c) as Hsame.
  { rewrite RecordTemps_world.
    unfold RecordTemps. unfold_monad.
    by rewrite insert_temp_twice. }
  rewrite Hsame. done.
Qed.

(** ** Records that stay *)

Lemma stored_lookup (c : cluster) (k : string) (ks : keyspace) (t : table)
    (id : string) (d : Z) :
  current_keyspace c = Some k → keyspaces c !! k = Some ks →
  tables_of ks !! "stations" = Some t →
  stored c id d = partitions t !! id ≫= λ p, row_at d (clustering p).
Proof.
  intros Hk Hks Ht. unfold stored. rewrite Hk. cbn. rewrite Hks. cbn.
  by rewrite Ht.
Qed.

Lemma stored_with_partition (c : cluster) (k : string) (ks : keyspace)
    (t : table) (id id' : string) (p : partition) (d : Z) :
  current_keyspace c = Some k → keyspaces c !! k = Some ks →
  tables_of ks !! "stations" = Some t →
  stored (with_partition c k ks t id' p) id d
  = if decide (id' = id) then row_at d (clustering p) else stored c id d.
Proof.
  intros Hk Hks Ht.
  rewrite (stored_lookup c k ks t) by done.
  erewrite (stored_lookup (with_partition c k ks t id' p) k);
    [|done|apply lookup_insert_eq|apply lookup_insert_eq].
  cbn [partitions]. destruct (decide (id' = id)) as [->|Hne].
  - by rewrite lookup_insert_eq.
  - by rewrite lookup_insert_ne.
Qed.

Lemma RecordTemps_stores (self : StationService) (request : RecordTempsRequest.t)
    (c c' : cluster) (reply : RecordTempsReply.t) (d : Z) :
  RecordTemps self request c = (c', inr reply) →
  RecordTempsReply.error reply = "" →
  date_of_text (RecordTempsRequest.date request) = Some d →
  stored c' (RecordTempsRequest.station request) d
  = Some (RecordTempsRequest.tmin request, RecordTempsRequest.tmax request).
Proof.
  intros Hrun Herror Hd.
  destruct (insert_temp_run (insert_temp self)
              (RecordTempsRequest.station request)
              (RecordTempsRequest.date request)
              (RecordTempsRequest.tmin request, RecordTempsRequest.tmax request) c)
    as [(e & Hexec & He)|(d' & k & ks & t & Hd' & _ & Hcoordinate & Hexec)].
  - rewrite (RecordTemps_raises _ _ _ _ _ Hexec) in Hrun.
    injection Hrun as <- <-. cbn in Herror.
    by destruct (is_unavailable e).
  - rewrite (RecordTemps_returns _ _ _ _ _ Hexec) in Hrun.
    injection Hrun as <- <-. clear Hexec.
    apply coordinate_returns in Hcoordinate as (_ & _ & Hk & Hks & Ht & _).
    rewrite (stored_with_partition _ _ _ _ _ _ _ _ Hk Hks Ht).
    rewrite decide_True by done. cbn [clustering].
    assert (d' = d) as -> by congruence. apply row_at_upsert_eq.
Qed.

Lemma step_keeps_stored (self : StationService) (c : cluster) (ev : event)
    (id : string) (d : Z) :
  ¬ writes id d ev → stored (step self c ev) id d = stored c id d.
Proof.
  intros Hother. destruct ev as [|request|request|request|n]; cbn [step].
  - by rewrite StationSchema_world.
  - by rewrite StationName_cluster.
  - rewrite RecordTemps_world.
    destruct (insert_temp_run (insert_temp self)
                (RecordTempsRequest.station request)
                (RecordTempsRequest.date request)
                (RecordTempsRequest.tmin request, RecordTempsRequest.tmax request) c)
      as [(e & Hexec & He)|(d' & k & ks & t & Hd' & _ & Hcoordinate & Hexec)];
      rewrite Hexec; cbn [fst]; [done|].
    clear Hexec.
    apply coordinate_returns in Hcoordinate as (_ & _ & Hk & Hks & Ht & _).
    rewrite (stored_with_partition _ _ _ _ _ _ _ _ Hk Hks Ht).
    destruct (decide (RecordTempsRequest.station request = id)) as [Hid|]; [|done].
    cbn [clustering]. rewrite row_at_upsert_ne.
    + rewrite (stored_lookup c k ks t) by done. rewrite Hid.
      by destruct (partitions t !! id).
    + intros ->. apply Hother. by split.
  - by rewrite StationMax_cluster.
  - reflexivity.
Qed.

Lemma run_keeps_stored (self : StationService) (history : list event)
    (c : cluster) (id : string) (d : Z) :
  Forall (λ ev, ¬ writes id d ev) history →
  stored (run self history c) id d = stored c id d.
Proof.
  intros Hother. revert c.
  induction Hother as [|ev history Hev _ IH]; intros c; [reflexivity|].
  unfold run in *. cbn [foldl]. rewrite IH. by apply step_keeps_stored.
Qed.

Lemma StationMax_covers_stored (self : StationService)
    (request : StationMaxRequest.t) (c c' : cluster) (reply : StationMaxReply.t)
    (d : Z) (record : Z * Z) :
  stored c (StationMaxRequest.station request) d = Some record →
  StationMax self request c = (c', inr reply) →
  StationMaxReply.error reply = "" →
  record.2 ≤ StationMaxReply.tmax reply.
Proof.
  intros Hstored Hrun Herror.
  destruct (select_tmax self) as [stmt|] eqn:Hstmt;
    [|rewrite StationMax_unprepared in Hrun by done;
      injection Hrun as <- <-; done].
  destruct (select_tmax_run stmt (StationMaxRequest.station request) c)
    as [(e & Hexec & He)|(k & ks & t & Hcoordinate & Hexec)].
  - rewrite (StationMax_raises _ _ _ _ _ _ Hstmt Hexec) in Hrun.
    injection Hrun as <- <-. cbn in Herror. by destruct (is_unavailable e).
  - rewrite (StationMax_returns _ _ _ _ _ _ Hstmt Hexec) in Hrun.
    injection Hrun as <- <-. clear Hexec Herror. cbn [StationMaxReply.tmax].
    apply coordinate_returns in Hcoordinate as (_ & _ & Hk & Hks & Ht & _).
    rewrite (stored_lookup c k ks t) in Hstored by done.
    destruct (partitions t !! StationMaxRequest.station request) as [p|];
      [|done].
    cbn in Hstored. apply row_at_elem in Hstored.
    assert (record.2 ∈ present_values (tmax_rows (Some p))) as Hin.
    { unfold tmax_rows. destruct (clustering p) as [|r rows] eqn:Hrows.
      - by apply elem_of_nil in Hstored.
      - unfold present_values. apply list_elem_of_omap.
        exists [PyInt record.2]. split; [|done].
        apply list_elem_of_fmap. by exists (d, record). }
    apply (maximum_or_zero_is_maximum _); [|done].
    intros Hnil. rewrite Hnil in Hin. by apply elem_of_nil in Hin.
Qed.

(** C5, amended: after a successful [RecordTemps], every later successful
    [StationMax] for the station reports at least the recorded [tmax], as
    long as no later [RecordTemps] names the same station and day; replicas
    may come and go and other days and stations may be recorded in
    between.  A later recording of the same station and day replaces the
    record, and the reported maximum then follows the new value. *)
Theorem recorded_value_bounds_later_maximum (self : StationService)
    (request : RecordTempsRequest.t) (history : list event)
    (max_request : StationMaxRequest.t) (c c' c'' : cluster)
    (reply : RecordTempsReply.t) (max_reply : StationMaxReply.t) (d : Z) :
  RecordTemps self request c = (c', inr reply) →
  RecordTempsReply.error reply = "" →
  date_of_text (RecordTempsRequest.date request) = Some d →
  Forall (λ ev, ¬ writes (RecordTempsRequest.station request) d ev) history →
  StationMaxRequest.station max_request = RecordTempsRequest.station request →
  StationMax self max_request (run self history c') = (c'', inr max_reply) →
  StationMaxReply.error max_reply = "" →
  RecordTempsRequest.tmax request ≤ StationMaxReply.tmax max_reply.
Proof.
  intros Hrecord Herror Hd Hother Hstation Hmax Hmax_error.
  pose proof (RecordTemps_stores _ _ _ _ _ _ Hrecord Herror Hd) as Hstored.
  rewrite <- (run_keeps_stored self history) in Hstored by done.
  rewrite <- Hstation in Hstored.
  exact (StationMax_covers_stored _ _ _ _ _ _ _ Hstored Hmax Hmax_error).
Qed.

End StoreFacts.



(** The first day of the scenario recorded twice, 31 and then 25: the second
    recording replaces the first and [StationMax] reports 25. *)
Lemma recorded_maximum_never_decreases_fails :
  ¬ recorded_maximum_never_decreases.
Proof.
  intros Hclaim.
  assert (RecordTemps example_service first_day example_running
          = ((RecordTemps example_service first_day example_running).1,
             inr (RecordTempsReply.mk ""))) as Hrecord
    by (vm_compute; reflexivity).
  assert (StationMax example_service (StationMaxRequest.mk madison)
            (run example_service [CallRecordTemps first_day_revised]
               (RecordTemps example_service first_day example_running).1)
          = (run example_service [CallRecordTemps first_day_revised]
               (RecordTemps example_service first_day example_running).1,
             inr (StationMaxReply.mk 25 ""))) as Hmax
    by (vm_compute; reflexivity).
  pose proof (Hclaim example_service first_day
                [CallRecordTemps first_day_revised]
                (StationMaxRequest.mk madison) _ _ _ _ _
                Hrecord eq_refl eq_refl Hmax eq_refl) as Hle.
  clear Hrecord Hmax Hclaim. cbn in Hle. lia.
Qed.

(** The first day of the scenario, followed by the second day and by
    replicas going and coming back. *)
Lemma recorded_value_bounds_later_maximum_witness :
  RecordTemps example_service first_day example_running
  = ((RecordTemps example_service first_day example_running).1,
     inr (RecordTempsReply.mk ""))
  ∧ RecordTempsReply.error (RecordTempsReply.mk "") = ""
  ∧ date_of_text (RecordTempsRequest.date first_day) = Some 20230701
  ∧ Forall (λ ev, ¬ writes (RecordTempsRequest.station first_day) 20230701 ev)
      [CallRecordTemps second_day; Reachable 2; Reachable 3]
  ∧ StationMaxRequest.station (StationMaxRequest.mk madison)
    = RecordTempsRequest.station first_day
  ∧ StationMax example_service (StationMaxRequest.mk madison)
      (run example_service [CallRecordTemps second_day; Reachable 2; Reachable 3]
         (RecordTemps example_service first_day example_running).1)
    = (run example_service [CallRecordTemps second_day; Reachable 2; Reachable 3]
         (RecordTemps example_service first_day example_running).1,
       inr (StationMaxReply.mk 31 ""))
  ∧ StationMaxReply.error (StationMaxReply.mk 31 "") = ""
  ∧ RecordTempsRequest.tmax first_day ≤ StationMaxReply.tmax (StationMaxReply.mk 31 "").
Proof.
  assert (RecordTemps example_service first_day example_running
          = ((RecordTemps example_service first_day example_running).1,
             inr (RecordTempsReply.mk ""))) as Hrecord
    by (vm_compute; reflexivity).
  assert (StationMax example_service (StationMaxRequest.mk madison)
      (run example_service [CallRecordTemps second_day; Reachable 2; Reachable 3]
         (RecordTemps example_service first_day example_running).1)
    = (run example_service [CallRecordTemps second_day; Reachable 2; Reachable 3]
         (RecordTemps example_service first_day example_running).1,
       inr (StationMaxReply.mk 31 ""))) as Hmax
    by (vm_compute; reflexivity).
  assert (Forall (λ ev, ¬ writes (RecordTempsRequest.station first_day) 20230701 ev)
            [CallRecordTemps second_day; Reachable 2; Reachable 3]) as Hother.
  { clear Hrecord Hmax. repeat constructor.
    - intros [_ Hdate]. vm_compute in Hdate. discriminate Hdate.
    - intros [].
    - intros []. }
  split; [exact Hrecord|]. split; [reflexivity|]. split; [reflexivity|].
  split; [exact Hother|]. split; [reflexivity|]. split; [exact Hmax|].
  split; [reflexivity|].
  exact (recorded_value_bounds_later_maximum example_service first_day
           [CallRecordTemps second_day; Reachable 2; Reachable 3]
           (StationMaxRequest.mk madison) _ _ _ _ _ 20230701
           Hrecord eq_refl eq_refl Hother eq_refl Hmax eq_refl).
Defined.

(** ** The constructor, over any session *)

Lemma bind_inv {W A B} (m : M W A) (k : A → M W B) (w w' : W) (r : exn + B) :
  (m ≫= k) w = (w', r) →
  (∃ e, m w = (w', inl e) ∧ r = inl e)
  ∨ (∃ w1 a, m w = (w1, inr a) ∧ k a w1 = (w', r)).
Proof.
  unfold mbind, M_bind. destruct (m w) as [w1 [e|a]]; intros Hrun.
  - left. exists e. by injection Hrun as -> <-.
  - right. by exists w1, a.
Qed.

Lemma bind_returns_inv {W A B} (m : M W A) (k : A → M W B) (w w' : W) (b : B) :
  (m ≫= k) w = (w', inr b) →
  ∃ w1 a, m w = (w1, inr a) ∧ k a w1 = (w', inr b).
Proof.
  intros Hrun. apply bind_inv in Hrun as [(e & _ & Habsurd)|Hrun];
    [discriminate Habsurd|exact Hrun].
Qed.

Section Constructor.
Context {W : Type} `{!Session W}.

(** A row of the seeding loop never raises; the statement it leaves is the
    one it found or a freshly prepared one, without a level. *)
Lemma seed_row_returns (acc : option (prepared InsertName))
    (r : string * string) (w : W) :
  ∃ w' y, seed_row acc r w = (w', inr y)
          ∧ (y = acc ∨ y = Some (Prepared None)).
Proof.
  unfold seed_row, prepare, try_except. unfold_monad.
  destruct acc as [stmt|].
  - destruct (session_execute stmt (strip r.1, strip r.2) w) as [w' [e|rows]];
      eexists _, _; (split; [reflexivity|by left]).
  - destruct (session_prepare InsertName w) as [w1 [e|[]]].
    + eexists _, _. split; [reflexivity|by left].
    + destruct (session_execute (q := InsertName) (Prepared None)
                  (strip r.1, strip r.2) w1) as [w' [e|rows]];
        eexists _, _; (split; [reflexivity|by right]).
Qed.

Lemma seed_names_returns (rows : list (string * string))
    (acc : option (prepared InsertName)) (w : W) :
  ∃ w' y, seed_names rows acc w = (w', inr y)
          ∧ (y = acc ∨ y = Some (Prepared None)).
Proof.
  revert acc w. induction rows as [|r rows IH]; intros acc w; cbn [seed_names].
  - eexists _, _. split; [reflexivity|by left].
  - destruct (seed_row_returns acc r w) as (w1 & y1 & Hrow & Hy1).
    destruct (IH y1 w1) as (w' & y & Hrest & Hy).
    exists w', y. split; [by erewrite bind_returns by exact Hrow|].
    destruct Hy as [-> | ->]; [exact Hy1|by right].
Qed.

Lemma prepare_rpc_statements_returns (w w' : W)
    (x : prepared InsertTemp * prepared SelectName * prepared SelectTmax) :
  prepare_rpc_statements w = (w', inr x) →
  x = (Prepared (Some ONE), Prepared (Some ONE), Prepared (Some THREE)).
Proof.
  unfold prepare_rpc_statements, prepare, try_except, println. unfold_monad.
  destruct (session_prepare InsertTemp w) as [w1 [e|[]]]; [done|].
  destruct (session_prepare SelectName w1) as [w2 [e|[]]]; [done|].
  destruct (session_prepare SelectTmax w2) as [w3 [e|[]]]; [done|].
  by intros [= <- <-].
Qed.

(** The service object a successful [__init__] leaves. *)
Lemma init_returns (w w' : W) (self : StationService) :
  init w = (w', inr self) →
  ∃ seed, self = {| init_insert_name := seed;
                    insert_temp := Prepared (Some ONE);
                    select_name := Prepared (Some ONE);
                    select_tmax := Some (Prepared (Some THREE)) |}
          ∧ (seed = None ∨ seed = Some (Prepared None)).
Proof.
  unfold init. intros Hrun.
  do 7 (apply bind_returns_inv in Hrun as (? & ? & _ & Hrun)).
  apply bind_returns_inv in Hrun as (w8 & seed & Hseed & Hrun).
  apply bind_returns_inv in Hrun as (w9 & [[a b] c] & Hprepare & Hrun).
  apply bind_returns_inv in Hrun as (w10 & [] & _ & Hrun).
  apply prepare_rpc_statements_returns in Hprepare as [= -> -> ->].
  injection Hrun as _ <-. exists seed. split; [done|].
  match type of Hseed with
  | seed_names ?rows None ?w0 = _ =>
      destruct (seed_names_returns rows None w0) as (w'' & y & Hrows & Hy)
  end.
  rewrite Hrows in Hseed. injection Hseed as _ <-.
  destruct Hy as [-> | ->]; [by left|by right].
Qed.

End Constructor.

(** ** Traces of computations *)

Section TraceFacts.
Context {W : Type}.
Implicit Types (P : call * option exn → Prop) (t : traced W).

Lemma calls_since_app t (t' : traced W) (new : list (call * option exn)) :
  calls t' = calls t ++ new → calls_since t t' = new.
Proof. intros Hcalls. unfold calls_since. rewrite Hcalls. apply drop_app_length. Qed.

Lemma calls_with_ret {A} P (Q : A → Prop) (a : A) :
  Q a → calls_with (W := W) P Q (mret a).
Proof.
  intros Ha t. exists []. cbn. rewrite app_nil_r.
  split; [done|]. split; [constructor|]. by intros ? [= <-].
Qed.

Lemma calls_with_raise {A} P (Q : A → Prop) (e : exn) :
  calls_with (W := W) P Q (raise e).
Proof.
  intros t. exists []. cbn. rewrite app_nil_r.
  split; [done|]. split; [constructor|done].
Qed.

Lemma calls_with_bind {A B} P (Q : A → Prop) (R : B → Prop)
    (m : M (traced W) A) (k : A → M (traced W) B) :
  calls_with P Q m → (∀ a, Q a → calls_with P R (k a)) →
  calls_with P R (m ≫= k).
Proof.
  intros Hm Hk t. destruct (Hm t) as (new1 & Hcalls1 & HP1 & HQ1).
  unfold mbind, M_bind. destruct (m t) as [t1 [e|a]]; cbn in *.
  - exists new1. split; [done|]. split; [done|done].
  - destruct (Hk a (HQ1 a eq_refl) t1) as (new2 & Hcalls2 & HP2 & HR2).
    exists (new1 ++ new2). rewrite Hcalls2, Hcalls1, app_assoc.
    split; [done|]. split; [by apply Forall_app|done].
Qed.

Lemma calls_with_try {A} P (Q Q' : A → Prop)
    (body : M (traced W) A) (handler : exn → M (traced W) A) :
  calls_with P Q' body → (∀ e, calls_with P Q (handler e)) →
  (∀ a, Q' a → Q a) → calls_with P Q (try_except body handler).
Proof.
  intros Hbody Hhandler Hweaken t.
  destruct (Hbody t) as (new1 & Hcalls1 & HP1 & HQ1).
  unfold try_except. destruct (body t) as [t1 [e|a]]; cbn in *.
  - destruct (Hhandler e t1) as (new2 & Hcalls2 & HP2 & HQ2).
    exists (new1 ++ new2). rewrite Hcalls2, Hcalls1, app_assoc.
    split; [done|]. split; [by apply Forall_app|done].
  - exists new1. split; [done|]. split; [done|].
    intros ? [= <-]. by apply Hweaken, HQ1.
Qed.

Lemma calls_with_recorded {A} P (Q : A → Prop) (c : call) (m : M W A) :
  (∀ o, P (c, o)) → (∀ a, Q a) → calls_with P Q (recorded c m).
Proof.
  intros Hc HQ t. exists [(c, outcome (m (world t)).2)]. cbn.
  split; [done|]. split; [by repeat constructor|done].
Qed.

Lemma calls_with_unrecorded {A} P (Q : A → Prop) (m : M W A) :
  (∀ a, Q a) → calls_with P Q (unrecorded m).
Proof.
  intros HQ t. exists []. cbn. rewrite app_nil_r.
  split; [done|]. split; [constructor|done].
Qed.

Lemma calls_with_weaken {A} P P' (Q Q' : A → Prop) (m : M (traced W) A) :
  calls_with P Q m → (∀ x, P x → P' x) → (∀ a, Q a → Q' a) →
  calls_with P' Q' m.
Proof.
  intros Hm HP HQ t. destruct (Hm t) as (new & Hcalls & Hnew & Ha).
  exists new. split; [done|]. split; [by eapply Forall_impl|].
  intros a Hret. by apply HQ, Ha.
Qed.

Lemma fail_fast_harmless {A} (Q : A → Prop) (m : M (traced W) A) :
  calls_with (λ x, fatal x.1 = false) Q m → fail_fast m.
Proof.
  intros Hm t. destruct (Hm t) as (new & Hcalls & Hnew & _).
  exists new. split; [done|]. intros c e Hin Hfatal.
  rewrite Forall_forall in Hnew. apply Hnew in Hin. cbn in Hin. congruence.
Qed.

Lemma fail_fast_bind {A B} (m : M (traced W) A) (k : A → M (traced W) B) :
  fail_fast m → (∀ a, fail_fast (k a)) → fail_fast (m ≫= k).
Proof.
  intros Hm Hk t. destruct (Hm t) as (new1 & Hcalls1 & Hfail1).
  unfold mbind, M_bind. destruct (m t) as [t1 [e|a]]; cbn in *.
  - exists new1. split; [done|]. intros c e' Hin Hfatal.
    specialize (Hfail1 c e' Hin Hfatal). by injection Hfail1 as <-.
  - destruct (Hk a t1) as (new2 & Hcalls2 & Hfail2).
    exists (new1 ++ new2). rewrite Hcalls2, Hcalls1, app_assoc.
    split; [done|]. intros c e' Hin Hfatal.
    apply elem_of_app in Hin as [Hin|Hin].
    + by specialize (Hfail1 c e' Hin Hfatal).
    + by apply (Hfail2 c e').
Qed.

Lemma fail_fast_recorded {A} (c : call) (m : M W A) :
  fail_fast (recorded c m).
Proof.
  intros t. exists [(c, outcome (m (world t)).2)]. cbn.
  split; [done|]. intros c' e Hin _.
  apply list_elem_of_singleton in Hin as [= -> Houtcome].
  by destruct (m (world t)).2 as [e'|a]; cbn in *; simplify_eq.
Qed.

(** A handler that adds no call and raises the exception again. *)
Lemma fail_fast_reraise {A} (body : M (traced W) A)
    (handler : exn → M (traced W) A) :
  fail_fast body →
  (∀ e t, (handler e t).2 = inl e ∧ calls (handler e t).1 = calls t) →
  fail_fast (try_except body handler).
Proof.
  intros Hbody Hhandler t. destruct (Hbody t) as (new & Hcalls & Hfail).
  exists new. unfold try_except. destruct (body t) as [t1 [e|a]]; cbn in *.
  - destruct (Hhandler e t1) as [Hraise Hsame]. rewrite Hsame.
    split; [done|]. intros c e' Hin Hfatal.
    specialize (Hfail c e' Hin Hfatal). injection Hfail as <-. done.
  - split; [done|]. intros c e' Hin Hfatal. by apply (Hfail c e').
Qed.

End TraceFacts.

Section ConstructorTrace.
Context {W : Type} `{!Session W}.

Lemma seed_row_calls (acc : option (prepared InsertName)) (r : string * string) :
  seed_statement acc →
  calls_with (W := W) seed_call seed_statement (seed_row acc r).
Proof.
  intros Hacc. unfold seed_row.
  apply (calls_with_try _ _ seed_statement); [|intros e; by apply calls_with_ret|done].
  apply (calls_with_bind _ (λ stmt, stmt = Prepared None)).
  - destruct Hacc as [-> | ->].
    + unfold prepare. apply (calls_with_bind _ (λ _, True)).
      * apply (calls_with_recorded (W := W)); [intros o; by left|done].
      * intros _ _. by apply calls_with_ret.
    + by apply calls_with_ret.
  - intros stmt ->.
    apply (calls_with_try _ _ seed_statement);
      [|intros e; apply calls_with_ret; by right|done].
    apply (calls_with_bind _ (λ _, True)).
    + apply (calls_with_recorded (W := W)); [intros o; by right|done].
    + intros _ _. apply calls_with_ret. by right.
Qed.

Lemma seed_names_calls (rows : list (string * string))
    (acc : option (prepared InsertName)) :
  seed_statement acc →
  calls_with (W := W) seed_call seed_statement (seed_names rows acc).
Proof.
  revert acc. induction rows as [|r rows IH]; intros acc Hacc; cbn [seed_names].
  - by apply calls_with_ret.
  - apply (calls_with_bind _ seed_statement); [by apply seed_row_calls|].
    intros y Hy. by apply IH.
Qed.

Lemma seed_call_harmless (x : call * option exn) :
  seed_call x → fatal x.1 = false.
Proof. by intros [-> | ->]. Qed.

Lemma prepare_fail_fast (q : query) : fail_fast (W := W) (prepare q).
Proof.
  unfold prepare. apply fail_fast_bind.
  - apply (fail_fast_recorded (W := W)).
  - intros _. apply (fail_fast_harmless (λ _, True)). by apply calls_with_ret.
Qed.

Lemma prepare_rpc_statements_fail_fast :
  fail_fast (W := W) prepare_rpc_statements.
Proof.
  unfold prepare_rpc_statements. apply fail_fast_reraise.
  - apply fail_fast_bind; [apply prepare_fail_fast|intros a].
    apply fail_fast_bind; [apply prepare_fail_fast|intros b].
    apply fail_fast_bind; [apply prepare_fail_fast|intros c].
    apply (fail_fast_harmless (λ _, True)). by apply calls_with_ret.
  - intros e t. done.
Qed.

(** What [__init__] does once the schema stands: read the stations, seed
    the names, prepare the statements of the RPC calls, report. *)
Lemma after_schema_fail_fast :
  fail_fast (W := W)
    (wi_stations ← spark_wi_stations;
     init_insert_name ← seed_names wi_stations None;
     '(insert_temp, select_name, select_tmax) ← prepare_rpc_statements;
     println "Server started";;
     mret {| init_insert_name := init_insert_name;
             insert_temp := insert_temp;
             select_name := select_name;
             select_tmax := Some select_tmax |}).
Proof.
  apply fail_fast_bind.
  { apply (fail_fast_harmless (λ _, True)).
    by apply (calls_with_unrecorded (W := W)). }
  intros wi_stations. apply fail_fast_bind.
  { apply (fail_fast_harmless seed_statement).
    eapply calls_with_weaken;
      [apply seed_names_calls; by left|apply seed_call_harmless|done]. }
  intros seed. apply fail_fast_bind; [apply prepare_rpc_statements_fail_fast|].
  intros [[a b] c]. apply fail_fast_bind.
  { intros t. exists []. cbn. rewrite app_nil_r. split; [done|].
    intros ? ? Hin. by apply elem_of_nil in Hin. }
  intros _. apply (fail_fast_harmless (λ _, True)). by apply calls_with_ret.
Qed.

Lemma init_fail_fast : fail_fast (W := W) init.
Proof.
  unfold init.
  do 6 (apply fail_fast_bind; [apply (fail_fast_recorded (W := W))|intros _]).
  apply after_schema_fail_fast.
Qed.

Lemma serve_fail_fast : fail_fast (W := W) serve.
Proof.
  unfold serve. apply fail_fast_bind; [apply init_fail_fast|].
  intros self. apply (fail_fast_harmless (λ _, True)). by apply calls_with_ret.
Qed.

Lemma recorded_returns_inv {A} (c : call) (m : M W A) (t t' : traced W) (a : A) :
  recorded c m t = (t', inr a) → calls t' = calls t ++ [(c, None)].
Proof.
  unfold recorded. destruct (m (world t)) as [w [e|a']]; cbn; [done|].
  by intros [= <- _].
Qed.

(** A start that succeeds begins with the calls of the schema, in order. *)
Lemma init_returns_calls (t t' : traced W) (self : StationService) :
  init t = (t', inr self) → ∃ rest, calls_since t t' = schema_calls ++ rest.
Proof.
  unfold init. intros Hrun.
  apply bind_returns_inv in Hrun as (t1 & [] & H1 & Hrun).
  apply bind_returns_inv in Hrun as (t2 & [] & H2 & Hrun).
  apply bind_returns_inv in Hrun as (t3 & [] & H3 & Hrun).
  apply bind_returns_inv in Hrun as (t4 & [] & H4 & Hrun).
  apply bind_returns_inv in Hrun as (t5 & [] & H5 & Hrun).
  apply bind_returns_inv in Hrun as (t6 & [] & H6 & Hrun).
  apply (recorded_returns_inv (A := unit)) in H1, H2, H3, H4, H5, H6.
  match type of Hrun with
  | ?tail _ = _ => destruct (after_schema_fail_fast t6) as (rest & Hrest & _)
  end.
  rewrite Hrun in Hrest. cbn [fst] in Hrest. exists rest.
  apply calls_since_app.
  rewrite Hrest, H6, H5, H4, H3, H2, H1. unfold schema_calls.
  by rewrite <- !app_assoc.
Qed.

Lemma println_calls P (Q : unit → Prop) (line : string) :
  Q tt → calls_with (W := W) P Q (println line).
Proof.
  intros HQ t. exists []. cbn. rewrite app_nil_r.
  split; [done|]. split; [constructor|]. by intros [] _.
Qed.

Lemma prepare_calls {q} P (Q : prepared q → Prop) :
  (∀ o, P (Prepare q, o)) → Q (Prepared None) →
  calls_with (W := W) P Q (prepare q).
Proof.
  intros HP HQ. unfold prepare. apply (calls_with_bind _ (λ _, True)).
  - by apply (calls_with_recorded (W := W)).
  - intros _ _. by apply calls_with_ret.
Qed.

(** Whatever the constructor executes is the seed insert, without a
    level. *)
Lemma init_calls : calls_with (W := W) startup_call (λ _, True) init.
Proof.
  unfold init.
  do 6 (apply (calls_with_bind _ (λ _, True));
        [by apply (calls_with_recorded (W := W))|intros _ _]).
  apply (calls_with_bind _ (λ _, True));
    [by apply (calls_with_unrecorded (W := W))|intros wi_stations _].
  apply (calls_with_bind _ (λ _, True)).
  { eapply calls_with_weaken; [apply seed_names_calls; by left| |done].
    intros [c o] [Hc|Hc]; cbn in Hc; subst c; done. }
  intros seed _. apply (calls_with_bind _ (λ _, True)).
  { unfold prepare_rpc_statements.
    apply (calls_with_try _ _ (λ _, True)); [| |done].
    - apply (calls_with_bind _ (λ _, True)); [by apply prepare_calls|intros a _].
      apply (calls_with_bind _ (λ _, True)); [by apply prepare_calls|intros b _].
      apply (calls_with_bind _ (λ _, True)); [by apply prepare_calls|intros c _].
      by apply calls_with_ret.
    - intros e. apply (calls_with_bind _ (λ _, True)); [by apply println_calls|].
      intros _ _. apply calls_with_raise. }
  intros [[a b] c] _.
  apply (calls_with_bind _ (λ _, True)); [by apply println_calls|].
  intros _ _. by apply calls_with_ret.
Qed.

End ConstructorTrace.


(** ** The schema the constructor leaves in the store *)

Section Invariant.
Context {W : Type} `{!Session W}.
Variable I : W → Prop.
Hypothesis prepare_keeps : ∀ q w, I w → I (session_prepare q w).1.
Hypothesis seed_keeps :
  ∀ (stmt : prepared InsertName) args w, I w → I (session_execute stmt args w).1.
Hypothesis print_keeps : ∀ line w, I w → I (print line w).

Lemma seed_row_keeps (acc : option (prepared InsertName)) (r : string * string)
    (w : W) :
  I w → I (seed_row acc r w).1.
Proof.
  intros Hw. unfold seed_row, prepare, try_except. unfold_monad.
  destruct acc as [stmt|].
  - pose proof (seed_keeps stmt (strip r.1, strip r.2) w Hw) as Hkeep.
    by destruct (session_execute stmt (strip r.1, strip r.2) w) as [w' [e|rows]].
  - pose proof (prepare_keeps InsertName w Hw) as Hkeep.
    destruct (session_prepare InsertName w) as [w1 [e|[]]]; [done|].
    pose proof (seed_keeps (Prepared None) (strip r.1, strip r.2) w1 Hkeep)
      as Hkeep'.
    by destruct (session_execute (q := InsertName) (Prepared None)
                   (strip r.1, strip r.2) w1) as [w' [e|rows]].
Qed.

Lemma seed_names_keeps (rows : list (string * string))
    (acc : option (prepared InsertName)) (w : W) :
  I w → I (seed_names rows acc w).1.
Proof.
  revert acc w. induction rows as [|r rows IH]; intros acc w Hw;
    cbn [seed_names]; [done|].
  destruct (seed_row_returns acc r w) as (w1 & y & Hrow & _).
  erewrite bind_returns by exact Hrow. apply IH.
  pose proof (seed_row_keeps acc r w Hw) as Hkeep. by rewrite Hrow in Hkeep.
Qed.

Lemma prepare_rpc_statements_keeps (w : W) :
  I w → I (prepare_rpc_statements w).1.
Proof.
  intros Hw. unfold prepare_rpc_statements, prepare, try_except, println.
  unfold_monad.
  pose proof (prepare_keeps InsertTemp w Hw) as H1.
  destruct (session_prepare InsertTemp w) as [w1 [e|[]]]; [by apply print_keeps|].
  pose proof (prepare_keeps SelectName w1 H1) as H2.
  destruct (session_prepare SelectName w1) as [w2 [e|[]]]; [by apply print_keeps|].
  pose proof (prepare_keeps SelectTmax w2 H2) as H3.
  by destruct (session_prepare SelectTmax w2) as [w3 [e|[]]]; [apply print_keeps|].
Qed.

End Invariant.

Lemma create_keyspace_returns (c c' : cluster) :
  run_ddl create_keyspace c = (c', inr tt) →
  c' = with_keyspaces c
         (<["weather" := {| replication := (SimpleStrategy, 3%nat);
                            user_types := ∅; tables_of := ∅ |}]> (keyspaces c)).
Proof.
  unfold run_ddl, create_keyspace, need_host, store_keyspace, get, put.
  unfold_monad. intros Hrun.
  repeat (case_match || case_decide); simplify_eq; done.
Qed.

Lemma set_keyspace_returns (k : string) (c c' : cluster) :
  run_set_keyspace k c = (c', inr tt) → c' = with_current_keyspace c (Some k).
Proof.
  unfold run_set_keyspace, need_host, get, put. unfold_monad. intros Hrun.
  repeat (case_match || case_decide); simplify_eq; done.
Qed.

Lemma create_type_returns (c c' : cluster) (ks : keyspace) :
  current_keyspace c = Some "weather" →
  keyspaces c !! "weather" = Some ks →
  user_types ks !! "station_record" = None →
  run_ddl create_type c = (c', inr tt) →
  c' = with_keyspaces c
         (<["weather" :=
              with_user_types ks
                (<["station_record" := [("tmin", CqlInt); ("tmax", CqlInt)]]>
                   (user_types ks))]> (keyspaces c)).
Proof.
  intros Hk Hks Htype.
  unfold run_ddl, create_type, need_host, need_keyspace, store_keyspace, get, put.
  unfold_monad. intros Hrun.
  repeat (case_match || case_decide); simplify_eq; done.
Qed.

Lemma create_table_returns (c c' : cluster) (ks : keyspace) :
  current_keyspace c = Some "weather" →
  keyspaces c !! "weather" = Some ks →
  tables_of ks !! "stations" = None →
  run_ddl create_table c = (c', inr tt) →
  c' = with_keyspaces c
         (<["weather" :=
              with_tables ks
                (<["stations" := {| schema_of := stations_schema;
                                    partitions := ∅ |}]> (tables_of ks))]>
            (keyspaces c)).
Proof.
  intros Hk Hks Htable.
  unfold run_ddl, create_table, need_host, need_keyspace, store_keyspace, get, put.
  unfold_monad. intros Hrun.
  repeat (case_match || case_decide); simplify_eq; done.
Qed.

(** The schema statements, once they have all returned, leave the schema
    as [bootstrapped] describes it, whatever was there before. *)
Lemma schema_statements_bootstrap (c2 c3 c4 c5 c6 : cluster) :
  run_ddl create_keyspace c2 = (c3, inr tt) →
  run_set_keyspace "weather" c3 = (c4, inr tt) →
  run_ddl create_type c4 = (c5, inr tt) →
  run_ddl create_table c5 = (c6, inr tt) →
  bootstrapped c6.
Proof.
  intros H3 H4 H5 H6.
  apply create_keyspace_returns in H3 as ->.
  apply set_keyspace_returns in H4 as ->.
  eapply create_type_returns in H5;
    [|reflexivity|apply lookup_insert_eq|apply lookup_empty].
  subst c5.
  eapply create_table_returns in H6;
    [|reflexivity|apply lookup_insert_eq|apply lookup_empty].
  subst c6.
  split; [reflexivity|]. eexists _, _. cbn.
  split; [apply lookup_insert_eq|]. cbn.
  split; [reflexivity|]. split; [apply lookup_insert_eq|].
  split; [apply lookup_insert_eq|]. split; [reflexivity|].
  cbn. intros id p Hp. by rewrite lookup_empty in Hp.
Qed.

Lemma bootstrapped_with_partition {q} (stmt : prepared q) (c : cluster)
    (k : string) (ks : keyspace) (t : table) (id : string) (p : partition) :
  bootstrapped c → coordinate stmt c = (c, inr (k, ks, t)) →
  clustering p = [] →
  bootstrapped (with_partition c k ks t id p).
Proof.
  intros (Hk & ks' & t' & Hks & Hreplication & Htype & Ht & Hschema & Hempty)
         Hcoordinate Hp.
  apply coordinate_returns in Hcoordinate as (_ & _ & Hk' & Hks' & Ht' & _).
  assert (k = "weather") as -> by congruence.
  assert (ks' = ks) as -> by congruence.
  assert (t' = t) as -> by congruence.
  split; [done|]. eexists _, _. cbn.
  split; [apply lookup_insert_eq|]. cbn.
  split; [done|]. split; [done|]. split; [apply lookup_insert_eq|].
  split; [done|]. cbn. intros id' p' Hp'.
  destruct (decide (id = id')) as [<-|Hne].
  - rewrite lookup_insert_eq in Hp'. by injection Hp' as <-.
  - rewrite lookup_insert_ne in Hp' by done. by eapply Hempty.
Qed.

Lemma run_prepare_state (q : query) (c : cluster) : (run_prepare q c).1 = c.
Proof.
  unfold run_prepare, need_host, need_stations, need_keyspace, get.
  unfold_monad. repeat (case_match || case_decide); simplify_eq; done.
Qed.

Section StartupStore.
Context `{!DateCodec}.

Lemma insert_name_keeps_bootstrapped (stmt : prepared InsertName)
    (args : string * string) (c : cluster) :
  bootstrapped c → bootstrapped (session_execute stmt args c).1.
Proof.
  intros Hc. destruct args as [id station_name].
  unfold session_execute, cluster_session. cbn [run_execute].
  destruct (coordinate stmt c) as [c' [e|[[k ks] t]]] eqn:Hrun.
  - apply coordinate_raises in Hrun as Hfacts. destruct Hfacts as [-> _].
    by erewrite bind_raises by exact Hrun.
  - apply coordinate_returns in Hrun as Hfacts. destruct Hfacts as [-> _].
    erewrite bind_returns by exact Hrun. cbn.
    apply (bootstrapped_with_partition stmt); [done|done|].
    cbn. destruct (partitions t !! id) as [p|] eqn:Hp; [|done].
    destruct Hc as (Hk & ks' & t' & Hks & _ & _ & Ht & _ & Hempty).
    apply coordinate_returns in Hrun as (_ & _ & Hk' & Hks' & Ht' & _).
    assert (k = "weather") as -> by congruence.
    assert (ks' = ks) as -> by congruence.
    assert (t' = t) as -> by congruence.
    by eapply Hempty.
Qed.

(** A start that succeeds on the cluster leaves the schema bootstrapped:
    what a keyspace of that name held before is gone. *)
Lemma init_bootstraps (c c' : cluster) (self : StationService) :
  init c = (c', inr self) → bootstrapped c'.
Proof.
  unfold init. intros Hrun.
  apply bind_returns_inv in Hrun as (c1 & [] & _ & Hrun).
  apply bind_returns_inv in Hrun as (c2 & [] & _ & Hrun).
  apply bind_returns_inv in Hrun as (c3 & [] & H3 & Hrun).
  apply bind_returns_inv in Hrun as (c4 & [] & H4 & Hrun).
  apply bind_returns_inv in Hrun as (c5 & [] & H5 & Hrun).
  apply bind_returns_inv in Hrun as (c6 & [] & H6 & Hrun).
  pose proof (schema_statements_bootstrap _ _ _ _ _ H3 H4 H5 H6) as Hboot.
  clear H3 H4 H5 H6.
  apply bind_returns_inv in Hrun as (c7 & wi_stations & H7 & Hrun).
  assert (c7 = c6) as ->.
  { unfold spark_wi_stations, cluster_session, get, lift in H7.
    unfold_monad. by destruct (station_file c6); injection H7. }
  apply bind_returns_inv in Hrun as (c8 & seed & H8 & Hrun).
  apply bind_returns_inv in Hrun as (c9 & x & H9 & Hrun).
  destruct x as [[a b] d].
  apply bind_returns_inv in Hrun as (c10 & [] & H10 & Hrun).
  injection Hrun as <- _. injection H10 as <-.
  assert (bootstrapped c8) as Hboot8.
  { pose proof (seed_names_keeps bootstrapped
                  (λ q w Hw, eq_ind_r bootstrapped Hw (run_prepare_state q w))
                  insert_name_keeps_bootstrapped wi_stations None c6 Hboot)
      as Hkeep.
    by rewrite H8 in Hkeep. }
  assert (bootstrapped c9) as Hboot9.
  { pose proof (prepare_rpc_statements_keeps bootstrapped
                  (λ q w Hw, eq_ind_r bootstrapped Hw (run_prepare_state q w))
                  (λ line w Hw, Hw) c8 Hboot8) as Hkeep.
    by rewrite H9 in Hkeep. }
  exact Hboot9.
Qed.

End StartupStore.

(** ** Startup *)

(** With one station to seed and a session that fails to prepare the seed
    insert, the failure is passed over and the process comes to serve. *)
Lemma failed_prepare_stops_startup_fails : ¬ failed_prepare_stops_startup.
Proof.
  intros Hclaim.
  destruct (Hclaim faulty faulty_session flaky_start InsertName timed_out)
    as [e He].
  - vm_compute. do 6 apply list_elem_of_further. apply list_elem_of_here.
  - clear Hclaim. vm_compute in He. discriminate He.
Qed.

(** C9, amended: a start that comes to serve has first connected, dropped
    the keyspace [weather] if it existed, created it under [SimpleStrategy]
    with replication factor 3, set the session to it, created the record
    type if absent and created the [stations] table if absent, with [id] as
    partition key, [date] as clustering key in ascending order and [name]
    static, in this order and before anything else; on the cluster this
    leaves the schema as [bootstrapped] says, without any record from
    before.  If connecting, one of the schema statements or preparing one of
    the three statements of the RPC calls fails, [serve] ends with that
    exception and there is no serving state.  Failures while the station
    names are seeded, preparing the seed insert included, are not fatal. *)
Theorem startup_bootstraps_or_aborts {W : Type} `{!Session W} `{!DateCodec}
    (t : traced W) (c : cluster) :
  (∀ t' p, serve t = (t', inr p) →
     ∃ rest, calls_since t t' = schema_calls ++ rest)
  ∧ (∀ call e, (call, Some e) ∈ calls_since t (serve t).1 →
       fatal call = true → (serve t).2 = inl e)
  ∧ (∀ q, fatal (Prepare q) = true ↔ q ≠ InsertName)
  ∧ (∀ c' p, serve c = (c', inr p) → bootstrapped c').
Proof.
  split; [|split; [|split]].
  - intros t' p Hserve. unfold serve in Hserve.
    apply bind_returns_inv in Hserve as (t1 & self & Hinit & Hret).
    injection Hret as <- _. by eapply init_returns_calls.
  - intros call e Hin Hfatal.
    destruct (serve_fail_fast t) as (new & Hcalls & Hfail).
    apply (Hfail call e); [|done].
    by rewrite (calls_since_app _ _ _ Hcalls) in Hin.
  - intros q. cbn. by rewrite bool_decide_eq_true.
  - intros c' p Hserve. unfold serve in Hserve.
    apply bind_returns_inv in Hserve as (c1 & self & Hinit & Hret).
    injection Hret as <- _. by eapply init_bootstraps.
Qed.

(** ** The consistency levels *)

(** On a session with the default level [LOCAL_ONE] the seed insert, which
    carries no level, runs at [LOCAL_ONE]. *)
Lemma seed_insert_runs_at_one_fails : ¬ seed_insert_runs_at_one.
Proof.
  intros Hclaim.
  assert (init (example_cluster 3) = (example_running, inr example_service))
    as Hinit by (vm_compute; reflexivity).
  specialize (Hclaim (example_cluster 3) example_running example_service
                (Prepared None) Hinit eq_refl).
  clear Hinit. vm_compute in Hclaim. discriminate Hclaim.
Qed.

(** C1, amended: the service object a successful constructor leaves carries
    the record insert at level [ONE], the name read at [ONE] and the tmax
    read at [THREE], and each handler makes its one call with its own
    statement, so at that level; [THREE] waits for three replicas, as many
    as the replication factor of the keyspace.  The seed insert is left
    without a level: whatever the constructor executes is the seed insert
    with no level of its own, which on the cluster runs at the default
    level of the session. *)
Theorem levels_of_the_prepared_statements {W : Type} `{!Session W}
    (w w' : W) (self : StationService) (c : cluster) :
  init w = (w', inr self) →
  consistency_level (insert_temp self) = Some ONE
  ∧ consistency_level (select_name self) = Some ONE
  ∧ select_tmax self = Some (Prepared (Some THREE))
  ∧ (∀ stmt, init_insert_name self = Some stmt → consistency_level stmt = None)
  ∧ (∀ (t : traced W) request,
       ∃ o, calls_since t (RecordTemps self request t).1
            = [(Execute InsertTemp (Some ONE), o)])
  ∧ (∀ (t : traced W) request,
       ∃ o, calls_since t (StationName self request t).1
            = [(Execute SelectName (Some ONE), o)])
  ∧ (∀ (t : traced W) request,
       ∃ o, calls_since t (StationMax self request t).1
            = [(Execute SelectTmax (Some THREE), o)])
  ∧ (∀ (t : traced W) q level o,
       (Execute q level, o) ∈ calls_since t (init t).1 →
       q = InsertName ∧ level = None)
  ∧ effective_level c (insert_temp self) = ONE
  ∧ effective_level c (select_name self) = ONE
  ∧ effective_level (q := SelectTmax) c (Prepared (Some THREE)) = THREE
  ∧ (bootstrapped c →
       ∃ ks, keyspaces c !! "weather" = Some ks
             ∧ block_for THREE (replication ks).2 = (replication ks).2)
  ∧ (∀ stmt, init_insert_name self = Some stmt →
       effective_level c stmt = default_consistency_level c).
Proof.
  intros Hinit. apply init_returns in Hinit as (seed & -> & Hseed).
  cbn [insert_temp select_name select_tmax init_insert_name consistency_level].
  assert (∀ stmt : prepared InsertName, seed = Some stmt →
            consistency_level stmt = None) as Hlevel.
  { intros stmt ->. by destruct Hseed as [?|[= ->]]. }
  split; [done|]. split; [done|]. split; [done|]. split; [exact Hlevel|].
  split; [intros t request; eexists; apply RecordTemps_one_call|].
  split; [intros t request; eexists; apply StationName_one_call|].
  split.
  { intros t request. eexists.
    by apply (StationMax_one_call _ (Prepared (Some THREE))). }
  split.
  { intros t q level o Hin.
    destruct (init_calls t) as (new & Hcalls & Hnew & _).
    rewrite (calls_since_app _ _ _ Hcalls) in Hin.
    rewrite Forall_forall in Hnew. by apply Hnew in Hin. }
  split; [done|]. split; [done|]. split; [done|]. split.
  - intros (_ & ks & t & Hks & Hreplication & _). exists ks.
    split; [done|]. by rewrite Hreplication.
  - intros stmt Hstmt. unfold effective_level. by rewrite (Hlevel stmt Hstmt).
Qed.

(** The service started on the sample cluster. *)
Lemma levels_of_the_prepared_statements_witness :
  init (example_cluster 3) = (example_running, inr example_service)
  ∧ consistency_level (insert_temp example_service) = Some ONE
  ∧ consistency_level (select_name example_service) = Some ONE
  ∧ select_tmax example_service = Some (Prepared (Some THREE))
  ∧ (∀ stmt, init_insert_name example_service = Some stmt →
       effective_level example_running stmt = LOCAL_ONE).
Proof.
  assert (init (example_cluster 3) = (example_running, inr example_service))
    as Hinit by (vm_compute; reflexivity).
  split; [exact Hinit|].
  destruct (levels_of_the_prepared_statements (example_cluster 3)
              example_running example_service example_running Hinit)
    as (Hinsert & Hname & Hmax & _ & _ & _ & _ & _ & _ & _ & _ & _ & Hseed).
  split; [exact Hinsert|]. split; [exact Hname|]. split; [exact Hmax|].
  intros stmt Hstmt. rewrite (Hseed stmt Hstmt). reflexivity.
Defined.

(** ** What the store makes of the calls

    The outcomes the properties above start from, as they come about on
    the cluster. *)

Section StoreOutcomes.
Context `{!DateCodec}.

Lemma bootstrapped_coordinate {q} (stmt : prepared q) (c : cluster) :
  bootstrapped c → live c ≠ 0%nat →
  ¬ (live c < block_for (effective_level c stmt) 3)%nat →
  ∃ ks t, coordinate stmt c = (c, inr ("weather", ks, t))
          ∧ ∀ id p, partitions t !! id = Some p → clustering p = [].
Proof.
  intros (Hk & ks & t & Hks & Hreplication & _ & Ht & Hschema & Hempty)
         Hlive Hreplicas.
  exists ks, t. split; [|done]. apply coordinate_returns.
  rewrite Hreplication. done.
Qed.

(** With fewer than three replicas in reach the read of [StationMax] is
    refused, and the reply is the word "unavailable". *)
Lemma StationMax_below_three_replicas (self : StationService)
    (request : StationMaxRequest.t) (c : cluster) :
  select_tmax self = Some (Prepared (Some THREE)) →
  bootstrapped c → (live c < 3)%nat →
  StationMax self request c = (c, inr (StationMaxReply.mk 0 "unavailable")).
Proof.
  intros Hstmt (Hk & ks & t & Hks & Hreplication & _ & Ht & Hschema & _) Hfew.
  destruct (coordinate_few_replicas (q := SelectTmax) (Prepared (Some THREE))
              c "weather" ks t Hk Hks Ht Hschema) as (e & Hrun & He).
  { by rewrite Hreplication. }
  erewrite StationMax_raises; [|exact Hstmt|].
  - by rewrite He.
  - unfold session_execute, cluster_session. cbn [run_execute].
    by erewrite bind_raises by exact Hrun.
Qed.

(** With no replica in reach a well-formed recording is refused the same
    way. *)
Lemma RecordTemps_without_replicas (self : StationService)
    (request : RecordTempsRequest.t) (c : cluster) (d : Z) :
  date_of_text (RecordTempsRequest.date request) = Some d →
  in_int32 (RecordTempsRequest.tmin request)
  && in_int32 (RecordTempsRequest.tmax request) = true →
  live c = 0%nat →
  RecordTemps self request c = (c, inr (RecordTempsReply.mk "unavailable")).
Proof.
  intros Hd Hfit Hlive.
  erewrite RecordTemps_raises with (e := no_host); [done|].
  unfold session_execute, cluster_session. cbn [run_execute].
  unfold bind_record. rewrite Hd. cbn [fst snd]. rewrite Hfit.
  unfold coordinate, need_host, get. unfold_monad.
  by rewrite decide_True by done.
Qed.

(** A station the table has no partition for has no name and no maximum
    but the default. *)
Lemma StationName_absent_station (self : StationService)
    (request : StationNameRequest.t) (c : cluster) :
  select_name self = Prepared (Some ONE) →
  bootstrapped c → live c ≠ 0%nat →
  (∀ k ks t, current_keyspace c = Some k → keyspaces c !! k = Some ks →
             tables_of ks !! "stations" = Some t →
             partitions t !! StationNameRequest.station request = None) →
  StationName self request c
  = (c, inr (StationNameReply.mk "" "station not found or name missing")).
Proof.
  intros Hstmt Hboot Hlive Habsent.
  destruct (bootstrapped_coordinate (select_name self) c Hboot Hlive)
    as (ks & t & Hrun & _).
  { rewrite Hstmt. cbn. lia. }
  apply coordinate_returns in Hrun as Hfacts.
  destruct Hfacts as (_ & _ & Hk & Hks & Ht & _).
  erewrite StationName_returns.
  2:{ unfold session_execute, cluster_session. cbn [run_execute].
      erewrite bind_returns by exact Hrun. cbv beta iota.
      rewrite (Habsent _ _ _ Hk Hks Ht). reflexivity. }
  reflexivity.
Qed.

Lemma StationMax_without_records (self : StationService)
    (request : StationMaxRequest.t) (c : cluster) :
  select_tmax self = Some (Prepared (Some THREE)) →
  bootstrapped c → live c = 3%nat →
  StationMax self request c = (c, inr (StationMaxReply.mk 0 "")).
Proof.
  intros Hstmt Hboot Hlive.
  destruct (bootstrapped_coordinate (q := SelectTmax) (Prepared (Some THREE))
              c Hboot) as (ks & t & Hrun & Hempty).
  { lia. }
  { cbn. lia. }
  erewrite StationMax_returns; [|exact Hstmt|].
  2:{ unfold session_execute, cluster_session. cbn [run_execute].
      by erewrite bind_returns by exact Hrun. }
  do 3 f_equal. unfold tmax_rows.
  destruct (partitions t !! StationMaxRequest.station request) as [p|] eqn:Hp;
    [|done].
  rewrite (Hempty _ _ Hp). by destruct (static_name p).
Qed.

End StoreOutcomes.

(** ** A start that succeeds

    With a node in reach and the station file read, the constructor goes
    through on any cluster, whatever it held before. *)

Lemma need_host_returns (c : cluster) :
  live c ≠ 0%nat → need_host c = (c, inr tt).
Proof.
  intros Hlive. unfold need_host, get. unfold_monad.
  by rewrite decide_False by done.
Qed.

Lemma drop_keyspace_returns (c : cluster) :
  live c ≠ 0%nat →
  ∃ c', run_ddl drop_keyspace c = (c', inr tt)
        ∧ keyspaces c' !! "weather" = None
        ∧ live c' = live c ∧ station_file c' = station_file c
        ∧ current_keyspace c' = current_keyspace c.
Proof.
  intros Hlive. unfold run_ddl, drop_keyspace.
  erewrite bind_returns by (by apply need_host_returns).
  unfold get, put. unfold_monad.
  destruct (keyspaces c !! "weather") eqn:Hk.
  - eexists. split; [reflexivity|]. cbn. by rewrite lookup_delete_eq.
  - eexists. split; [reflexivity|]. done.
Qed.

Lemma create_keyspace_run (c : cluster) :
  live c ≠ 0%nat → keyspaces c !! "weather" = None →
  run_ddl create_keyspace c
  = (with_keyspaces c
       (<["weather" := {| replication := (SimpleStrategy, 3%nat);
                          user_types := ∅; tables_of := ∅ |}]> (keyspaces c)),
     inr tt).
Proof.
  intros Hlive Hk. unfold run_ddl, create_keyspace.
  erewrite bind_returns by (by apply need_host_returns).
  unfold store_keyspace, get, put. unfold_monad. by rewrite Hk.
Qed.

Lemma set_keyspace_run (c : cluster) (ks : keyspace) :
  live c ≠ 0%nat → keyspaces c !! "weather" = Some ks →
  run_set_keyspace "weather" c
  = (with_current_keyspace c (Some "weather"), inr tt).
Proof.
  intros Hlive Hk. unfold run_set_keyspace.
  erewrite bind_returns by (by apply need_host_returns).
  unfold get, put. unfold_monad. by rewrite Hk.
Qed.

Lemma create_type_run (c : cluster) (ks : keyspace) :
  live c ≠ 0%nat → current_keyspace c = Some "weather" →
  keyspaces c !! "weather" = Some ks →
  user_types ks !! "station_record" = None →
  run_ddl create_type c
  = (with_keyspaces c
       (<["weather" :=
            with_user_types ks
              (<["station_record" := [("tmin", CqlInt); ("tmax", CqlInt)]]>
                 (user_types ks))]> (keyspaces c)),
     inr tt).
Proof.
  intros Hlive Hcurrent Hk Htype. unfold run_ddl, create_type.
  erewrite bind_returns by (by apply need_host_returns).
  unfold need_keyspace, store_keyspace, get, put. unfold_monad.
  by rewrite Hcurrent, Hk, Htype.
Qed.

Lemma create_table_run (c : cluster) (ks : keyspace) :
  live c ≠ 0%nat → current_keyspace c = Some "weather" →
  keyspaces c !! "weather" = Some ks →
  tables_of ks !! "stations" = None →
  is_Some (user_types ks !! "station_record") →
  run_ddl create_table c
  = (with_keyspaces c
       (<["weather" :=
            with_tables ks
              (<["stations" := {| schema_of := stations_schema;
                                  partitions := ∅ |}]> (tables_of ks))]>
          (keyspaces c)),
     inr tt).
Proof.
  intros Hlive Hcurrent Hk Htable Htype. unfold run_ddl, create_table.
  erewrite bind_returns by (by apply need_host_returns).
  unfold need_keyspace, store_keyspace, get, put. unfold_monad.
  rewrite Hcurrent, Hk, Htable. cbn. unfold known_type. cbn.
  by rewrite bool_decide_true by done.
Qed.

Lemma run_prepare_returns (q : query) (c : cluster) :
  bootstrapped c → live c ≠ 0%nat → run_prepare q c = (c, inr tt).
Proof.
  intros (Hk & ks & t & Hks & _ & _ & Ht & Hschema & _) Hlive.
  unfold run_prepare.
  erewrite bind_returns by (by apply need_host_returns).
  unfold need_stations, need_keyspace, get. unfold_monad.
  rewrite Hk, Hks, Ht. by rewrite decide_True by done.
Qed.

Section Start.
Context `{!DateCodec}.

Lemma insert_name_keeps_live (stmt : prepared InsertName)
    (args : string * string) (c : cluster) :
  live (session_execute stmt args c).1 = live c.
Proof.
  destruct args as [id station_name].
  unfold session_execute, cluster_session. cbn [run_execute].
  destruct (coordinate stmt c) as [c' [e|[[k ks] t]]] eqn:Hrun.
  - apply coordinate_raises in Hrun as Hfacts. destruct Hfacts as [-> _].
    by erewrite bind_raises by exact Hrun.
  - apply coordinate_returns in Hrun as Hfacts. destruct Hfacts as [-> _].
    by erewrite bind_returns by exact Hrun.
Qed.

(** The constructor returns whenever a node is in reach and the station
    file was read. *)
Lemma init_succeeds (c : cluster) (rows : list (string * string)) :
  live c ≠ 0%nat → station_file c = inr rows →
  ∃ c' self, init c = (c', inr self) ∧ bootstrapped c' ∧ live c' = live c.
Proof.
  intros Hlive Hfile. unfold init.
  erewrite bind_returns
    by (unfold cluster_connect, cluster_session;
        erewrite bind_returns by (by apply need_host_returns); reflexivity).
  destruct (drop_keyspace_returns (with_current_keyspace c None) Hlive)
    as (c2 & Hdrop & Hk2 & Hlive2 & Hfile2 & Hcurrent2).
  erewrite bind_returns by exact Hdrop.
  assert (live c2 ≠ 0%nat) as Hlive2' by (by rewrite Hlive2).
  erewrite bind_returns
    by (apply (create_keyspace_run c2 Hlive2' Hk2)).
  erewrite bind_returns
    by (by eapply set_keyspace_run; [|apply lookup_insert_eq]).
  erewrite bind_returns
    by (by eapply create_type_run;
          [|reflexivity|apply lookup_insert_eq|apply lookup_empty]).
  erewrite bind_returns
    by (eapply create_table_run;
          [done|reflexivity|apply lookup_insert_eq|apply lookup_empty|];
        cbn; by rewrite lookup_insert_eq).
  match goal with
  | |- context [mbind _ spark_wi_stations ?c6] =>
      assert (bootstrapped c6 ∧ live c6 = live c) as [Hboot6 Hlive6];
      [|assert (spark_wi_stations c6 = (c6, inr rows)) as Hspark]
  end.
  { split; [|by cbn].
    split; [reflexivity|]. eexists _, _. cbn.
    split; [apply lookup_insert_eq|]. cbn.
    split; [reflexivity|]. split; [apply lookup_insert_eq|].
    split; [apply lookup_insert_eq|]. split; [reflexivity|].
    cbn. intros id p Hp. by rewrite lookup_empty in Hp. }
  { unfold spark_wi_stations, cluster_session, get, lift. unfold_monad. cbn.
    rewrite Hfile2. cbn. by rewrite Hfile. }
  erewrite bind_returns by exact Hspark. clear Hspark.
  match goal with
  | |- context [mbind _ (seed_names rows None) ?c6] =>
      destruct (seed_names_returns rows None c6) as (c8 & seed & Hseed & _);
      pose proof (seed_names_keeps (λ x, bootstrapped x ∧ live x = live c)
                    (λ q w Hw, eq_ind_r (λ x, bootstrapped x ∧ live x = live c)
                                 Hw (run_prepare_state q w))
                    (λ stmt args w Hw,
                       conj (insert_name_keeps_bootstrapped stmt args w (proj1 Hw))
                            (eq_trans (insert_name_keeps_live stmt args w)
                               (proj2 Hw)))
                    rows None c6 (conj Hboot6 Hlive6)) as Hkeep
  end.
  rewrite Hseed in Hkeep. cbn [fst] in Hkeep. destruct Hkeep as [Hboot8 Hlive8].
  erewrite bind_returns by exact Hseed. clear Hseed.
  assert (live c8 ≠ 0%nat) as Hlive8' by (by rewrite Hlive8).
  assert (prepare_rpc_statements c8
          = (c8, inr (Prepared (Some ONE), Prepared (Some ONE),
                      Prepared (Some THREE)))) as Hprepare.
  { unfold prepare_rpc_statements, prepare, try_except. unfold_monad.
    unfold session_prepare, cluster_session.
    by rewrite !(run_prepare_returns _ c8 Hboot8 Hlive8'). }
  erewrite bind_returns by exact Hprepare.
  eexists _, _. split; [reflexivity|]. split; [|done].
  destruct Hboot8 as (Hk & Hrest). split; [done|exact Hrest].
Qed.

(** Started again on the cluster of the scenario, the service finds the
    station named and without a record. *)
Lemma restart_discards_records :
  (init example_recorded).2 = inr example_service
  ∧ (StationMax example_service (StationMaxRequest.mk madison) example_recorded).2
    = inr (StationMaxReply.mk 31 "")
  ∧ (StationMax example_service (StationMaxRequest.mk madison)
       (init example_recorded).1).2
    = inr (StationMaxReply.mk 0 "").
Proof. split; [|split]; vm_compute; reflexivity. Qed.

End Start.

(** * Further properties of the handlers and of the constructor *)

(** ** [StationSchema] *)

(** X1: [StationSchema] asks nothing of the session: it makes no driver
    call and leaves the world as it is.  When the driver's metadata has no
    keyspace [weather], or that keyspace has no table [stations], the
    attribute access on [None] is caught and comes back as the error text,
    with an empty schema. *)
Theorem StationSchema_reads_metadata_only {W : Type} `{!Session W}
    (self : StationService) (w : W) (t : traced W) :
  (StationSchema self w).1 = w
  ∧ calls_since t (StationSchema self t).1 = []
  ∧ (metadata_keyspaces w !! "weather" = None →
       (StationSchema self w).2
       = inr (StationSchemaReply.mk ""
                "'NoneType' object has no attribute 'tables'"))
  ∧ (∀ keyspace_meta,
       metadata_keyspaces w !! "weather" = Some keyspace_meta →
       tables keyspace_meta !! "stations" = None →
       (StationSchema self w).2
       = inr (StationSchemaReply.mk ""
                "'NoneType' object has no attribute 'export_as_string'")).
Proof.
  split; [apply StationSchema_world|]. split; [|split].
  - rewrite StationSchema_world. unfold calls_since. apply drop_all.
  - intros Hk. rewrite StationSchema_reply. cbn [snd]. by rewrite Hk.
  - intros k Hk Ht. rewrite StationSchema_reply. cbn [snd]. by rewrite Hk, Ht.
Qed.

(** ** [StationMax] *)

(** X2: without the prepared select on the service object [StationMax]
    answers tmax 0 and "Server error: select statement not prepared"
    without calling the session; a service object that [__init__] has
    built always carries the statement, so it never gives this answer by
    that path. *)
Theorem StationMax_guard_makes_no_call {W : Type} `{!Session W}
    (self : StationService) (request : StationMaxRequest.t) (t : traced W) :
  select_tmax self = None →
  StationMax self request t
  = (t, inr (StationMaxReply.mk 0 "Server error: select statement not prepared"))
  ∧ calls_since t (StationMax self request t).1 = []
  ∧ ∀ (w w' : W) (built : StationService),
      init w = (w', inr built) → select_tmax built ≠ None.
Proof.
  intros Hstmt. rewrite StationMax_unprepared by done.
  split; [done|]. split; [unfold calls_since; apply drop_all|].
  intros w w' built Hinit. by apply init_returns in Hinit as (seed & -> & _).
Qed.

(** A service object without the select statement. *)
Lemma StationMax_guard_makes_no_call_witness :
  select_tmax unprepared_service = None
  ∧ StationMax unprepared_service (StationMaxRequest.mk madison)
      {| world := example_cluster 3; calls := [] |}
    = ({| world := example_cluster 3; calls := [] |},
       inr (StationMaxReply.mk 0 "Server error: select statement not prepared")).
Proof.
  split; [reflexivity|].
  exact (proj1 (StationMax_guard_makes_no_call unprepared_service
                  (StationMaxRequest.mk madison)
                  {| world := example_cluster 3; calls := [] |} eq_refl)).
Defined.

(** X18: the answer of [StationMax] does not depend on the order in which
    the session yields the rows. *)
Theorem StationMax_ignores_row_order {W : Type} `{!Session W}
    (self : StationService) (stmt : prepared SelectTmax)
    (request : StationMaxRequest.t) (w1 w1' w2 w2' : W)
    (rows1 rows2 : list (list pyval)) :
  select_tmax self = Some stmt →
  session_execute stmt (StationMaxRequest.station request) w1 = (w1', inr rows1) →
  session_execute stmt (StationMaxRequest.station request) w2 = (w2', inr rows2) →
  rows1 ≡ₚ rows2 →
  (StationMax self request w1).2 = (StationMax self request w2).2.
Proof.
  intros Hstmt Hrows1 Hrows2 Hperm.
  rewrite (StationMax_returns _ _ _ _ _ _ Hstmt Hrows1).
  rewrite (StationMax_returns _ _ _ _ _ _ Hstmt Hrows2). cbn [snd].
  do 2 f_equal.
  assert (present_values rows1 ≡ₚ present_values rows2) as Hvalues
    by (unfold present_values; by rewrite Hperm).
  destruct (present_values rows1) as [|v values] eqn:Hvalues1.
  - apply Permutation_nil_l in Hvalues. by rewrite Hvalues.
  - apply (is_maximum_unique (v :: values)).
    + by apply maximum_or_zero_is_maximum.
    + assert (present_values rows2 ≠ []) as Hne.
      { intros Hnil. rewrite Hnil in Hvalues.
        by apply Permutation_nil_r in Hvalues. }
      destruct (maximum_or_zero_is_maximum _ Hne) as [Hin Hle]. split.
      * by rewrite Hvalues.
      * intros x Hx. apply Hle. by rewrite <- Hvalues.
Qed.

(** Three rows, one of them without a record, in two orders. *)
Lemma StationMax_ignores_row_order_witness :
  select_tmax example_service = Some (Prepared (Some THREE))
  ∧ session_execute (q := SelectTmax) (Prepared (Some THREE))
      (StationMaxRequest.station (StationMaxRequest.mk madison))
      [[PyInt 28]; [PyNone]; [PyInt 31]]
    = ([[PyInt 28]; [PyNone]; [PyInt 31]], inr [[PyInt 28]; [PyNone]; [PyInt 31]])
  ∧ session_execute (q := SelectTmax) (Prepared (Some THREE))
      (StationMaxRequest.station (StationMaxRequest.mk madison))
      [[PyInt 31]; [PyInt 28]; [PyNone]]
    = ([[PyInt 31]; [PyInt 28]; [PyNone]], inr [[PyInt 31]; [PyInt 28]; [PyNone]])
  ∧ [[PyInt 28]; [PyNone]; [PyInt 31]] ≡ₚ [[PyInt 31]; [PyInt 28]; [PyNone]]
  ∧ (StationMax example_service (StationMaxRequest.mk madison)
       [[PyInt 28]; [PyNone]; [PyInt 31]]).2
    = (StationMax example_service (StationMaxRequest.mk madison)
         [[PyInt 31]; [PyInt 28]; [PyNone]]).2.
Proof.
  assert ([[PyInt 28]; [PyNone]; [PyInt 31]]
          ≡ₚ [[PyInt 31]; [PyInt 28]; [PyNone]]) as Hperm.
  { etrans; [apply Permutation_skip, Permutation_swap|].
    apply Permutation_swap. }
  split; [reflexivity|]. split; [reflexivity|]. split; [reflexivity|].
  split; [exact Hperm|].
  exact (StationMax_ignores_row_order example_service (Prepared (Some THREE))
           (StationMaxRequest.mk madison) _ _ _ _ _ _
           eq_refl eq_refl eq_refl Hperm).
Defined.

(** ** [StationName] *)

(** X3: [StationName] has no branch for the two store exceptions: when its
    read is refused for want of replicas the reply carries the message of
    the exception, where [RecordTemps] answers the same exception with the
    word "unavailable". *)
Theorem StationName_reports_unavailable_by_message {W : Type} `{!Session W}
    (self : StationService) (name_request : StationNameRequest.t)
    (record_request : RecordTempsRequest.t) (w1 w1' w2 w2' : W) (e : exn) :
  session_execute (select_name self) (StationNameRequest.station name_request) w1
  = (w1', inl e) →
  session_execute (insert_temp self)
    (RecordTempsRequest.station record_request,
     RecordTempsRequest.date record_request,
     (RecordTempsRequest.tmin record_request,
      RecordTempsRequest.tmax record_request)) w2 = (w2', inl e) →
  is_unavailable e = true →
  StationName self name_request w1
  = (w1', inr (StationNameReply.mk "" (str e)))
  ∧ RecordTemps self record_request w2
    = (w2', inr (RecordTempsReply.mk "unavailable")).
Proof.
  intros Hread Hwrite Hun. split.
  - by apply StationName_raises.
  - rewrite (RecordTemps_raises _ _ _ _ _ Hwrite). by rewrite Hun.
Qed.

(** The running cluster with no replica in reach. *)
Lemma StationName_reports_unavailable_by_message_witness :
  session_execute (select_name example_service)
    (StationNameRequest.station (StationNameRequest.mk madison))
    (with_live example_running 0)
  = (with_live example_running 0, inl no_host)
  ∧ session_execute (insert_temp example_service)
      (RecordTempsRequest.station first_day, RecordTempsRequest.date first_day,
       (RecordTempsRequest.tmin first_day, RecordTempsRequest.tmax first_day))
      (with_live example_running 0)
    = (with_live example_running 0, inl no_host)
  ∧ is_unavailable no_host = true
  ∧ StationName example_service (StationNameRequest.mk madison)
      (with_live example_running 0)
    = (with_live example_running 0,
       inr (StationNameReply.mk ""
              "('Unable to complete the operation against any hosts', {})"))
  ∧ RecordTemps example_service first_day (with_live example_running 0)
    = (with_live example_running 0, inr (RecordTempsReply.mk "unavailable")).
Proof.
  assert (session_execute (select_name example_service)
    (StationNameRequest.station (StationNameRequest.mk madison))
    (with_live example_running 0)
  = (with_live example_running 0, inl no_host)) as Hread
    by (vm_compute; reflexivity).
  assert (session_execute (insert_temp example_service)
      (RecordTempsRequest.station first_day, RecordTempsRequest.date first_day,
       (RecordTempsRequest.tmin first_day, RecordTempsRequest.tmax first_day))
      (with_live example_running 0)
    = (with_live example_running 0, inl no_host)) as Hwrite
    by (vm_compute; reflexivity).
  split; [exact Hread|]. split; [exact Hwrite|]. split; [reflexivity|].
  exact (StationName_reports_unavailable_by_message example_service
           (StationNameRequest.mk madison) first_day _ _ _ _ no_host
           Hread Hwrite eq_refl).
Defined.

(** ** The seeding loop *)

Section Seeding.
Context {W : Type} `{!Session W}.

Lemma seed_row_prepared (stmt : prepared InsertName) (r : string * string)
    (t : traced W) :
  ∃ t' o, seed_row (Some stmt) r t = (t', inr (Some stmt))
          ∧ calls t' = calls t ++ [(Execute InsertName (consistency_level stmt), o)].
Proof.
  unfold seed_row, try_except. unfold_monad. cbn. unfold recorded.
  destruct (session_execute stmt (strip r.1, strip r.2) (world t))
    as [w' [e|rows]]; cbn; eexists _, _; split; reflexivity.
Qed.

Lemma seed_names_prepared (rows : list (string * string))
    (stmt : prepared InsertName) (t : traced W) :
  ∃ t' new, seed_names rows (Some stmt) t = (t', inr (Some stmt))
            ∧ calls t' = calls t ++ new
            ∧ length new = length rows
            ∧ Forall (λ x, x.1 = Execute InsertName (consistency_level stmt)) new.
Proof.
  revert t. induction rows as [|r rows IH]; intros t; cbn [seed_names].
  - exists t, []. rewrite app_nil_r. by repeat split.
  - destruct (seed_row_prepared stmt r t) as (t1 & o & Hrow & Hcalls1).
    destruct (IH t1) as (t' & new & Hrest & Hcalls & Hlength & Hnew).
    exists t', ((Execute InsertName (consistency_level stmt), o) :: new).
    split; [by erewrite bind_returns by exact Hrow|].
    split; [by rewrite Hcalls, Hcalls1, <- app_assoc|].
    split; [cbn; by rewrite Hlength|by constructor].
Qed.

End Seeding.

(** X4: the seed insert is prepared once.  With the statement in hand the
    loop runs it once for every row, whatever the outcomes, and prepares
    nothing; a row that finds no statement prepares it and runs it, and
    when the preparation fails it runs nothing and leaves the next row to
    prepare again.  No row raises. *)
Theorem seed_statement_prepared_once {W : Type} `{!Session W}
    (t : traced W) (stmt : prepared InsertName)
    (rows : list (string * string)) (r : string * string) :
  (∃ t', seed_names rows (Some stmt) t = (t', inr (Some stmt))
         ∧ length (calls_since t t') = length rows
         ∧ Forall (λ x, x.1 = Execute InsertName (consistency_level stmt))
             (calls_since t t'))
  ∧ (∀ e, (session_prepare InsertName (world t)).2 = inl e →
       ∃ t', seed_row None r t = (t', inr None)
             ∧ calls_since t t' = [(Prepare InsertName, Some e)])
  ∧ ((session_prepare InsertName (world t)).2 = inr tt →
       ∃ t' o, seed_row None r t = (t', inr (Some (Prepared None)))
               ∧ calls_since t t'
                 = [(Prepare InsertName, None); (Execute InsertName None, o)]).
Proof.
  split; [|split].
  - destruct (seed_names_prepared rows stmt t)
      as (t' & new & Hrun & Hcalls & Hlength & Hnew).
    exists t'. rewrite (calls_since_app _ _ _ Hcalls). done.
  - intros e He. unfold seed_row, prepare, try_except. unfold_monad. cbn.
    unfold recorded. destruct (session_prepare InsertName (world t))
      as [w1 [e'|[]]]; cbn in *; [|done].
    injection He as ->. eexists. split; [reflexivity|].
    by apply calls_since_app.
  - intros Hprepare. unfold seed_row, prepare, try_except. unfold_monad. cbn.
    unfold recorded. destruct (session_prepare InsertName (world t))
      as [w1 [e'|[]]]; cbn in *; [done|].
    destruct (session_execute (q := InsertName) (Prepared None)
                (strip r.1, strip r.2) w1) as [w2 [e|rows0]]; cbn;
      eexists _, _; (split; [reflexivity|]);
      apply calls_since_app; cbn; by rewrite <- app_assoc.
Qed.

(** ** The cluster in service *)

Lemma bootstrapped_serving (c : cluster) : bootstrapped c → serving c.
Proof.
  intros (Hk & ks & t & Hks & Hreplication & _ & Ht & Hschema & _).
  split; [done|]. by exists ks, t.
Qed.

(** What the coordinator answers once the table is there: it depends on
    the replicas in reach only. *)
Lemma coordinate_decide {q} (stmt : prepared q) (c : cluster) (k : string)
    (ks : keyspace) (t : table) :
  current_keyspace c = Some k → keyspaces c !! k = Some ks →
  tables_of ks !! "stations" = Some t → schema_of t = stations_schema →
  coordinate stmt c
  = (c, if decide (live c = 0%nat) then inl no_host
        else if decide (live c < block_for (effective_level c stmt)
                                  (replication ks).2)%nat
             then inl cannot_achieve
             else inr (k, ks, t)).
Proof.
  intros Hk Hks Ht Hschema.
  unfold coordinate, need_host, need_stations, need_keyspace, need_replicas, get.
  unfold_monad. destruct (decide (live c = 0%nat)); [done|].
  rewrite Hk, Hks, Ht. rewrite decide_True by done.
  by destruct (decide (live c < block_for (effective_level c stmt)
                                (replication ks).2)%nat).
Qed.

Lemma the_partition_lookup (c : cluster) (k : string) (ks : keyspace)
    (t : table) (id : string) :
  current_keyspace c = Some k → keyspaces c !! k = Some ks →
  tables_of ks !! "stations" = Some t →
  the_partition c id = partitions t !! id.
Proof.
  intros Hk Hks Ht. unfold the_partition. rewrite Hk. cbn. rewrite Hks. cbn.
  by rewrite Ht.
Qed.

Lemma the_partition_with_partition (c : cluster) (k : string) (ks : keyspace)
    (t : table) (id id' : string) (p : partition) :
  current_keyspace c = Some k → keyspaces c !! k = Some ks →
  tables_of ks !! "stations" = Some t →
  the_partition (with_partition c k ks t id' p) id
  = if decide (id' = id) then Some p else the_partition c id.
Proof.
  intros Hk Hks Ht.
  rewrite (the_partition_lookup c k ks t) by done.
  erewrite (the_partition_lookup (with_partition c k ks t id' p) k);
    [|done|apply lookup_insert_eq|apply lookup_insert_eq].
  cbn [partitions]. destruct (decide (id' = id)) as [->|Hne].
  - by rewrite lookup_insert_eq.
  - by rewrite lookup_insert_ne.
Qed.

Lemma serving_with_partition (c : cluster) (ks : keyspace) (t : table)
    (id : string) (p : partition) :
  serving c → keyspaces c !! "weather" = Some ks →
  tables_of ks !! "stations" = Some t →
  serving (with_partition c "weather" ks t id p).
Proof.
  intros (Hk & ks' & t' & Hks & Hreplication & Ht & Hschema) Hks' Ht'.
  assert (ks' = ks) as -> by congruence.
  assert (t' = t) as -> by congruence.
  split; [done|]. eexists _, _. cbn.
  split; [apply lookup_insert_eq|]. cbn.
  split; [done|]. split; [apply lookup_insert_eq|done].
Qed.

Section Service.
Context `{!DateCodec}.

(** The handlers and the environment keep the cluster in service. *)
Lemma step_keeps_serving (self : StationService) (c : cluster) (ev : event) :
  serving c → serving (step self c ev).
Proof.
  intros Hc. destruct ev as [|request|request|request|n]; cbn [step].
  - by rewrite StationSchema_world.
  - by rewrite StationName_cluster.
  - rewrite RecordTemps_world.
    destruct (insert_temp_run (insert_temp self)
                (RecordTempsRequest.station request)
                (RecordTempsRequest.date request)
                (RecordTempsRequest.tmin request, RecordTempsRequest.tmax request) c)
      as [(e & Hexec & He)|(d' & k & ks & t & Hd' & _ & Hcoordinate & Hexec)];
      rewrite Hexec; cbn [fst]; [done|]. clear Hexec.
    apply coordinate_returns in Hcoordinate as (_ & _ & Hk & Hks & Ht & _).
    assert (k = "weather") as -> by (destruct Hc as [Hk' _]; congruence).
    by apply serving_with_partition.
  - by rewrite StationMax_cluster.
  - exact Hc.
Qed.

Lemma run_keeps_serving (self : StationService) (history : list event)
    (c : cluster) :
  serving c → serving (run self history c).
Proof.
  revert c. induction history as [|ev history IH]; intros c Hc; [done|].
  unfold run in *. cbn [foldl]. by apply IH, step_keeps_serving.
Qed.

End Service.

Lemma present_values_tmax_rows (p : option partition) :
  present_values (tmax_rows p) = (λ r, r.2.2) <$> from_option clustering [] p.
Proof.
  destruct p as [[n rows]|]; [|done].
  destruct rows as [|r rows]; [by destruct n|].
  unfold tmax_rows. cbn [clustering static_name from_option].
  unfold present_values. generalize (r :: rows). intros l.
  induction l as [|x l IH]; [done|]. cbn. by rewrite IH.
Qed.

Lemma name_reply_name_rows (p : option partition) :
  name_reply (name_rows p)
  = match p ≫= static_name with
    | Some n =>
        if bool_decide (n ≠ "") then StationNameReply.mk n ""
        else StationNameReply.mk "" "station not found or name missing"
    | None => StationNameReply.mk "" "station not found or name missing"
    end.
Proof. destruct p as [[[n|] [|r rows]]|]; reflexivity. Qed.

Lemma coordinate_serving {q} (stmt : prepared q) (c : cluster) :
  serving c →
  ∃ ks t,
    keyspaces c !! "weather" = Some ks
    ∧ tables_of ks !! "stations" = Some t
    ∧ (∀ id, the_partition c id = partitions t !! id)
    ∧ coordinate stmt c
      = (c, if decide (live c = 0%nat) then inl no_host
            else if decide (live c < block_for (effective_level c stmt) 3)%nat
                 then inl cannot_achieve
                 else inr ("weather", ks, t)).
Proof.
  intros (Hk & ks & t & Hks & Hreplication & Ht & Hschema).
  exists ks, t. split; [done|]. split; [done|].
  split; [intros id; by apply the_partition_lookup with "weather" ks|].
  rewrite (coordinate_decide stmt c "weather" ks t) by done.
  by rewrite Hreplication.
Qed.

Section ServiceOutcomes.
Context `{!DateCodec}.

Lemma select_tmax_serving (stmt : prepared SelectTmax) (id : string)
    (c : cluster) :
  serving c →
  session_execute stmt id c
  = (c, if decide (live c = 0%nat) then inl no_host
        else if decide (live c < block_for (effective_level c stmt) 3)%nat
             then inl cannot_achieve
             else inr (tmax_rows (the_partition c id))).
Proof.
  intros Hc. destruct (coordinate_serving stmt c Hc) as (ks & t & _ & _ & Hp & Hrun).
  unfold session_execute, cluster_session. cbn [run_execute].
  rewrite Hp.
  destruct (decide (live c = 0%nat));
    [by erewrite bind_raises by exact Hrun|].
  destruct (decide (live c < block_for (effective_level c stmt) 3)%nat);
    [by erewrite bind_raises by exact Hrun|].
  by erewrite bind_returns by exact Hrun.
Qed.

Lemma select_name_serving (stmt : prepared SelectName) (id : string)
    (c : cluster) :
  serving c →
  session_execute stmt id c
  = (c, if decide (live c = 0%nat) then inl no_host
        else if decide (live c < block_for (effective_level c stmt) 3)%nat
             then inl cannot_achieve
             else inr (name_rows (the_partition c id))).
Proof.
  intros Hc. destruct (coordinate_serving stmt c Hc) as (ks & t & _ & _ & Hp & Hrun).
  unfold session_execute, cluster_session. cbn [run_execute].
  rewrite Hp.
  destruct (decide (live c = 0%nat));
    [by erewrite bind_raises by exact Hrun|].
  destruct (decide (live c < block_for (effective_level c stmt) 3)%nat);
    [by erewrite bind_raises by exact Hrun|].
  by erewrite bind_returns by exact Hrun.
Qed.

Lemma StationMax_serving (self : StationService)
    (request : StationMaxRequest.t) (c : cluster) :
  select_tmax self = Some (Prepared (Some THREE)) →
  serving c →
  StationMax self request c
  = (c, inr (if decide (live c < 3)%nat
             then StationMaxReply.mk 0 "unavailable"
             else StationMaxReply.mk
                    (maximum_or_zero
                       ((λ r, r.2.2)
                          <$> recorded_rows c (StationMaxRequest.station request)))
                    "")).
Proof.
  intros Hstmt Hc.
  pose proof (select_tmax_serving (Prepared (Some THREE))
                (StationMaxRequest.station request) c Hc) as Hrun.
  cbv [effective_level consistency_level default from_option block_for
       Datatypes.id] in Hrun.
  destruct (decide (live c = 0%nat)) as [Hnone|Hsome].
  - rewrite (StationMax_raises _ _ _ _ _ _ Hstmt Hrun).
    rewrite decide_True by lia. done.
  - destruct (decide (live c < 3)%nat).
    + by rewrite (StationMax_raises _ _ _ _ _ _ Hstmt Hrun).
    + rewrite (StationMax_returns _ _ _ _ _ _ Hstmt Hrun).
      by rewrite present_values_tmax_rows.
Qed.

Lemma StationName_serving (self : StationService)
    (request : StationNameRequest.t) (c : cluster) :
  select_name self = Prepared (Some ONE) →
  serving c → live c ≠ 0%nat →
  StationName self request c
  = (c, inr (name_reply
               (name_rows
                  (the_partition c (StationNameRequest.station request))))).
Proof.
  intros Hstmt Hc Hlive.
  pose proof (select_name_serving (select_name self)
                (StationNameRequest.station request) c Hc) as Hrun.
  assert (effective_level c (select_name self) = ONE) as Hlevel
    by (unfold effective_level; by rewrite Hstmt).
  rewrite Hlevel in Hrun. cbn [block_for] in Hrun.
  rewrite decide_False in Hrun by done. rewrite decide_False in Hrun by lia.
  by rewrite (StationName_returns _ _ _ _ _ Hrun).
Qed.

Lemma insert_temp_serving (stmt : prepared InsertTemp) (id date : string)
    (record : Z * Z) (c : cluster) (d : Z) :
  serving c → date_of_text date = Some d →
  in_int32 record.1 && in_int32 record.2 = true →
  ∃ ks t,
    keyspaces c !! "weather" = Some ks
    ∧ tables_of ks !! "stations" = Some t
    ∧ session_execute stmt (id, date, record) c
      = if decide (live c = 0%nat) then (c, inl no_host)
        else if decide (live c < block_for (effective_level c stmt) 3)%nat
             then (c, inl cannot_achieve)
             else (with_partition c "weather" ks t id
                     {| static_name := name_of c id;
                        clustering := upsert d record (recorded_rows c id) |},
                   inr []).
Proof.
  intros Hc Hd Hfit.
  destruct (coordinate_serving stmt c Hc) as (ks & t & Hks & Ht & Hp & Hrun).
  exists ks, t. split; [done|]. split; [done|].
  unfold session_execute, cluster_session. cbn [run_execute].
  erewrite bind_returns by (unfold bind_record; by rewrite Hd, Hfit).
  destruct (decide (live c = 0%nat));
    [by erewrite bind_raises by exact Hrun|].
  destruct (decide (live c < block_for (effective_level c stmt) 3)%nat);
    [by erewrite bind_raises by exact Hrun|].
  erewrite bind_returns by exact Hrun.
  unfold write_partition, get, put, name_of, recorded_rows. unfold_monad.
  rewrite Hp. by destruct (partitions t !! id).
Qed.

Lemma name_of_with_partition (c : cluster) (ks : keyspace) (t : table)
    (id id' : string) (rows : list (Z * (Z * Z))) :
  serving c → keyspaces c !! "weather" = Some ks →
  tables_of ks !! "stations" = Some t →
  name_of (with_partition c "weather" ks t id
             {| static_name := name_of c id; clustering := rows |}) id'
  = name_of c id'.
Proof.
  intros [Hk _] Hks Ht. unfold name_of at 1.
  rewrite (the_partition_with_partition c "weather" ks t) by done.
  by destruct (decide (id = id')) as [->|].
Qed.

Lemma recorded_rows_with_partition (c : cluster) (ks : keyspace) (t : table)
    (id id' : string) (p : partition) :
  serving c → keyspaces c !! "weather" = Some ks →
  tables_of ks !! "stations" = Some t →
  recorded_rows (with_partition c "weather" ks t id p) id'
  = if decide (id = id') then clustering p else recorded_rows c id'.
Proof.
  intros [Hk _] Hks Ht. unfold recorded_rows.
  rewrite (the_partition_with_partition c "weather" ks t) by done.
  by destruct (decide (id = id')).
Qed.

End ServiceOutcomes.

(** The sample cluster is in service once the constructor has run, and
    stays so. *)
Lemma example_running_serving : serving example_running.
Proof.
  destruct (init_succeeds (example_cluster 3) _ ltac:(discriminate) eq_refl)
    as (c' & self & Hinit & Hboot & _).
  unfold example_running. rewrite Hinit. by apply bootstrapped_serving.
Qed.

Lemma example_recorded_serving : serving example_recorded.
Proof. apply run_keeps_serving, example_running_serving. Qed.

Lemma example_running_live : live example_running = 3%nat.
Proof. vm_compute. reflexivity. Qed.

Lemma example_recorded_live : live example_recorded = 3%nat.
Proof. vm_compute. reflexivity. Qed.

(** ** Replicas in reach and what the handlers answer *)

Section Availability.
Context `{!DateCodec}.

(** X5: on a cluster in service, [StationMax] reads at level [THREE] of a
    keyspace replicated three times: with fewer than three replicas in
    reach the reply is 0 with the error "unavailable", and with all three
    it is the largest [tmax] among the station's rows with an empty error,
    0 for a station without rows.  The cluster is left as it was. *)
Theorem StationMax_needs_three_replicas (self : StationService)
    (request : StationMaxRequest.t) (c : cluster) :
  select_tmax self = Some (Prepared (Some THREE)) →
  serving c →
  StationMax self request c
  = (c, inr (if decide (live c < 3)%nat
             then StationMaxReply.mk 0 "unavailable"
             else StationMaxReply.mk
                    (maximum_or_zero
                       ((λ r, r.2.2)
                          <$> recorded_rows c (StationMaxRequest.station request)))
                    "")).
Proof.
  intros Hstmt Hc.
  pose proof (select_tmax_serving (Prepared (Some THREE))
                (StationMaxRequest.station request) c Hc) as Hrun.
  cbv [effective_level consistency_level default from_option block_for
       Datatypes.id] in Hrun.
  destruct (decide (live c < 3)%nat) as [Hfew|Hall].
  - destruct (decide (live c = 0%nat));
      by rewrite (StationMax_raises _ _ _ _ _ _ Hstmt Hrun).
  - rewrite decide_False in Hrun by lia.
    rewrite (StationMax_returns _ _ _ _ _ _ Hstmt Hrun).
    by rewrite present_values_tmax_rows.
Qed.

(** X6: on a cluster in service, a recording whose date reads as a date
    and whose temperatures fit an [int] is written at level [ONE]: with no
    replica in reach the reply is "unavailable" and nothing changes; with
    one or more the reply has an empty error, the station's rows hold the
    record under its day in place of what that day held, the rows of every
    other station and all station names are as before, and the cluster is
    still in service. *)
Theorem RecordTemps_needs_one_replica (self : StationService)
    (request : RecordTempsRequest.t) (c : cluster) (d : Z) :
  insert_temp self = Prepared (Some ONE) →
  serving c →
  date_of_text (RecordTempsRequest.date request) = Some d →
  in_int32 (RecordTempsRequest.tmin request)
  && in_int32 (RecordTempsRequest.tmax request) = true →
  (live c = 0%nat →
   RecordTemps self request c = (c, inr (RecordTempsReply.mk "unavailable")))
  ∧ (live c ≠ 0%nat →
     ∃ c',
       RecordTemps self request c = (c', inr (RecordTempsReply.mk ""))
       ∧ serving c' ∧ live c' = live c
       ∧ recorded_rows c' (RecordTempsRequest.station request)
         = upsert d
             (RecordTempsRequest.tmin request, RecordTempsRequest.tmax request)
             (recorded_rows c (RecordTempsRequest.station request))
       ∧ (∀ id, id ≠ RecordTempsRequest.station request →
                recorded_rows c' id = recorded_rows c id)
       ∧ (∀ id, name_of c' id = name_of c id)).
Proof.
  intros Hstmt Hc Hd Hfit.
  destruct (insert_temp_serving (insert_temp self)
              (RecordTempsRequest.station request)
              (RecordTempsRequest.date request)
              (RecordTempsRequest.tmin request, RecordTempsRequest.tmax request)
              c d Hc Hd Hfit) as (ks & t & Hks & Ht & Hrun).
  assert (effective_level c (insert_temp self) = ONE) as Hlevel
    by (unfold effective_level; by rewrite Hstmt).
  rewrite Hlevel in Hrun. cbn [block_for] in Hrun.
  split; intros Hlive.
  - rewrite decide_True in Hrun by done.
    by rewrite (RecordTemps_raises _ _ _ _ _ Hrun).
  - rewrite decide_False in Hrun by done.
    rewrite decide_False in Hrun by lia.
    eexists. split; [by rewrite (RecordTemps_returns _ _ _ _ _ Hrun)|].
    split; [by apply serving_with_partition|]. split; [done|].
    split; [|split].
    + rewrite recorded_rows_with_partition by done.
      by rewrite decide_True by done.
    + intros id Hid. rewrite recorded_rows_with_partition by done.
      by rewrite decide_False by done.
    + intros id. by apply name_of_with_partition.
Qed.

(** X7: a recording followed by [StationMax] for the same station, with
    all three replicas in reach: the reply is the largest [tmax] of the
    station's rows with the recorded day replaced, and for a station that
    had no row it is the recorded [tmax] itself, whatever its sign. *)
Theorem StationMax_after_RecordTemps (self : StationService)
    (request : RecordTempsRequest.t) (c : cluster) (d : Z) :
  insert_temp self = Prepared (Some ONE) →
  select_tmax self = Some (Prepared (Some THREE)) →
  serving c → (3 ≤ live c)%nat →
  date_of_text (RecordTempsRequest.date request) = Some d →
  in_int32 (RecordTempsRequest.tmin request)
  && in_int32 (RecordTempsRequest.tmax request) = true →
  let c' := (RecordTemps self request c).1 in
  let max_request :=
    StationMaxRequest.mk (RecordTempsRequest.station request) in
  (StationMax self max_request c').2
  = inr (StationMaxReply.mk
           (maximum_or_zero
              ((λ r, r.2.2)
                 <$> upsert d (RecordTempsRequest.tmin request,
                               RecordTempsRequest.tmax request)
                       (recorded_rows c (RecordTempsRequest.station request))))
           "")
  ∧ (recorded_rows c (RecordTempsRequest.station request) = [] →
     (StationMax self max_request c').2
     = inr (StationMaxReply.mk (RecordTempsRequest.tmax request) "")).
Proof.
  intros Hinsert Hselect Hc Hlive Hd Hfit. cbn zeta.
  destruct (insert_temp_serving (insert_temp self)
              (RecordTempsRequest.station request)
              (RecordTempsRequest.date request)
              (RecordTempsRequest.tmin request, RecordTempsRequest.tmax request)
              c d Hc Hd Hfit) as (ks & t & Hks & Ht & Hrun).
  assert (effective_level c (insert_temp self) = ONE) as Hlevel
    by (unfold effective_level; by rewrite Hinsert).
  rewrite Hlevel in Hrun. cbn [block_for] in Hrun.
  rewrite decide_False in Hrun by lia. rewrite decide_False in Hrun by lia.
  rewrite (RecordTemps_returns _ _ _ _ _ Hrun). cbn [fst].
  rewrite StationMax_serving; [|done|by apply serving_with_partition].
  cbn [snd live with_partition with_keyspaces].
  rewrite decide_False by lia.
  cbn [StationMaxRequest.station].
  rewrite recorded_rows_with_partition by done.
  rewrite decide_True by done. cbn [clustering].
  split; [done|]. by intros ->.
Qed.

End Availability.

(** The scenario with all replicas in reach, and with one of them gone. *)
Lemma StationMax_needs_three_replicas_witness :
  select_tmax example_service = Some (Prepared (Some THREE))
  ∧ serving example_recorded
  ∧ serving (run example_service [Reachable 2] example_recorded)
  ∧ StationMax example_service (StationMaxRequest.mk madison) example_recorded
    = (example_recorded, inr (StationMaxReply.mk 31 ""))
  ∧ StationMax example_service (StationMaxRequest.mk madison)
      (run example_service [Reachable 2] example_recorded)
    = (run example_service [Reachable 2] example_recorded,
       inr (StationMaxReply.mk 0 "unavailable")).
Proof.
  pose proof example_recorded_serving as Hc.
  pose proof (run_keeps_serving example_service [Reachable 2] _ Hc) as Hc2.
  split; [reflexivity|]. split; [exact Hc|]. split; [exact Hc2|]. split.
  - rewrite (StationMax_needs_three_replicas example_service
               (StationMaxRequest.mk madison) example_recorded eq_refl Hc).
    clear Hc Hc2. vm_compute. reflexivity.
  - rewrite (StationMax_needs_three_replicas example_service
               (StationMaxRequest.mk madison) _ eq_refl Hc2).
    clear Hc Hc2. vm_compute. reflexivity.
Defined.

(** The first day of the scenario on the cluster as the constructor left
    it. *)
Lemma RecordTemps_needs_one_replica_witness :
  insert_temp example_service = Prepared (Some ONE)
  ∧ serving example_running
  ∧ date_of_text (RecordTempsRequest.date first_day) = Some 20230701
  ∧ in_int32 (RecordTempsRequest.tmin first_day)
    && in_int32 (RecordTempsRequest.tmax first_day) = true
  ∧ ∃ c',
      RecordTemps example_service first_day example_running
      = (c', inr (RecordTempsReply.mk ""))
      ∧ recorded_rows c' madison
        = upsert 20230701 (18, 31) (recorded_rows example_running madison)
      ∧ ∀ id, name_of c' id = name_of example_running id.
Proof.
  pose proof example_running_serving as Hc.
  split; [reflexivity|]. split; [exact Hc|]. split; [reflexivity|].
  split; [reflexivity|].
  destruct (RecordTemps_needs_one_replica example_service first_day
              example_running 20230701 eq_refl Hc eq_refl eq_refl)
    as [_ Hsome].
  destruct Hsome as (c' & Hrun & _ & _ & Hrows & _ & Hnames).
  { rewrite example_running_live. discriminate. }
  exists c'. split; [exact Hrun|]. split; [exact Hrows|exact Hnames].
Defined.

(** A winter day recorded for a station without rows. *)
Lemma StationMax_after_RecordTemps_witness :
  insert_temp example_service = Prepared (Some ONE)
  ∧ select_tmax example_service = Some (Prepared (Some THREE))
  ∧ serving example_running ∧ (3 ≤ live example_running)%nat
  ∧ date_of_text "2023-01-31" = Some 20230131
  ∧ in_int32 (-22) && in_int32 (-12) = true
  ∧ recorded_rows example_running madison = []
  ∧ (StationMax example_service (StationMaxRequest.mk madison)
       (RecordTemps example_service
          (RecordTempsRequest.mk madison "2023-01-31" (-22) (-12))
          example_running).1).2
    = inr (StationMaxReply.mk (-12) "").
Proof.
  pose proof example_running_serving as Hc.
  assert (3 ≤ live example_running)%nat as Hlive
    by (rewrite example_running_live; apply le_n).
  assert (recorded_rows example_running madison = []) as Hrows
    by (vm_compute; reflexivity).
  split; [reflexivity|]. split; [reflexivity|]. split; [exact Hc|].
  split; [exact Hlive|]. split; [reflexivity|]. split; [reflexivity|].
  split; [exact Hrows|].
  exact (proj2 (StationMax_after_RecordTemps example_service
                  (RecordTempsRequest.mk madison "2023-01-31" (-22) (-12))
                  example_running 20230131 eq_refl eq_refl Hc Hlive
                  eq_refl eq_refl) Hrows).
Defined.

(** ** What a recording leaves alone *)

Lemma upsert_not_nil (d : Z) (r : Z * Z) (rows : list (Z * (Z * Z))) :
  upsert d r rows ≠ [].
Proof.
  destruct rows as [|[d' r'] rows]; cbn; [done|].
  destruct (d <? d'); [done|]. by destruct (d =? d').
Qed.

Lemma name_reply_written (p : option partition) (rows : list (Z * (Z * Z))) :
  rows ≠ [] →
  name_reply
    (name_rows (Some {| static_name := static_name (default empty_partition p);
                        clustering := rows |}))
  = name_reply (name_rows p).
Proof.
  intros Hrows. destruct rows as [|r rows]; [done|].
  destruct p as [[[n|] [|r' rows']]|]; reflexivity.
Qed.

Lemma coordinate_with_partition {q} (stmt : prepared q) (c : cluster)
    (k : string) (ks : keyspace) (t : table) (id : string) (p : partition) :
  current_keyspace c = Some k → keyspaces c !! k = Some ks →
  tables_of ks !! "stations" = Some t → schema_of t = stations_schema →
  ∃ ks' t',
    partitions t' = <[id := p]> (partitions t)
    ∧ coordinate stmt (with_partition c k ks t id p)
      = (with_partition c k ks t id p,
         if decide (live c = 0%nat) then inl no_host
         else if decide (live c < block_for (effective_level c stmt)
                                   (replication ks).2)%nat
              then inl cannot_achieve
              else inr (k, ks', t')).
Proof.
  intros Hk Hks Ht Hschema.
  exists (with_tables ks
            (<["stations" := {| schema_of := schema_of t;
                                partitions := <[id := p]> (partitions t) |}]>
               (tables_of ks))),
         {| schema_of := schema_of t; partitions := <[id := p]> (partitions t) |}.
  split; [done|].
  rewrite (coordinate_decide stmt (with_partition c k ks t id p) k
             (with_tables ks
                (<["stations" := {| schema_of := schema_of t;
                                    partitions := <[id := p]> (partitions t) |}]>
                   (tables_of ks)))
             {| schema_of := schema_of t; partitions := <[id := p]> (partitions t) |});
    [reflexivity|done|apply lookup_insert_eq|apply lookup_insert_eq|done].
Qed.

Section Frame.
Context `{!DateCodec}.

Lemma StationName_reply (self : StationService) (request : StationNameRequest.t)
    (c : cluster) :
  (StationName self request c).2
  = inr match (session_execute (select_name self)
                 (StationNameRequest.station request) c).2 with
        | inl e => StationNameReply.mk "" (str e)
        | inr rows => name_reply rows
        end.
Proof.
  destruct (session_execute (select_name self)
              (StationNameRequest.station request) c) as [c' [e|rows]] eqn:Hrun.
  - by rewrite (StationName_raises _ _ _ _ _ Hrun).
  - by rewrite (StationName_returns _ _ _ _ _ Hrun).
Qed.

Lemma StationMax_reply (self : StationService) (stmt : prepared SelectTmax)
    (request : StationMaxRequest.t) (c : cluster) :
  select_tmax self = Some stmt →
  (StationMax self request c).2
  = inr match (session_execute stmt (StationMaxRequest.station request) c).2 with
        | inl e => StationMaxReply.mk 0
                     (if is_unavailable e then "unavailable" else str e)
        | inr rows => StationMaxReply.mk (maximum_or_zero (present_values rows)) ""
        end.
Proof.
  intros Hstmt.
  destruct (session_execute stmt (StationMaxRequest.station request) c)
    as [c' [e|rows]] eqn:Hrun.
  - by rewrite (StationMax_raises _ _ _ _ _ _ Hstmt Hrun).
  - by rewrite (StationMax_returns _ _ _ _ _ _ Hstmt Hrun).
Qed.

(** The read of a station's name before and after a partition is written:
    refused both times with the same exception, or answered both times. *)
Lemma select_name_with_partition (stmt : prepared SelectName) (sid : string)
    (c : cluster) (k : string) (ks : keyspace) (t : table) (id : string)
    (p : partition) :
  current_keyspace c = Some k → keyspaces c !! k = Some ks →
  tables_of ks !! "stations" = Some t → schema_of t = stations_schema →
  ∃ answer : list NameRow → exn + list NameRow,
    (∀ rows rows', (∃ e, answer rows = inl e ∧ answer rows' = inl e)
                   ∨ (answer rows = inr rows ∧ answer rows' = inr rows'))
    ∧ (session_execute stmt sid c).2 = answer (name_rows (partitions t !! sid))
    ∧ (session_execute stmt sid (with_partition c k ks t id p)).2
      = answer (name_rows (<[id := p]> (partitions t) !! sid)).
Proof.
  intros Hk Hks Ht Hschema.
  destruct (coordinate_with_partition stmt c k ks t id p Hk Hks Ht Hschema)
    as (ks' & t' & Hp' & Hrun').
  pose proof (coordinate_decide stmt c k ks t Hk Hks Ht Hschema) as Hrun.
  unfold session_execute, cluster_session. cbn [run_execute].
  destruct (decide (live c = 0%nat)).
  { exists (λ _, inl no_host). split; [intros; left; by eexists|].
    erewrite bind_raises by exact Hrun. by erewrite bind_raises by exact Hrun'. }
  destruct (decide (live c < block_for (effective_level c stmt)
                              (replication ks).2)%nat).
  { exists (λ _, inl cannot_achieve). split; [intros; left; by eexists|].
    erewrite bind_raises by exact Hrun. by erewrite bind_raises by exact Hrun'. }
  exists inr. split; [by right|].
  erewrite bind_returns by exact Hrun. erewrite bind_returns by exact Hrun'.
  cbn. by rewrite Hp'.
Qed.

Lemma select_tmax_with_partition (stmt : prepared SelectTmax) (sid : string)
    (c : cluster) (k : string) (ks : keyspace) (t : table) (id : string)
    (p : partition) :
  current_keyspace c = Some k → keyspaces c !! k = Some ks →
  tables_of ks !! "stations" = Some t → schema_of t = stations_schema →
  id ≠ sid →
  (session_execute stmt sid (with_partition c k ks t id p)).2
  = (session_execute stmt sid c).2.
Proof.
  intros Hk Hks Ht Hschema Hne.
  destruct (coordinate_with_partition stmt c k ks t id p Hk Hks Ht Hschema)
    as (ks' & t' & Hp' & Hrun').
  pose proof (coordinate_decide stmt c k ks t Hk Hks Ht Hschema) as Hrun.
  unfold session_execute, cluster_session. cbn [run_execute].
  destruct (decide (live c = 0%nat)).
  { erewrite bind_raises by exact Hrun'. by erewrite bind_raises by exact Hrun. }
  destruct (decide (live c < block_for (effective_level c stmt)
                              (replication ks).2)%nat).
  { erewrite bind_raises by exact Hrun'. by erewrite bind_raises by exact Hrun. }
  erewrite bind_returns by exact Hrun'. erewrite bind_returns by exact Hrun.
  cbn. rewrite Hp'. by rewrite lookup_insert_ne by done.
Qed.

(** X8: a recording never changes what [StationName] replies, for any
    station, whether the recording succeeds or not and whatever the
    cluster holds: the write touches the record of one day and leaves the
    static name of the partition alone, and a partition the write creates
    has no name. *)
Theorem RecordTemps_keeps_station_names (self : StationService)
    (request : RecordTempsRequest.t) (name_request : StationNameRequest.t)
    (c : cluster) :
  (StationName self name_request (RecordTemps self request c).1).2
  = (StationName self name_request c).2.
Proof.
  rewrite RecordTemps_world.
  destruct (insert_temp_run (insert_temp self)
              (RecordTempsRequest.station request)
              (RecordTempsRequest.date request)
              (RecordTempsRequest.tmin request, RecordTempsRequest.tmax request) c)
    as [(e & Hexec & He)|(d & k & ks & t & Hd & _ & Hcoordinate & Hexec)];
    rewrite Hexec; cbn [fst]; [done|]. clear Hexec.
  apply coordinate_returns in Hcoordinate as (_ & _ & Hk & Hks & Ht & Hschema & _).
  rewrite !StationName_reply. f_equal.
  match goal with
  | |- context [with_partition c k ks t ?id ?p] =>
      destruct (select_name_with_partition (select_name self)
                  (StationNameRequest.station name_request) c k ks t id p
                  Hk Hks Ht Hschema) as (answer & Hanswer & -> & ->)
  end.
  match goal with
  | |- match answer ?rows' with _ => _ end = match answer ?rows with _ => _ end =>
      destruct (Hanswer rows rows') as [(e & -> & ->)|[-> ->]]; [done|]
  end.
  destruct (decide (RecordTempsRequest.station request
                    = StationNameRequest.station name_request)) as [<-|Hne].
  - rewrite lookup_insert_eq. apply name_reply_written, upsert_not_nil.
  - by rewrite lookup_insert_ne by done.
Qed.

(** X9: a recording for one station never changes what [StationMax]
    replies for another. *)
Theorem RecordTemps_keeps_other_maxima (self : StationService)
    (request : RecordTempsRequest.t) (max_request : StationMaxRequest.t)
    (c : cluster) :
  StationMaxRequest.station max_request ≠ RecordTempsRequest.station request →
  (StationMax self max_request (RecordTemps self request c).1).2
  = (StationMax self max_request c).2.
Proof.
  intros Hother. rewrite RecordTemps_world.
  destruct (insert_temp_run (insert_temp self)
              (RecordTempsRequest.station request)
              (RecordTempsRequest.date request)
              (RecordTempsRequest.tmin request, RecordTempsRequest.tmax request) c)
    as [(e & Hexec & He)|(d & k & ks & t & Hd & _ & Hcoordinate & Hexec)];
    rewrite Hexec; cbn [fst]; [done|]. clear Hexec.
  apply coordinate_returns in Hcoordinate as (_ & _ & Hk & Hks & Ht & Hschema & _).
  destruct (select_tmax self) as [stmt|] eqn:Hstmt;
    [|by rewrite !StationMax_unprepared].
  rewrite !(StationMax_reply self stmt) by done.
  by rewrite select_tmax_with_partition.
Qed.


(** X11: [StationSchema], [StationName] and [StationMax] only read: after
    any sequence of calls to them the cluster is the one they started
    from. *)
Theorem reading_leaves_the_cluster (self : StationService)
    (history : list event) (c : cluster) :
  Forall reads history → run self history c = c.
Proof.
  intros Hreads. revert c.
  induction Hreads as [|ev history Hev _ IH]; intros c; [reflexivity|].
  unfold run in *. cbn [foldl]. rewrite IH.
  destruct ev as [|request|request|request|n]; cbn [step]; try done.
  - apply StationSchema_world.
  - apply StationName_cluster.
  - apply StationMax_cluster.
Qed.

End Frame.

Lemma RecordTemps_keeps_other_maxima_witness :
  StationMaxRequest.station (StationMaxRequest.mk madison)
  ≠ RecordTempsRequest.station
      (RecordTempsRequest.mk elsewhere "2023-07-03" 20 40)
  ∧ (StationMax example_service (StationMaxRequest.mk madison)
       (RecordTemps example_service
          (RecordTempsRequest.mk elsewhere "2023-07-03" 20 40)
          example_recorded).1).2
    = (StationMax example_service (StationMaxRequest.mk madison)
         example_recorded).2.
Proof.
  assert (StationMaxRequest.station (StationMaxRequest.mk madison)
          ≠ RecordTempsRequest.station
              (RecordTempsRequest.mk elsewhere "2023-07-03" 20 40)) as Hother
    by (intros Hsame; vm_compute in Hsame; discriminate Hsame).
  split; [exact Hother|].
  exact (RecordTemps_keeps_other_maxima example_service
           (RecordTempsRequest.mk elsewhere "2023-07-03" 20 40)
           (StationMaxRequest.mk madison) example_recorded Hother).
Defined.


Lemma reading_leaves_the_cluster_witness :
  Forall reads
    [CallStationSchema; CallStationName (StationNameRequest.mk madison);
     CallStationMax (StationMaxRequest.mk madison)]
  ∧ run example_service
      [CallStationSchema; CallStationName (StationNameRequest.mk madison);
       CallStationMax (StationMaxRequest.mk madison)]
      example_recorded
    = example_recorded.
Proof.
  assert (Forall reads
            [CallStationSchema; CallStationName (StationNameRequest.mk madison);
             CallStationMax (StationMaxRequest.mk madison)]) as Hreads
    by (repeat constructor).
  split; [exact Hreads|].
  exact (reading_leaves_the_cluster example_service _ example_recorded Hreads).
Defined.

(** ** What the constructor prints *)

Section Readiness.
Context {W : Type} `{!Session W}.
Variable out : W → list string.
Hypothesis connect_quiet : ∀ w, out (cluster_connect w).1 = out w.
Hypothesis ddl_quiet : ∀ stmt w, out (session_execute_ddl stmt w).1 = out w.
Hypothesis set_keyspace_quiet :
  ∀ k w, out (session_set_keyspace k w).1 = out w.
Hypothesis prepare_quiet : ∀ q w, out (session_prepare q w).1 = out w.
Hypothesis execute_quiet :
  ∀ q (stmt : prepared q) args w, out (session_execute stmt args w).1 = out w.
Hypothesis spark_quiet : ∀ w, out (spark_wi_stations w).1 = out w.
Hypothesis print_appends : ∀ line w, out (print line w) = out w ++ [line].

Lemma seed_names_quiet (rows : list (string * string))
    (acc : option (prepared InsertName)) (w : W) :
  out (seed_names rows acc w).1 = out w.
Proof.
  apply (seed_names_keeps (λ x, out x = out w)); [| |done].
  - intros q x Hx. by rewrite prepare_quiet.
  - intros stmt args x Hx. by rewrite execute_quiet.
Qed.

Lemma prepare_rpc_statements_prints (w : W) :
  match (prepare_rpc_statements w).2 with
  | inr _ => out (prepare_rpc_statements w).1 = out w
  | inl e =>
      out (prepare_rpc_statements w).1
      = out w ++ ["!!! CRITICAL ERROR: Failed to prepare statements in __init__: "
                  +:+ str e]
  end.
Proof.
  unfold prepare_rpc_statements, prepare, try_except, println. unfold_monad.
  pose proof (prepare_quiet InsertTemp w) as H1.
  destruct (session_prepare InsertTemp w) as [w1 [e|[]]]; cbn in *;
    [by rewrite print_appends, H1|].
  pose proof (prepare_quiet SelectName w1) as H2.
  destruct (session_prepare SelectName w1) as [w2 [e|[]]]; cbn in *;
    [by rewrite print_appends, H2, H1|].
  pose proof (prepare_quiet SelectTmax w2) as H3.
  destruct (session_prepare SelectTmax w2) as [w3 [e|[]]]; cbn in *;
    [by rewrite print_appends, H3, H2, H1|].
  by rewrite H3, H2, H1.
Qed.

(** A quiet step in front of a computation: a property of the output that
    holds when the step raises and after whatever follows it holds of the
    two together. *)
Lemma quiet_bind {A B} (m : M W A) (k : A → M W B) (w : W)
    (P : list string → exn + B → Prop) :
  (∀ x, out (m x).1 = out x) →
  (∀ e, P (out w) (inl e)) →
  (∀ a x, out x = out w → P (out (k a x).1) (k a x).2) →
  P (out ((m ≫= k) w).1) ((m ≫= k) w).2.
Proof.
  intros Hquiet Hraise Hnext. pose proof (Hquiet w) as Hm.
  destruct (m w) as [w1 [e|a]] eqn:Hrun.
  - erewrite bind_raises by exact Hrun. cbn in *. rewrite Hm. apply Hraise.
  - erewrite bind_returns by exact Hrun. by apply Hnext.
Qed.

Lemma init_prints (w : W) :
  match (init w).2 with
  | inr _ => out (init w).1 = out w ++ ["Server started"]
  | inl e =>
      out (init w).1 = out w
      ∨ out (init w).1
        = out w ++ ["!!! CRITICAL ERROR: Failed to prepare statements in __init__: "
                    +:+ str e]
  end.
Proof.
  set (P := λ (o : list string) (r : exn + StationService),
         match r with
         | inr _ => o = out w ++ ["Server started"]
         | inl e =>
             o = out w
             ∨ o = out w
                   ++ ["!!! CRITICAL ERROR: Failed to prepare statements in __init__: "
                       +:+ str e]
         end).
  change (P (out (init w).1) (init w).2). unfold init.
  apply (quiet_bind _ _ _ P); [apply connect_quiet|by left|]. intros [] w1 H1.
  apply (quiet_bind _ _ _ P); [apply ddl_quiet|left; congruence|].
  intros [] w2 H2.
  apply (quiet_bind _ _ _ P); [apply ddl_quiet|left; congruence|].
  intros [] w3 H3.
  apply (quiet_bind _ _ _ P); [apply set_keyspace_quiet|left; congruence|].
  intros [] w4 H4.
  apply (quiet_bind _ _ _ P); [apply ddl_quiet|left; congruence|].
  intros [] w5 H5.
  apply (quiet_bind _ _ _ P); [apply ddl_quiet|left; congruence|].
  intros [] w6 H6.
  apply (quiet_bind _ _ _ P); [apply spark_quiet|left; congruence|].
  intros wi_stations w7 H7.
  apply (quiet_bind _ _ _ P);
    [intros x; apply seed_names_quiet|left; congruence|].
  intros seed w8 H8.
  pose proof (prepare_rpc_statements_prints w8) as Hprepare.
  destruct (prepare_rpc_statements w8) as [w9 [e|[[a b] c]]] eqn:Hrun;
    cbn [fst snd] in Hprepare.
  - erewrite bind_raises by exact Hrun. cbn [fst snd P]. right.
    rewrite Hprepare. congruence.
  - erewrite bind_returns by exact Hrun. cbn. unfold println. unfold_monad. cbn.
    rewrite print_appends, Hprepare. congruence.
Qed.

(** X12: of the lines of the constructor, over any session whose calls
    print nothing themselves: when the constructor returns, it has printed
    the line "Server started" and nothing else; when it raises, it has
    printed nothing, or the one line that reports the failed preparation
    with the message of the exception it raises.  The readiness line is
    printed exactly by the starts that succeed. *)
Theorem readiness_line_marks_success (w : W) :
  (∀ w' self, init w = (w', inr self) → out w' = out w ++ ["Server started"])
  ∧ (∀ w' e, init w = (w', inl e) →
       out w' = out w
       ∨ out w'
         = out w ++ ["!!! CRITICAL ERROR: Failed to prepare statements in __init__: "
                     +:+ str e]).
Proof.
  pose proof (init_prints w) as Hprints.
  split; intros w' x Hrun; by rewrite Hrun in Hprints.
Qed.

End Readiness.

(** The calls of the cluster print nothing. *)
Lemma run_ddl_quiet (stmt : ddl) (c : cluster) :
  stdout (run_ddl stmt c).1 = stdout c.
Proof.
  unfold run_ddl, need_host, need_keyspace, store_keyspace, get, put.
  unfold_monad. destruct stmt;
    repeat (case_match || case_decide); simplify_eq; done.
Qed.

Lemma run_set_keyspace_quiet (k : string) (c : cluster) :
  stdout (run_set_keyspace k c).1 = stdout c.
Proof.
  unfold run_set_keyspace, need_host, get, put. unfold_monad.
  repeat (case_match || case_decide); simplify_eq; done.
Qed.

Section ClusterOutput.
Context `{!DateCodec}.

Lemma cluster_connect_quiet (c : cluster) :
  stdout (cluster_connect c).1 = stdout c.
Proof.
  unfold cluster_connect, cluster_session, need_host, get, put. unfold_monad.
  repeat (case_match || case_decide); simplify_eq; done.
Qed.

Lemma spark_wi_stations_quiet (c : cluster) :
  stdout (spark_wi_stations c).1 = stdout c.
Proof. reflexivity. Qed.

Lemma run_execute_quiet (q : query) (stmt : prepared q) (args : params q)
    (c : cluster) :
  stdout (session_execute stmt args c).1 = stdout c.
Proof.
  destruct q.
  - destruct args as [id station_name].
    unfold session_execute, cluster_session. cbn [run_execute].
    destruct (coordinate stmt c) as [c' [e|[[k ks] t]]] eqn:Hrun.
    + apply coordinate_raises in Hrun as Hfacts. destruct Hfacts as [-> _].
      by erewrite bind_raises by exact Hrun.
    + apply coordinate_returns in Hrun as Hfacts. destruct Hfacts as [-> _].
      by erewrite bind_returns by exact Hrun.
  - destruct args as [[id date] record].
    destruct (insert_temp_run stmt id date record c)
      as [(e & Hrun & _)|(d & k & ks & t & _ & _ & _ & Hrun)]; by rewrite Hrun.
  - destruct (select_name_run stmt args c)
      as [(e & Hrun & _)|(k & ks & t & _ & Hrun)]; by rewrite Hrun.
  - destruct (select_tmax_run stmt args c)
      as [(e & Hrun & _)|(k & ks & t & _ & Hrun)]; by rewrite Hrun.
Qed.

End ClusterOutput.

(** The start of the sample cluster, with the output of the process read
    off the cluster. *)
Lemma readiness_line_marks_success_witness :
  (∀ c, stdout (cluster_connect c).1 = stdout c)
  ∧ (∀ stmt c, stdout (session_execute_ddl stmt c).1 = stdout c)
  ∧ (∀ k c, stdout (session_set_keyspace k c).1 = stdout c)
  ∧ (∀ q c, stdout (session_prepare q c).1 = stdout c)
  ∧ (∀ q (stmt : prepared q) args c,
       stdout (session_execute stmt args c).1 = stdout c)
  ∧ (∀ c, stdout (spark_wi_stations c).1 = stdout c)
  ∧ (∀ line c, stdout (print line c) = stdout c ++ [line])
  ∧ stdout example_running = stdout (example_cluster 3) ++ ["Server started"].
Proof.
  assert (∀ q c, stdout (session_prepare q c).1 = stdout c) as Hprepare
    by (intros q c; unfold session_prepare, cluster_session;
        by rewrite run_prepare_state).
  assert (∀ line c, stdout (print line c) = stdout c ++ [line]) as Hprint
    by reflexivity.
  assert (init (example_cluster 3) = (example_running, inr example_service))
    as Hrun by (vm_compute; reflexivity).
  split; [exact cluster_connect_quiet|]. split; [exact run_ddl_quiet|].
  split; [exact run_set_keyspace_quiet|]. split; [exact Hprepare|].
  split; [exact run_execute_quiet|]. split; [exact spark_wi_stations_quiet|].
  split; [exact Hprint|].
  exact (proj1 (readiness_line_marks_success stdout cluster_connect_quiet
                  run_ddl_quiet run_set_keyspace_quiet Hprepare
                  run_execute_quiet spark_wi_stations_quiet Hprint
                  (example_cluster 3))
           example_running example_service Hrun).
Defined.

(** ** The names the constructor seeds *)

Section Seeds.
Context `{!DateCodec}.

Lemma seed_row_cluster (acc : option (prepared InsertName))
    (r : string * string) (c : cluster) :
  bootstrapped c → live c ≠ 0%nat →
  ¬ (live c < block_for (default_consistency_level c) 3)%nat →
  acc = None ∨ acc = Some (Prepared None) →
  ∃ c', seed_row acc r c = (c', inr (Some (Prepared None)))
        ∧ bootstrapped c' ∧ live c' = live c
        ∧ default_consistency_level c' = default_consistency_level c
        ∧ ∀ id, name_of c' id
                = if decide (strip r.1 = id) then Some (strip r.2)
                  else name_of c id.
Proof.
  intros Hc Hlive Hreplicas Hacc.
  destruct (bootstrapped_coordinate (q := InsertName) (Prepared None) c Hc Hlive
              Hreplicas) as (ks & t & Hrun & _).
  pose proof (insert_name_keeps_bootstrapped (Prepared None)
                (strip r.1, strip r.2) c Hc) as Hkeep.
  assert (session_execute (q := InsertName) (Prepared None)
            (strip r.1, strip r.2) c
          = (with_partition c "weather" ks t (strip r.1)
               {| static_name := Some (strip r.2);
                  clustering :=
                    clustering (default empty_partition
                                  (partitions t !! strip r.1)) |},
             inr [])) as Hexec.
  { unfold session_execute, cluster_session. cbn [run_execute].
    by erewrite bind_returns by exact Hrun. }
  rewrite Hexec in Hkeep. cbn [fst] in Hkeep.
  eexists. split; [|split; [exact Hkeep|split; [done|split; [done|]]]].
  - unfold seed_row. erewrite try_returns; [reflexivity|]. cbn zeta.
    destruct Hacc as [-> | ->].
    + erewrite bind_returns
        by (unfold prepare;
            erewrite bind_returns
              by (apply (run_prepare_returns InsertName c Hc Hlive));
            reflexivity).
      erewrite try_returns; [reflexivity|].
      by erewrite bind_returns by exact Hexec.
    + erewrite bind_returns by reflexivity.
      erewrite try_returns; [reflexivity|].
      by erewrite bind_returns by exact Hexec.
  - intros id. apply coordinate_returns in Hrun as (_ & _ & Hk & Hks & Ht & _).
    unfold name_of at 1.
    rewrite (the_partition_with_partition c "weather" ks t) by done.
    by destruct (decide (strip r.1 = id)).
Qed.

Lemma seed_names_cluster (rows : list (string * string))
    (acc : option (prepared InsertName)) (c : cluster) :
  bootstrapped c → live c ≠ 0%nat →
  ¬ (live c < block_for (default_consistency_level c) 3)%nat →
  acc = None ∨ acc = Some (Prepared None) →
  ∃ c' seed, seed_names rows acc c = (c', inr seed)
        ∧ bootstrapped c' ∧ live c' = live c
        ∧ ∀ id, name_of c' id = from_option Some (name_of c id) (seeded rows id).
Proof.
  revert acc c. induction rows as [|r rows IH];
    intros acc c Hc Hlive Hreplicas Hacc; cbn [seed_names seeded].
  - by exists c, acc.
  - destruct (seed_row_cluster acc r c Hc Hlive Hreplicas Hacc)
      as (c1 & Hrow & Hc1 & Hlive1 & Hlevel1 & Hname1).
    destruct (IH (Some (Prepared None)) c1 Hc1)
      as (c' & seed & Hrest & Hc' & Hlive' & Hname');
      [congruence|by rewrite Hlive1, Hlevel1|by right|].
    exists c', seed. split; [by erewrite bind_returns by exact Hrow|].
    split; [done|]. split; [congruence|].
    intros id. rewrite Hname', Hname1.
    by destruct (seeded rows id), (decide (strip r.1 = id)).
Qed.

(** What the constructor leaves on a cluster that serves its seed
    inserts. *)
Lemma init_run (c : cluster) (rows : list (string * string)) :
  live c ≠ 0%nat →
  ¬ (live c < block_for (default_consistency_level c) 3)%nat →
  station_file c = inr rows →
  ∃ c' self, init c = (c', inr self) ∧ bootstrapped c' ∧ live c' = live c
             ∧ ∀ id, name_of c' id = seeded rows id.
Proof.
  intros Hlive Hreplicas Hfile. unfold init.
  erewrite bind_returns
    by (unfold cluster_connect, cluster_session;
        erewrite bind_returns by (by apply need_host_returns); reflexivity).
  destruct (drop_keyspace_returns (with_current_keyspace c None) Hlive)
    as (c2 & Hdrop & Hk2 & Hlive2 & Hfile2 & Hcurrent2).
  erewrite bind_returns by exact Hdrop.
  assert (live c2 ≠ 0%nat) as Hlive2' by (by rewrite Hlive2).
  assert (default_consistency_level c2 = default_consistency_level c) as Hlevel2.
  { clear -Hdrop. unfold run_ddl, drop_keyspace, need_host, get, put in Hdrop.
    unfold_monad. repeat (case_match || case_decide); simplify_eq; done. }
  erewrite bind_returns
    by (apply (create_keyspace_run c2 Hlive2' Hk2)).
  erewrite bind_returns
    by (by eapply set_keyspace_run; [|apply lookup_insert_eq]).
  erewrite bind_returns
    by (by eapply create_type_run;
          [|reflexivity|apply lookup_insert_eq|apply lookup_empty]).
  erewrite bind_returns
    by (eapply create_table_run;
          [done|reflexivity|apply lookup_insert_eq|apply lookup_empty|];
        cbn; by rewrite lookup_insert_eq).
  match goal with
  | |- context [mbind _ spark_wi_stations ?c6] =>
      assert (bootstrapped c6 ∧ live c6 = live c
              ∧ default_consistency_level c6 = default_consistency_level c
              ∧ ∀ id, name_of c6 id = None)
        as (Hboot6 & Hlive6 & Hlevel6 & Hname6);
      [|assert (spark_wi_stations c6 = (c6, inr rows)) as Hspark]
  end.
  { split; [|split; [by cbn|split; [by cbn|]]].
    - split; [reflexivity|]. eexists _, _. cbn.
      split; [apply lookup_insert_eq|]. cbn.
      split; [reflexivity|]. split; [apply lookup_insert_eq|].
      split; [apply lookup_insert_eq|]. split; [reflexivity|].
      cbn. intros id p Hp. by rewrite lookup_empty in Hp.
    - intros id. unfold name_of.
      erewrite the_partition_lookup;
        [|reflexivity|apply lookup_insert_eq|apply lookup_insert_eq].
      cbn. by rewrite lookup_empty. }
  { unfold spark_wi_stations, cluster_session, get, lift. unfold_monad. cbn.
    rewrite Hfile2. cbn. by rewrite Hfile. }
  erewrite bind_returns by exact Hspark. clear Hspark.
  match goal with
  | |- context [mbind _ (seed_names rows None) ?c6] =>
      destruct (seed_names_cluster rows None c6 Hboot6)
        as (c8 & seed & Hseed & Hboot8 & Hlive8 & Hname8);
      [congruence|by rewrite Hlive6, Hlevel6|by left|]
  end.
  erewrite bind_returns by exact Hseed. clear Hseed.
  assert (live c8 ≠ 0%nat) as Hlive8' by congruence.
  assert (prepare_rpc_statements c8
          = (c8, inr (Prepared (Some ONE), Prepared (Some ONE),
                      Prepared (Some THREE)))) as Hprepare.
  { unfold prepare_rpc_statements, prepare, try_except. unfold_monad.
    unfold session_prepare, cluster_session.
    by rewrite !(run_prepare_returns _ c8 Hboot8 Hlive8'). }
  erewrite bind_returns by exact Hprepare.
  eexists _, _. split; [reflexivity|]. split; [|split; [cbn; congruence|]].
  - destruct Hboot8 as (Hk & Hrest). split; [done|exact Hrest].
  - intros id. change (name_of c8 id = seeded rows id).
    rewrite Hname8, Hname6. by destruct (seeded rows id).
Qed.

(** The names the service then answers with. *)
Lemma init_names_served (c : cluster) (rows : list (string * string)) :
  live c ≠ 0%nat →
  ¬ (live c < block_for (default_consistency_level c) 3)%nat →
  station_file c = inr rows →
  ∃ c' self,
    init c = (c', inr self)
    ∧ (∀ id, name_of c' id = seeded rows id)
    ∧ ∀ request,
        StationName self request c'
        = (c', inr match seeded rows (StationNameRequest.station request) with
                   | Some n =>
                       if bool_decide (n ≠ "") then StationNameReply.mk n ""
                       else StationNameReply.mk ""
                              "station not found or name missing"
                   | None =>
                       StationNameReply.mk ""
                         "station not found or name missing"
                   end).
Proof.
  intros Hlive Hreplicas Hfile.
  destruct (init_run c rows Hlive Hreplicas Hfile)
    as (c' & self & Hinit & Hboot & Hlive' & Hnames).
  exists c', self. split; [done|]. split; [done|].
  destruct (init_returns _ _ _ Hinit) as (seed & -> & _).
  intros request. rewrite StationName_serving;
    [|done|by apply bootstrapped_serving|congruence].
  rewrite name_reply_name_rows. by rewrite <- Hnames.
Qed.

(** X13: the constructor and [StationName] together.  On a cluster with a
    node in reach that serves statements at its default level, the
    constructor returns, and the name each station then has is the name of
    the last row of the station file with that id, both stripped of the
    blanks around them; [StationName] with the service the constructor
    built answers with that name when it is not empty, and with the
    not-found text for an id no row has. *)
Theorem startup_seeds_station_names (c : cluster)
    (rows : list (string * string)) :
  live c ≠ 0%nat →
  ¬ (live c < block_for (default_consistency_level c) 3)%nat →
  station_file c = inr rows →
  ∃ c' self,
    init c = (c', inr self)
    ∧ (∀ id, name_of c' id = seeded rows id)
    ∧ (∀ request n,
         seeded rows (StationNameRequest.station request) = Some n → n ≠ "" →
         StationName self request c' = (c', inr (StationNameReply.mk n "")))
    ∧ (∀ request,
         seeded rows (StationNameRequest.station request) = None →
         StationName self request c'
         = (c', inr (StationNameReply.mk ""
                       "station not found or name missing"))).
Proof.
  intros Hlive Hreplicas Hfile.
  destruct (init_names_served c rows Hlive Hreplicas Hfile)
    as (c' & self & Hinit & Hnames & Hreply).
  exists c', self. split; [done|]. split; [done|]. split.
  - intros request n Hn Hfull. rewrite Hreply, Hn.
    by rewrite bool_decide_true by done.
  - intros request Hn. by rewrite Hreply, Hn.
Qed.

(** X14: a start on a cluster that was used before.  With a node in reach
    and the station file read the constructor returns whatever the cluster
    held, and no station has a row afterwards: the keyspace is dropped and
    made again.  With the three replicas in reach every [StationMax] then
    answers 0 with an empty error. *)
Theorem restart_starts_empty (c : cluster) (rows : list (string * string)) :
  live c ≠ 0%nat → station_file c = inr rows →
  ∃ c' self,
    init c = (c', inr self)
    ∧ (∀ id, recorded_rows c' id = [])
    ∧ ((3 ≤ live c)%nat →
       ∀ request, StationMax self request c' = (c', inr (StationMaxReply.mk 0 ""))).
Proof.
  intros Hlive Hfile.
  destruct (init_succeeds c rows Hlive Hfile)
    as (c' & self & Hinit & Hboot & Hlive').
  exists c', self. split; [done|].
  assert (∀ id, recorded_rows c' id = []) as Hrows.
  { intros id.
    destruct Hboot as (Hk & ks & t & Hks & _ & _ & Ht & _ & Hempty).
    unfold recorded_rows.
    rewrite (the_partition_lookup c' "weather" ks t) by done.
    destruct (partitions t !! id) as [p|] eqn:Hp; [|done].
    exact (Hempty _ _ Hp). }
  split; [done|]. intros Hall request.
  destruct (init_returns _ _ _ Hinit) as (seed & -> & _).
  rewrite StationMax_serving; [|done|by apply bootstrapped_serving].
  rewrite decide_False by lia. by rewrite Hrows.
Qed.

End Seeds.

(** The station of the sample file, whose name comes padded. *)
Lemma startup_seeds_station_names_witness :
  live (example_cluster 3) ≠ 0%nat
  ∧ ¬ (live (example_cluster 3)
       < block_for (default_consistency_level (example_cluster 3)) 3)%nat
  ∧ station_file (example_cluster 3)
    = inr [(madison, "MADISON DANE CO RGNL AP       ")]
  ∧ ∃ c' self,
      init (example_cluster 3) = (c', inr self)
      ∧ StationName self (StationNameRequest.mk madison) c'
        = (c', inr (StationNameReply.mk "MADISON DANE CO RGNL AP" ""))
      ∧ StationName self (StationNameRequest.mk elsewhere) c'
        = (c', inr (StationNameReply.mk "" "station not found or name missing")).
Proof.
  assert (live (example_cluster 3) ≠ 0%nat) as Hlive by discriminate.
  assert (¬ (live (example_cluster 3)
             < block_for (default_consistency_level (example_cluster 3)) 3)%nat)
    as Hreplicas by (cbn; lia).
  split; [exact Hlive|]. split; [exact Hreplicas|]. split; [reflexivity|].
  destruct (startup_seeds_station_names (example_cluster 3) _ Hlive Hreplicas
              eq_refl) as (c' & self & Hinit & _ & Hfound & Hmissing).
  exists c', self. split; [exact Hinit|]. split.
  - apply Hfound; [vm_compute; reflexivity|].
    intros Hempty. discriminate Hempty.
  - apply Hmissing. vm_compute. reflexivity.
Defined.

(** The cluster of the scenario, with its two recorded days, started on
    again. *)
Lemma restart_starts_empty_witness :
  live example_recorded ≠ 0%nat
  ∧ station_file example_recorded
    = inr [(madison, "MADISON DANE CO RGNL AP       ")]
  ∧ recorded_rows example_recorded madison
    = [(20230701, (18, 31)); (20230702, (19, 28))]
  ∧ ∃ c' self,
      init example_recorded = (c', inr self)
      ∧ recorded_rows c' madison = []
      ∧ StationMax self (StationMaxRequest.mk madison) c'
        = (c', inr (StationMaxReply.mk 0 "")).
Proof.
  assert (live example_recorded ≠ 0%nat) as Hlive
    by (rewrite example_recorded_live; discriminate).
  assert (station_file example_recorded
          = inr [(madison, "MADISON DANE CO RGNL AP       ")]) as Hfile
    by (vm_compute; reflexivity).
  split; [exact Hlive|]. split; [exact Hfile|].
  split; [vm_compute; reflexivity|].
  destruct (restart_starts_empty example_recorded _ Hlive Hfile)
    as (c' & self & Hinit & Hrows & Hmax).
  exists c', self. split; [exact Hinit|]. split; [apply Hrows|].
  apply Hmax. rewrite example_recorded_live. apply le_n.
Defined.

(** ** Reading the station file *)

Lemma string_app_cons (x : Ascii.ascii) (a b : string) :
  String x a +:+ b = String x (a +:+ b).
Proof. reflexivity. Qed.

Lemma string_app_assoc (a b c : string) : (a +:+ b) +:+ c = a +:+ (b +:+ c).
Proof.
  induction a as [|x a IH]; [done|]. rewrite !string_app_cons. by f_equal.
Qed.

Lemma string_length_app (a b : string) :
  String.length (a +:+ b) = (String.length a + String.length b)%nat.
Proof.
  induction a as [|x a IH]; [done|]. rewrite string_app_cons. cbn. by f_equal.
Qed.

Lemma substring_here (f b : string) :
  String.substring 0 (String.length f) (f +:+ b) = f.
Proof.
  induction f as [|x f IH]; [by destruct b|].
  rewrite string_app_cons. cbn. by f_equal.
Qed.

Lemma substring_skip (a b : string) (m : nat) :
  String.substring (String.length a) m (a +:+ b) = String.substring 0 m b.
Proof.
  induction a as [|x a IH]; [done|]. rewrite string_app_cons. exact IH.
Qed.

Lemma substring_field (a f b : string) (n m : nat) :
  String.length a = n → String.length f = m →
  String.substring n m (a +:+ f +:+ b) = f.
Proof. intros <- <-. rewrite substring_skip. apply substring_here. Qed.

(** A column holds no more characters than the line has from its place
    on. *)
Lemma substring_length (value : string) (n m : nat) :
  (String.length (String.substring n m value) ≤ String.length value - n)%nat.
Proof.
  revert n m. induction value as [|x value IH]; intros n m.
  - by destruct n, m.
  - destruct n as [|n]; [destruct m as [|m]|]; cbn; [lia| |apply IH].
    specialize (IH 0%nat m). lia.
Qed.

Lemma wi_stations_app (lines lines' : list string) :
  wi_stations (lines ++ lines') = wi_stations lines ++ wi_stations lines'.
Proof.
  unfold wi_stations, parsed_df. by rewrite fmap_app, filter_app, fmap_app.
Qed.

Lemma wi_stations_line (id gap state sep station_name rest : string) :
  String.length id = 11%nat → String.length gap = 27%nat →
  String.length state = 2%nat → String.length sep = 1%nat →
  String.length station_name = 30%nat →
  wi_stations [id +:+ gap +:+ state +:+ sep +:+ station_name +:+ rest]
  = if decide (state = "WI") then [(id, station_name)] else [].
Proof.
  intros Hid Hgap Hstate Hsep Hname.
  unfold wi_stations, parsed_df, functions.substring. cbn [fmap list_fmap].
  change (1 - 1)%nat with 0%nat. change (39 - 1)%nat with 38%nat.
  change (42 - 1)%nat with 41%nat.
  assert (String.substring 0 11
            (id +:+ gap +:+ state +:+ sep +:+ station_name +:+ rest) = id) as ->.
  { by apply (substring_field "" id). }
  assert (String.substring 38 2
            (id +:+ gap +:+ state +:+ sep +:+ station_name +:+ rest) = state) as ->.
  { rewrite <- (string_app_assoc id gap).
    apply substring_field; [|done]. rewrite string_length_app. lia. }
  assert (String.substring 41 30
            (id +:+ gap +:+ state +:+ sep +:+ station_name +:+ rest)
          = station_name) as ->.
  { rewrite <- (string_app_assoc id gap).
    rewrite <- (string_app_assoc (id +:+ gap) state).
    rewrite <- (string_app_assoc ((id +:+ gap) +:+ state) sep).
    apply substring_field; [|done]. rewrite !string_length_app. lia. }
  rewrite filter_cons. cbn [fst snd].
  destruct (decide (state = "WI")); reflexivity.
Qed.

Lemma seeded_app (rows rows' : list (string * string)) (id : string) :
  seeded (rows ++ rows') id
  = match seeded rows' id with
    | Some n => Some n
    | None => seeded rows id
    end.
Proof.
  induction rows as [|r rows IH]; cbn [app seeded].
  - by destruct (seeded rows' id).
  - rewrite IH. by destruct (seeded rows' id).
Qed.

(** X15: the columns of the station file.  Of a line that holds an id of
    11 characters, 27 characters up to the state, a state of 2, one more
    character and a name of 30, the constructor reads exactly that id and
    that name, and it keeps the line exactly when the state is "WI"; what
    follows the name on the line is not read, and the row stands among the
    rows of the other lines where the line stands in the file. *)
Theorem station_file_columns (before after : list string)
    (id gap state sep station_name rest : string) :
  String.length id = 11%nat → String.length gap = 27%nat →
  String.length state = 2%nat → String.length sep = 1%nat →
  String.length station_name = 30%nat →
  wi_stations
    (before
     ++ (id +:+ gap +:+ state +:+ sep +:+ station_name +:+ rest) :: after)
  = wi_stations before
    ++ (if decide (state = "WI") then [(id, station_name)] else [])
    ++ wi_stations after.
Proof.
  intros Hid Hgap Hstate Hsep Hname.
  rewrite wi_stations_app. f_equal.
  match goal with
  | |- wi_stations (?line :: after) = _ =>
      change (line :: after) with ([line] ++ after)
  end.
  rewrite wi_stations_app. f_equal. by apply wi_stations_line.
Qed.

Lemma station_file_columns_witness :
  String.length "USW00014837" = 11%nat
  ∧ String.length "  43.1406  -89.3453  264.0 " = 27%nat
  ∧ String.length "WI" = 2%nat ∧ String.length " " = 1%nat
  ∧ String.length "MADISON DANE CO RGNL AP       " = 30%nat
  ∧ wi_stations ([heading_line] ++ madison_line :: [])
    = wi_stations [heading_line]
      ++ [("USW00014837", "MADISON DANE CO RGNL AP       ")]
      ++ wi_stations [].
Proof.
  split; [reflexivity|]. split; [reflexivity|]. split; [reflexivity|].
  split; [reflexivity|]. split; [reflexivity|].
  exact (station_file_columns [heading_line] []
           "USW00014837" "  43.1406  -89.3453  264.0 "
           "WI" " " "MADISON DANE CO RGNL AP       " "         72641"
           eq_refl eq_refl eq_refl eq_refl eq_refl).
Defined.

(** X16: a line of fewer than 40 characters, which ends before its state
    is complete, is passed over without an error: the stations read are
    those of the file without the line. *)
Theorem short_line_is_skipped (before after : list string) (value : string) :
  (String.length value < 40)%nat →
  wi_stations (before ++ value :: after) = wi_stations (before ++ after).
Proof.
  intros Hshort.
  rewrite (wi_stations_app before (value :: after)).
  change (value :: after) with ([value] ++ after).
  rewrite (wi_stations_app [value] after), (wi_stations_app before after).
  assert (wi_stations [value] = []) as ->; [|done].
  unfold wi_stations, parsed_df. cbn [fmap list_fmap].
  rewrite filter_cons. cbn [fst snd].
  destruct (decide (functions.substring value 39 2 = "WI")) as [Hstate|];
    [|done].
  pose proof (substring_length value 38 2) as Hlength.
  unfold functions.substring in Hstate. change (39 - 1)%nat with 38%nat in Hstate.
  rewrite Hstate in Hlength. cbn in Hlength. lia.
Qed.

Lemma short_line_is_skipped_witness :
  (String.length heading_line < 40)%nat
  ∧ wi_stations ([] ++ heading_line :: [madison_line])
    = wi_stations ([] ++ [madison_line]).
Proof.
  assert (String.length heading_line < 40)%nat as Hshort by (cbn; lia).
  split; [exact Hshort|].
  exact (short_line_is_skipped [] [madison_line] heading_line Hshort).
Defined.

Section FileToName.
Context `{!DateCodec}.

(** X17: from the station file to [StationName].  When the last line of
    the file is a line of Wisconsin in the columns above and its name is
    not blank, the constructor returns on a cluster with a node in reach
    that serves statements at its default level, and [StationName] for
    the id of the line, stripped, answers with the name of the line,
    stripped, and an empty error. *)
Theorem station_line_is_served (c : cluster) (before : list string)
    (id gap sep station_name rest : string) :
  live c ≠ 0%nat →
  ¬ (live c < block_for (default_consistency_level c) 3)%nat →
  String.length id = 11%nat → String.length gap = 27%nat →
  String.length sep = 1%nat → String.length station_name = 30%nat →
  strip station_name ≠ "" →
  station_file c
  = inr (wi_stations
           (before ++ [id +:+ gap +:+ "WI" +:+ sep +:+ station_name +:+ rest])) →
  ∃ c' self,
    init c = (c', inr self)
    ∧ StationName self (StationNameRequest.mk (strip id)) c'
      = (c', inr (StationNameReply.mk (strip station_name) "")).
Proof.
  intros Hlive Hreplicas Hid Hgap Hsep Hname Hfull Hfile.
  destruct (init_names_served c _ Hlive Hreplicas Hfile)
    as (c' & self & Hinit & _ & Hreply).
  exists c', self. split; [done|]. rewrite Hreply.
  cbn [StationNameRequest.station].
  rewrite wi_stations_app, seeded_app.
  rewrite (wi_stations_line id gap "WI" sep station_name rest) by done.
  rewrite decide_True by done. cbn [seeded fst snd].
  rewrite decide_True by done. by rewrite bool_decide_true by done.
Qed.

End FileToName.

Lemma station_line_is_served_witness :
  live (example_cluster 3) ≠ 0%nat
  ∧ ¬ (live (example_cluster 3)
       < block_for (default_consistency_level (example_cluster 3)) 3)%nat
  ∧ String.length "USW00014837" = 11%nat
  ∧ String.length "  43.1406  -89.3453  264.0 " = 27%nat
  ∧ String.length " " = 1%nat
  ∧ String.length "MADISON DANE CO RGNL AP       " = 30%nat
  ∧ strip "MADISON DANE CO RGNL AP       " ≠ ""
  ∧ station_file (example_cluster 3)
    = inr (wi_stations
             ([heading_line]
              ++ ["USW00014837" +:+ "  43.1406  -89.3453  264.0 " +:+ "WI"
                  +:+ " " +:+ "MADISON DANE CO RGNL AP       "
                  +:+ "         72641"]))
  ∧ ∃ c' self,
      init (example_cluster 3) = (c', inr self)
      ∧ StationName self
          (StationNameRequest.mk (strip "USW00014837")) c'
        = (c', inr (StationNameReply.mk
                      (strip "MADISON DANE CO RGNL AP       ") "")).
Proof.
  assert (live (example_cluster 3) ≠ 0%nat) as Hlive by discriminate.
  assert (¬ (live (example_cluster 3)
             < block_for (default_consistency_level (example_cluster 3)) 3)%nat)
    as Hreplicas by (cbn; lia).
  assert (strip "MADISON DANE CO RGNL AP       " ≠ "") as Hfull
    by (intros Hempty; vm_compute in Hempty; discriminate Hempty).
  assert (station_file (example_cluster 3)
          = inr (wi_stations
                   ([heading_line]
                    ++ ["USW00014837" +:+ "  43.1406  -89.3453  264.0 " +:+ "WI"
                        +:+ " " +:+ "MADISON DANE CO RGNL AP       "
                        +:+ "         72641"]))) as Hfile
    by (vm_compute; reflexivity).
  split; [exact Hlive|]. split; [exact Hreplicas|]. split; [reflexivity|].
  split; [reflexivity|]. split; [reflexivity|]. split; [reflexivity|].
  split; [exact Hfull|]. split; [exact Hfile|].
  exact (station_line_is_served (example_cluster 3) [heading_line]
           "USW00014837" "  43.1406  -89.3453  264.0 " " "
           "MADISON DANE CO RGNL AP       " "         72641"
           Hlive Hreplicas eq_refl eq_refl eq_refl eq_refl Hfull Hfile).
Defined.
